(** * The Streamlit control panel of the synthetic data generator

    A shallow embedding of [streamlit_app.py].  The script is re-executed by
    Streamlit from top to bottom on every user interaction; one execution is
    the function [script] below, run in a small monad that threads the
    session state and the observable events (HTTP requests, on-screen
    messages, waits) and that distinguishes normal completion, [st.rerun()]
    and an uncaught Python exception. *)

From Stdlib Require Import ZArith List String Ascii Bool Lia.
From Stdlib Require Import Floats.SpecFloat DecimalString.
Import ListNotations.

Local Open Scope string_scope.
Local Open Scope Z_scope.

(** ** Python values

    The values that travel through the script come from [response.json()]:
    they are JSON documents seen as Python objects.  A [dict] is kept as an
    association list in insertion order, looked up by first match. *)

#[local] Set Warnings "-register-all".

Inductive pyval : Type :=
| PNone
| PBool (b : bool)
| PInt (n : Z)
| PFloat (f : spec_float)
| PStr (s : string)
| PList (l : list pyval)
| PDict (kv : list (string * pyval)).

(** Python's truth value testing ([if x:], [x and y], [not x]). *)
Definition truthy (v : pyval) : bool :=
  match v with
  | PNone => false
  | PBool b => b
  | PInt n => negb (n =? 0)
  | PFloat (S754_zero _) => false
  | PFloat _ => true
  | PStr s => negb (s =? EmptyString)%string
  | PList l => match l with [] => false | _ => true end
  | PDict kv => match kv with [] => false | _ => true end
  end.

(** The exceptions the script can meet.  The first three are subclasses of
    [requests.exceptions.RequestException] (from requests 2.27 on,
    [response.json()] raises [requests.exceptions.JSONDecodeError], which is
    one of them, for a body that is not JSON; its text tells where decoding
    stopped).  The others are not: among them the [ValueError] and the
    [RecursionError] that [response.json()] raises for a JSON body Python
    refuses to decode (an integer with more digits than the interpreter's
    limit, a nesting too deep). *)
Inductive exn : Type :=
| ConnectionError (why : string)
| HTTPError (status : Z) (reason url : string)
| JSONDecodeError (what : string)
| KeyError (key : string)
| TypeError (what : string)
| ValueError (what : string)
| RecursionError (what : string)
| OverflowError (what : string)
| AttributeError (what : string)
| OSError (what : string)
| StreamlitAPIException (what : string).

Definition is_RequestException (e : exn) : bool :=
  match e with
  | ConnectionError _ | HTTPError _ _ _ | JSONDecodeError _ => true
  | _ => false
  end.

(** [except Exception] catches every exception of the model. *)
Definition is_Exception (e : exn) : bool := true.

Fixpoint lookup (k : string) (kv : list (string * pyval)) : option pyval :=
  match kv with
  | [] => None
  | (k', v) :: rest => if (k' =? k)%string then Some v else lookup k rest
  end.

Definition is_substring (needle hay : string) : bool :=
  match index 0 needle hay with Some _ => true | None => false end.

Definition py_eq_str (v : pyval) (s : string) : bool :=
  match v with PStr t => (t =? s)%string | _ => false end.

(** [v[k]] for a string key [k]. *)
Definition py_getitem (v : pyval) (k : string) : exn + pyval :=
  match v with
  | PDict kv =>
      match lookup k kv with Some x => inr x | None => inl (KeyError k) end
  | PList _ => inl (TypeError "list indices must be integers or slices, not str")
  | PStr _ => inl (TypeError "string indices must be integers")
  | _ => inl (TypeError "object is not subscriptable")
  end.

(** [k in v] for a string [k]. *)
Definition py_contains (k : string) (v : pyval) : exn + bool :=
  match v with
  | PDict kv => inr (match lookup k kv with Some _ => true | None => false end)
  | PList l => inr (existsb (fun x => py_eq_str x k) l)
  | PStr s => inr (is_substring k s)
  | _ => inl (TypeError "argument is not iterable")
  end.

(** [v.get(k, default)]; only dictionaries have the method. *)
Definition py_get (v : pyval) (k : string) (default : pyval) : exn + pyval :=
  match v with
  | PDict kv =>
      inr (match lookup k kv with Some x => x | None => default end)
  | _ => inl (AttributeError "object has no attribute 'get'")
  end.

(** ** Binary64 arithmetic used by the script *)

Definition prec64 : Z := 53.
Definition emax64 : Z := 1024.

(** The literal [0.1]: the double nearest to one tenth,
    [0x1.999999999999ap-4]. *)
Definition float_0_1 : spec_float := S754_finite false 7205759403792794 (-56).

(** [float(n)] for a Python [int]: correctly rounded, [OverflowError] when
    the integer is out of the range of a double. *)
Definition float_of_int (n : Z) : exn + spec_float :=
  match binary_normalize prec64 emax64 n 0 false with
  | S754_infinity _ => inl (OverflowError "int too large to convert to float")
  | f => inr f
  end.

(** [int(x)] for a Python [float]: truncation toward zero. *)
Definition py_int (x : spec_float) : exn + Z :=
  match x with
  | S754_zero _ => inr 0
  | S754_infinity _ => inl (OverflowError "cannot convert float infinity to integer")
  | S754_nan => inl (ValueError "cannot convert float NaN to integer")
  | S754_finite s m e =>
      let a := if 0 <=? e then Z.pos m * 2 ^ e else Z.pos m / 2 ^ (- e) in
      inr (if s then - a else a)
  end.

(** [v * c] for a float [c]. *)
Definition py_mul_float (v : pyval) (c : spec_float) : exn + spec_float :=
  match v with
  | PInt n =>
      match float_of_int n with
      | inr f => inr (SFmul prec64 emax64 f c)
      | inl e => inl e
      end
  | PBool b =>
      match float_of_int (Z.b2z b) with
      | inr f => inr (SFmul prec64 emax64 f c)
      | inl e => inl e
      end
  | PFloat f => inr (SFmul prec64 emax64 f c)
  | PStr _ | PList _ =>
      inl (TypeError "can't multiply sequence by non-int of type 'float'")
  | _ => inl (TypeError "unsupported operand type(s) for *")
  end.

(** [min(10, max(1, int(rows_detected * 0.1)))], the default of the
    "Number of rows to append" input. *)
Definition default_rows_to_append (rows_detected : pyval) : exn + Z :=
  match py_mul_float rows_detected float_0_1 with
  | inl e => inl e
  | inr x =>
      match py_int x with
      | inl e => inl e
      | inr n => inr (Z.min 10 (Z.max 1 n))
      end
  end.

(** ** Session state

    [st.session_state]: the attributes the script initialises at start-up,
    and [rows_detected], which only the upload handler creates ([None] here
    when the attribute does not exist yet). *)

Inductive data_type : Type :=
| t_string | t_integer | t_float | t_boolean | t_date | t_datetime
| t_email | t_phone | t_address | t_name | t_country | t_state
| t_city | t_zip | t_url | t_list.

Definition DATA_TYPES : list data_type :=
  [ t_string; t_integer; t_float; t_boolean; t_date; t_datetime;
    t_email; t_phone; t_address; t_name; t_country; t_state;
    t_city; t_zip; t_url; t_list ].

Definition type_name (t : data_type) : string :=
  match t with
  | t_string => "string" | t_integer => "integer" | t_float => "float"
  | t_boolean => "boolean" | t_date => "date" | t_datetime => "datetime"
  | t_email => "email" | t_phone => "phone" | t_address => "address"
  | t_name => "name" | t_country => "country" | t_state => "state"
  | t_city => "city" | t_zip => "zip" | t_url => "url" | t_list => "list"
  end.

(** One element of [st.session_state.columns]. *)
Record ColumnSpec : Type := {
  name : string;
  type : data_type;
  description : option string;
  constraints : option (list (string * Z))
}.

Record session : Type := {
  columns : list ColumnSpec;
  task_id : pyval;
  data : pyval;
  csv_file : pyval;
  uploaded_file_id : pyval;
  uploaded_file_name : pyval;
  uploaded_columns : pyval;
  append_task_id : pyval;
  rows_detected : option pyval
}.

(** The "App state" block of the script. *)
Definition initial_session : session := {|
  columns := [];
  task_id := PNone;
  data := PNone;
  csv_file := PNone;
  uploaded_file_id := PNone;
  uploaded_file_name := PNone;
  uploaded_columns := PNone;
  append_task_id := PNone;
  rows_detected := None
|}.

(** ** Observable events *)

Record request : Type := {
  rq_method : string;
  rq_url : string;
  rq_json : option pyval;
  rq_files : option (string * string)
}.

(** What the [requests] call gets back: nothing (transport failure), or an
    HTTP response.  [json] is what [response.json()] does on its body: it
    returns the decoded document or raises. *)
Inductive reply : Type :=
| NoReply (why : string)
| Reply (status : Z) (reason text : string) (json : exn + pyval).

Inductive level : Type := Error | Success | Info | Warning.

Inductive event : Type :=
| Net (r : request)
| Show (l : level) (text : string)
| Sleep (seconds : Z)
| Offer (label file_name : string).

(** The state one execution of the script works on: the session and the
    events so far, newest first. *)
Record world : Type := {
  sess : session;
  log : list event
}.

Fixpoint requests_of (l : list event) : list request :=
  match l with
  | [] => []
  | Net r :: rest => r :: requests_of rest
  | _ :: rest => requests_of rest
  end.

(** ** The execution monad *)

Inductive outcome (A : Type) : Type :=
| Done (a : A)
| Rerun
| Raise (e : exn).

Arguments Done {A} a.
Arguments Rerun {A}.
Arguments Raise {A} e.

Definition M (A : Type) : Type := world -> outcome A * world.

Definition ret {A} (a : A) : M A := fun w => (Done a, w).

Definition bind {A B} (m : M A) (k : A -> M B) : M B :=
  fun w =>
    match m w with
    | (Done a, w') => k a w'
    | (Rerun, w') => (Rerun, w')
    | (Raise e, w') => (Raise e, w')
    end.

Declare Scope py_scope.
Delimit Scope py_scope with py.
Notation "x <- m ;; k" := (bind m (fun x => k))
  (at level 61, m at next level, right associativity) : py_scope.
Notation "m ;; k" := (bind m (fun _ => k))
  (at level 61, right associativity) : py_scope.
Local Open Scope py_scope.

Definition raise {A} (e : exn) : M A := fun w => (Raise e, w).

(** [st.rerun()] stops the current execution. *)
Definition st_rerun {A} : M A := fun w => (Rerun, w).

Definition lift {A} (r : exn + A) : M A :=
  match r with inl e => raise e | inr a => ret a end.

(** [try: body except <class> as e: handler e]. *)
Definition try_except {A} (body : M A) (catches : exn -> bool)
    (handler : exn -> M A) : M A :=
  fun w =>
    match body w with
    | (Raise e, w') => if catches e then handler e w' else (Raise e, w')
    | r => r
    end.

Definition get : M session := fun w => (Done (sess w), w).

Definition modify (f : session -> session) : M unit :=
  fun w => (Done tt, {| sess := f (sess w); log := log w |}).

Definition emit (e : event) : M unit :=
  fun w => (Done tt, {| sess := sess w; log := e :: log w |}).

Definition st_error (text : string) : M unit := emit (Show Error text).
Definition st_success (text : string) : M unit := emit (Show Success text).
Definition st_info (text : string) : M unit := emit (Show Info text).
Definition st_warning (text : string) : M unit := emit (Show Warning text).
Definition time_sleep (seconds : Z) : M unit := emit (Sleep seconds).
Definition st_download_button (label file_name : string) : M unit :=
  emit (Offer label file_name).

(** Assignments to the attributes of [st.session_state]. *)
Definition set_columns (c : list ColumnSpec) : M unit :=
  modify (fun s => {| columns := c; task_id := task_id s; data := data s;
    csv_file := csv_file s; uploaded_file_id := uploaded_file_id s;
    uploaded_file_name := uploaded_file_name s;
    uploaded_columns := uploaded_columns s;
    append_task_id := append_task_id s; rows_detected := rows_detected s |}).
Definition set_task_id (v : pyval) : M unit :=
  modify (fun s => {| columns := columns s; task_id := v; data := data s;
    csv_file := csv_file s; uploaded_file_id := uploaded_file_id s;
    uploaded_file_name := uploaded_file_name s;
    uploaded_columns := uploaded_columns s;
    append_task_id := append_task_id s; rows_detected := rows_detected s |}).
Definition set_data (v : pyval) : M unit :=
  modify (fun s => {| columns := columns s; task_id := task_id s; data := v;
    csv_file := csv_file s; uploaded_file_id := uploaded_file_id s;
    uploaded_file_name := uploaded_file_name s;
    uploaded_columns := uploaded_columns s;
    append_task_id := append_task_id s; rows_detected := rows_detected s |}).
Definition set_csv_file (v : pyval) : M unit :=
  modify (fun s => {| columns := columns s; task_id := task_id s;
    data := data s; csv_file := v; uploaded_file_id := uploaded_file_id s;
    uploaded_file_name := uploaded_file_name s;
    uploaded_columns := uploaded_columns s;
    append_task_id := append_task_id s; rows_detected := rows_detected s |}).
Definition set_uploaded_file_id (v : pyval) : M unit :=
  modify (fun s => {| columns := columns s; task_id := task_id s;
    data := data s; csv_file := csv_file s; uploaded_file_id := v;
    uploaded_file_name := uploaded_file_name s;
    uploaded_columns := uploaded_columns s;
    append_task_id := append_task_id s; rows_detected := rows_detected s |}).
Definition set_uploaded_file_name (v : pyval) : M unit :=
  modify (fun s => {| columns := columns s; task_id := task_id s;
    data := data s; csv_file := csv_file s;
    uploaded_file_id := uploaded_file_id s; uploaded_file_name := v;
    uploaded_columns := uploaded_columns s;
    append_task_id := append_task_id s; rows_detected := rows_detected s |}).
Definition set_uploaded_columns (v : pyval) : M unit :=
  modify (fun s => {| columns := columns s; task_id := task_id s;
    data := data s; csv_file := csv_file s;
    uploaded_file_id := uploaded_file_id s;
    uploaded_file_name := uploaded_file_name s; uploaded_columns := v;
    append_task_id := append_task_id s; rows_detected := rows_detected s |}).
Definition set_append_task_id (v : pyval) : M unit :=
  modify (fun s => {| columns := columns s; task_id := task_id s;
    data := data s; csv_file := csv_file s;
    uploaded_file_id := uploaded_file_id s;
    uploaded_file_name := uploaded_file_name s;
    uploaded_columns := uploaded_columns s;
    append_task_id := v; rows_detected := rows_detected s |}).
Definition set_rows_detected (v : pyval) : M unit :=
  modify (fun s => {| columns := columns s; task_id := task_id s;
    data := data s; csv_file := csv_file s;
    uploaded_file_id := uploaded_file_id s;
    uploaded_file_name := uploaded_file_name s;
    uploaded_columns := uploaded_columns s;
    append_task_id := append_task_id s; rows_detected := Some v |}).

(** ** What lies outside the script

    The backend, Python's [str()] on values that are not strings, the file
    system and pandas are not part of the repository; the script is
    modelled over any behaviour of theirs.  The backend answers a request
    knowing the requests it has received before (newest first).
    [DataFrame v] tells whether [pd.DataFrame(v)] accepts [v]; [tolist c] is
    what a column built from the values [c] gives back through
    [.tolist()], pandas having chosen a type for the column. *)
Record env : Type := {
  backend : list request -> request -> reply;
  py_repr : pyval -> string;
  read_text : string -> option string;
  read_csv : string -> bool;
  DataFrame : pyval -> bool;
  tolist : list pyval -> list pyval
}.

(** Widget state of one execution: the button that triggered it (at most
    one button is pressed per execution) and the current values of the
    inputs.  An input left at [None] yields its default. *)
Inductive button : Type :=
| NoButton | CancelTask | AddColumn | ClearAllColumns | GenerateData
| DownloadJSON | ConvertToCSV | RefreshTasks | LoadSelectedTask
| ProcessCSV | GenerateAndAppend | StartNewAppendTask | UploadDifferentFile.

Definition button_eqb (a b : button) : bool :=
  match a, b with
  | NoButton, NoButton | CancelTask, CancelTask | AddColumn, AddColumn
  | ClearAllColumns, ClearAllColumns | GenerateData, GenerateData
  | DownloadJSON, DownloadJSON | ConvertToCSV, ConvertToCSV
  | RefreshTasks, RefreshTasks | LoadSelectedTask, LoadSelectedTask
  | ProcessCSV, ProcessCSV | GenerateAndAppend, GenerateAndAppend
  | StartNewAppendTask, StartNewAppendTask
  | UploadDifferentFile, UploadDifferentFile => true
  | _, _ => false
  end.

Inductive provider_key : Type := ollama | google.

Definition provider_id (p : provider_key) : string :=
  match p with ollama => "ollama" | google => "google" end.

(** [MODEL_PROVIDERS[p]["models"]]. *)
Definition MODEL_PROVIDERS_models (p : provider_key) : list string :=
  match p with
  | ollama => ["gemma3:latest"; "llama3.2:1b"]
  | google => ["gemini-2.0-flash"]
  end.

Record inputs : Type := {
  pressed : button;
  sel_provider : provider_key;
  sel_model : nat;
  in_num_rows : option Z;
  in_batch_size : option Z;
  in_parallel : bool;
  in_column_name : string;
  in_column_type : data_type;
  in_column_description : string;
  in_min_value : option Z;
  in_max_value : option Z;
  in_min_length : option Z;
  in_max_length : option Z;
  sel_task : nat;
  in_uploaded_file : option (string * string);
  in_append_model : option string;
  in_rows_to_append : option Z;
  in_append_batch_size : option Z;
  in_append_parallel : bool
}.

Definition st_button (i : inputs) (b : button) : bool :=
  button_eqb (pressed i) b.

Definition st_text_input (current : option string) (value : string) : string :=
  match current with Some s => s | None => value end.

Definition st_number_input (current : option Z) (value : Z) : Z :=
  match current with Some n => n | None => value end.

(** [st.selectbox]: the chosen option, the first one by default. *)
Definition st_selectbox {A} (choice : nat) (options : list A) (d : A) : A :=
  nth choice options (hd d options).

Definition API_URL : string := "http://localhost:8000".

Section App.

Variable E : env.

(** [f"{v}"]. *)
Definition py_str (v : pyval) : string :=
  match v with PStr s => s | _ => py_repr E v end.

Definition str_exn (e : exn) : string :=
  match e with
  | ConnectionError why => why
  | HTTPError status reason url =>
      py_repr E (PInt status)
      ++ (if status <? 500 then " Client Error: " else " Server Error: ")
      ++ reason ++ " for url: " ++ url
  | KeyError k => "'" ++ k ++ "'"
  | JSONDecodeError s | TypeError s | ValueError s | RecursionError s
  | OverflowError s | AttributeError s | OSError s
  | StreamlitAPIException s => s
  end.

(** ** The [requests] library *)

Record response : Type := {
  status_code : Z;
  resp_reason : string;
  resp_text : string;
  resp_json : exn + pyval;
  resp_url : string
}.

(** Sending a request: the request is recorded, the backend consulted; a
    transport failure raises. *)
Definition requests_send (r : request) : M response :=
  fun w =>
    let w' := {| sess := sess w; log := Net r :: log w |} in
    match backend E (requests_of (log w)) r with
    | NoReply why => (Raise (ConnectionError why), w')
    | Reply status reason text json =>
        (Done {| status_code := status; resp_reason := reason;
                 resp_text := text; resp_json := json;
                 resp_url := rq_url r |}, w')
    end.

Definition requests_get (url : string) : M response :=
  requests_send {| rq_method := "GET"; rq_url := url;
                   rq_json := None; rq_files := None |}.
Definition requests_post (url : string) (json : option pyval)
    (files : option (string * string)) : M response :=
  requests_send {| rq_method := "POST"; rq_url := url;
                   rq_json := json; rq_files := files |}.
Definition requests_delete (url : string) : M response :=
  requests_send {| rq_method := "DELETE"; rq_url := url;
                   rq_json := None; rq_files := None |}.

Definition raise_for_status (r : response) : M unit :=
  if (400 <=? status_code r) && (status_code r <? 600)
  then raise (HTTPError (status_code r) (resp_reason r) (resp_url r))
  else ret tt.

(** [response.json()]: the decoded body, or the exception decoding
    raises. *)
Definition response_json (r : response) : M pyval := lift (resp_json r).

(** ** [call_api]

    [logger.error] writes to the process log only and is left out. *)
Definition call_api (endpoint method : string) (data : option pyval)
    : M pyval :=
  let url := API_URL ++ "/" ++ endpoint in
  let finish (response : response) : M pyval :=
    raise_for_status response ;; response_json response in
  try_except
    (if (method =? "GET")%string then
       response <- requests_get url ;; finish response
     else if (method =? "POST")%string then
       response <- requests_post url data None ;; finish response
     else if (method =? "DELETE")%string then
       response <- requests_delete url ;; finish response
     else
       st_error ("Unsupported method: " ++ method) ;; ret PNone)
    is_RequestException
    (fun e => st_error ("API Error: " ++ str_exn e) ;; ret PNone).

(** [a and k in a]. *)
Definition truthy_and_contains (k : string) (a : pyval) : M bool :=
  if truthy a then lift (py_contains k a) else ret false.

(** ** Sidebar *)

Definition provider (i : inputs) : provider_key := sel_provider i.

Definition model (i : inputs) : string :=
  st_selectbox (sel_model i) (MODEL_PROVIDERS_models (provider i)) EmptyString.

Definition num_rows (i : inputs) : Z := st_number_input (in_num_rows i) 10.
Definition batch_size (i : inputs) : Z := st_number_input (in_batch_size i) 10.
Definition parallel (i : inputs) : bool := in_parallel i.

(** The body of the "Cancel Task" button. *)
Definition cancel_task : M unit :=
  s <- get ;;
  call_api ("tasks/" ++ py_str (task_id s)) "DELETE" None ;;
  set_task_id PNone ;;
  set_data PNone ;;
  set_csv_file PNone ;;
  st_rerun.

Definition sidebar (i : inputs) : M unit :=
  s <- get ;;
  if truthy (task_id s) then
    if st_button i CancelTask then cancel_task else ret tt
  else ret tt.

(** ** Column Definition tab *)

Definition column_to_py (c : ColumnSpec) : pyval :=
  PDict [ ("name", PStr (name c));
          ("type", PStr (type_name (type c)));
          ("description",
            match description c with Some d => PStr d | None => PNone end);
          ("constraints",
            match constraints c with
            | Some kv => PDict (map (fun p => (fst p, PInt (snd p))) kv)
            | None => PNone
            end) ].

Definition is_numeric (t : data_type) : bool :=
  match t with t_integer | t_float => true | _ => false end.

Definition is_string (t : data_type) : bool :=
  match t with t_string => true | _ => false end.

Definition put_if_set (key : string) (v : option Z) : list (string * Z) :=
  match v with Some x => [(key, x)] | None => [] end.

(** The [constraints] dictionary built in the "Advanced Constraints"
    expander. *)
Definition form_constraints (i : inputs) : list (string * Z) :=
  if is_numeric (in_column_type i) then
    put_if_set "ge" (in_min_value i) ++ put_if_set "le" (in_max_value i)
  else if is_string (in_column_type i) then
    put_if_set "min_length" (in_min_length i)
    ++ put_if_set "max_length" (in_max_length i)
  else [].

Definition form_column (i : inputs) : ColumnSpec := {|
  name := in_column_name i;
  type := in_column_type i;
  description :=
    if (in_column_description i =? EmptyString)%string then None
    else Some (in_column_description i);
  constraints :=
    match form_constraints i with [] => None | kv => Some kv end
|}.

Definition generate_request_data (i : inputs) (cols : list ColumnSpec)
    : pyval :=
  PDict [ ("columns", PList (map column_to_py cols));
          ("rows", PInt (num_rows i));
          ("model", PStr (model i));
          ("model_provider", PStr (provider_id (provider i)));
          ("batch_size", PInt (batch_size i));
          ("parallel", PBool (parallel i)) ].

(** The body of the "Generate Data" button. *)
Definition generate_data (i : inputs) : M unit :=
  s <- get ;;
  match columns s with
  | [] => st_error "Please add at least one column"
  | _ :: _ =>
      result <- call_api "generate" "POST"
                  (Some (generate_request_data i (columns s))) ;;
      ok <- truthy_and_contains "task_id" result ;;
      if ok then
        v <- lift (py_getitem result "task_id") ;;
        set_task_id v ;;
        v' <- lift (py_getitem result "task_id") ;;
        st_success ("Generation task submitted! Task ID: " ++ py_str v') ;;
        st_rerun
      else ret tt
  end.

Definition column_definition_tab (i : inputs) : M unit :=
  (if st_button i AddColumn && negb (in_column_name i =? EmptyString)%string then
     s <- get ;; set_columns (columns s ++ [form_column i])
   else ret tt) ;;
  s <- get ;;
  match columns s with
  | [] => ret tt
  | _ :: _ =>
      (if st_button i ClearAllColumns then set_columns [] ;; st_rerun
       else ret tt) ;;
      if st_button i GenerateData then generate_data i else ret tt
  end.

(** ** Results tab *)

(** The CSV preview and download of the Results tab, inside its
    [try ... except Exception]. *)
Definition csv_preview (s : session) : M unit :=
  try_except
    (match csv_file s with
     | PStr path =>
         (if read_csv E path then ret tt
          else raise (OSError "pandas could not read the file")) ;;
         match read_text E path with
         | Some _ =>
             st_download_button "Download CSV File"
               ("synthetic_data_" ++ py_str (task_id s) ++ ".csv")
         | None => raise (OSError "No such file or directory")
         end
     | _ => raise (ValueError "Invalid file path or buffer object type")
     end)
    is_Exception
    (fun e => st_error ("Error reading CSV file: " ++ str_exn e)).

(** The data fetch of the Results tab, behind its guard. *)
Definition fetch_result : M unit :=
  s <- get ;;
  if negb (truthy (data s)) then
    d <- call_api ("data/" ++ py_str (task_id s)) "GET" None ;;
    set_data d
  else ret tt.

(** What the Results tab shows once the data is there. *)
Definition show_result (i : inputs) : M unit :=
  s <- get ;;
  has_data <- truthy_and_contains "data" (data s) ;;
  if has_data then
    rows <- lift (py_getitem (data s) "data") ;;
    (if DataFrame E rows then ret tt
     else raise (ValueError "DataFrame constructor not properly called!")) ;;
    (if st_button i DownloadJSON then
       st_download_button "Download JSON File"
         ("synthetic_data_" ++ py_str (task_id s) ++ ".json")
     else ret tt) ;;
    (if st_button i ConvertToCSV then
       csv_result <- call_api ("convert_to_csv/" ++ py_str (task_id s))
                       "POST" None ;;
       ok <- truthy_and_contains "csv_file" csv_result ;;
       if ok then
         f <- lift (py_getitem csv_result "csv_file") ;;
         set_csv_file f ;;
         st_success "CSV conversion successful!"
       else ret tt
     else ret tt) ;;
    s <- get ;;
    if truthy (csv_file s) then csv_preview s else ret tt
  else ret tt.

Definition results_tab (i : inputs) : M unit :=
  s <- get ;;
  if truthy (task_id s) then
    task_status <- call_api ("task/" ++ py_str (task_id s)) "GET" None ;;
    if truthy task_status then
      status <- lift (py_getitem task_status "status") ;;
      st_info ("Status: " ++ py_str status) ;;
      if py_eq_str status "completed" then
        fetch_result ;;
        show_result i
      else if py_eq_str status "running" || py_eq_str status "pending" then
        st_warning "Data generation is in progress... This may take some time." ;;
        time_sleep 3 ;;
        st_rerun
      else if py_eq_str status "failed" then
        msg <- lift (py_get task_status "message" (PStr "Unknown error")) ;;
        st_error ("Generation failed: " ++ py_str msg)
      else ret tt
    else ret tt
  else
    st_info "No active generation task. Go to the Column Definition tab to start a new task.".

(** ** Recent Tasks tab *)

(** [for t in v]: the elements of a list, the keys of a dictionary, the
    characters of a string. *)
Fixpoint chars (s : string) : list pyval :=
  match s with
  | EmptyString => []
  | String c rest => PStr (String c EmptyString) :: chars rest
  end.

Definition py_iter (v : pyval) : exn + list pyval :=
  match v with
  | PList l => inr l
  | PDict kv => inr (map (fun p => PStr (fst p)) kv)
  | PStr s => inr (chars s)
  | _ => inl (TypeError "object is not iterable")
  end.

Fixpoint for_each {A B} (f : A -> M B) (l : list A) : M (list B) :=
  match l with
  | [] => ret []
  | x :: rest => y <- f x ;; ys <- for_each f rest ;; ret (y :: ys)
  end.

(** [t[k] if t[k] else <empty string>]. *)
Definition item_or_empty (t : pyval) (k : string) : M pyval :=
  x <- lift (py_getitem t k) ;;
  if truthy x then lift (py_getitem t k) else ret (PStr EmptyString).

(** One row of the task table; the result is its "Task ID" cell. *)
Definition task_row (t : pyval) : M pyval :=
  tid <- lift (py_getitem t "task_id") ;;
  lift (py_getitem t "status") ;;
  lift (py_getitem t "created_at") ;;
  item_or_empty t "completed_at" ;;
  item_or_empty t "result_file" ;;
  ret tid.

(** The body of the "Load Selected Task" button. *)
Definition load_selected_task (task_id : pyval) : M unit :=
  set_task_id task_id ;;
  set_data PNone ;;
  set_csv_file PNone ;;
  st_rerun.

Definition recent_tasks_tab (i : inputs) : M unit :=
  (if st_button i RefreshTasks then st_rerun else ret tt) ;;
  tasks <- call_api "tasks" "GET" None ;;
  if truthy tasks then
    ts <- lift (py_iter tasks) ;;
    ids <- for_each task_row ts ;;
    match ids with
    | _ :: _ =>
        let task_id := st_selectbox (sel_task i) (tolist E ids) PNone in
        if st_button i LoadSelectedTask then load_selected_task task_id
        else ret tt
    | [] => st_info "No tasks available"
    end
  else st_info "No tasks available or unable to fetch task list".

(** ** Resume File Gen tab *)

Definition append_model (i : inputs) : string :=
  st_text_input (in_append_model i) "gemma3:latest".

Definition append_request_data (i : inputs) (s : session)
    (rows_to_append : Z) : pyval :=
  PDict [ ("file_id", uploaded_file_id s);
          ("rows", PInt rows_to_append);
          ("model", PStr (append_model i));
          ("model_provider", PStr (provider_id (provider i)));
          ("batch_size", PInt (st_number_input (in_append_batch_size i) 10));
          ("parallel", PBool (in_append_parallel i)) ].

Definition process_csv (i : inputs) : M unit :=
  match in_uploaded_file i with
  | None => ret tt
  | Some (file_name, bytes) =>
      if st_button i ProcessCSV then
        response <- requests_post (API_URL ++ "/upload_csv") None
                      (Some (file_name, bytes)) ;;
        if status_code response =? 200 then
          result <- response_json response ;;
          v <- lift (py_getitem result "file_id") ;;
          set_uploaded_file_id v ;;
          v <- lift (py_getitem result "filename") ;;
          set_uploaded_file_name v ;;
          v <- lift (py_getitem result "column_info") ;;
          set_uploaded_columns v ;;
          v <- lift (py_getitem result "row_count") ;;
          set_rows_detected v ;;
          v <- lift (py_getitem result "row_count") ;;
          st_success ("File processed successfully! Detected "
                      ++ py_str v ++ " rows.") ;;
          st_rerun
        else st_error ("Error processing file: " ++ resp_text response)
      else ret tt
  end.

(** Reading [st.session_state.rows_detected]. *)
Definition get_rows_detected : M pyval :=
  s <- get ;;
  match rows_detected s with
  | Some v => ret v
  | None => raise (AttributeError "st.session_state has no attribute rows_detected")
  end.

(** The status block of an active append task. *)
Definition append_status (i : inputs) (s : session) : M unit :=
  task_status <- call_api ("task/" ++ py_str (append_task_id s)) "GET" None ;;
  if truthy task_status then
    status <- lift (py_getitem task_status "status") ;;
    st_info ("Status: " ++ py_str status) ;;
    if py_eq_str status "completed" then
      st_success "Data appended successfully!" ;;
      response <- requests_get (API_URL ++ "/download_appended/"
                                ++ py_str (uploaded_file_id s)) ;;
      (if status_code response =? 200 then
         data <- response_json response ;;
         content <- lift (py_getitem data "content") ;;
         match content with
         | PStr _ =>
             st_download_button "Download Appended CSV"
               ("appended_" ++ py_str (uploaded_file_name s))
         | _ => raise (StreamlitAPIException "Invalid binary data format")
         end
       else ret tt) ;;
      result_file <- lift (py_getitem task_status "result_file") ;;
      (if truthy result_file then
         try_except
           (match result_file with
            | PStr path =>
                match read_text E path with
                | Some _ =>
                    st_download_button "Download Full Result"
                      ("full_result_" ++ py_str (uploaded_file_name s))
                | None => raise (OSError "No such file or directory")
                end
            | _ => raise (TypeError "expected str, bytes or os.PathLike object")
            end)
           is_Exception
           (fun e => st_error ("Error reading result file: " ++ str_exn e))
       else ret tt) ;;
      try_except
        (result_file <- lift (py_getitem task_status "result_file") ;;
         if truthy result_file then
           match result_file with
           | PStr path =>
               if read_csv E path then ret tt
               else raise (OSError "pandas could not read the file")
           | _ => raise (ValueError "Invalid file path or buffer object type")
           end
         else ret tt)
        is_Exception
        (fun e => st_error ("Error loading preview: " ++ str_exn e))
    else if py_eq_str status "running" || py_eq_str status "pending" then
      st_warning "Data generation is in progress... This may take some time." ;;
      time_sleep 3 ;;
      st_rerun
    else if py_eq_str status "failed" then
      msg <- lift (py_get task_status "message" (PStr "Unknown error")) ;;
      st_error ("Generation failed: " ++ py_str msg)
    else ret tt
  else ret tt.

(** The body of the "Generate and Append Data" button. *)
Definition submit_append (i : inputs) (rows_to_append : Z) : M unit :=
  s <- get ;;
  result <- call_api "append_data" "POST"
              (Some (append_request_data i s rows_to_append)) ;;
  ok <- truthy_and_contains "task_id" result ;;
  if ok then
    v <- lift (py_getitem result "task_id") ;;
    set_append_task_id v ;;
    v' <- lift (py_getitem result "task_id") ;;
    st_success ("Append task submitted! Task ID: " ++ py_str v') ;;
    st_rerun
  else ret tt.

Definition resume_file_gen_tab (i : inputs) : M unit :=
  process_csv i ;;
  s <- get ;;
  if truthy (uploaded_file_id s) then
    rows <- get_rows_detected ;;
    st_info ("Detected " ++ py_str rows ++ " rows in the original file") ;;
    (if truthy (uploaded_columns s) then
       if DataFrame E (uploaded_columns s) then ret tt
       else raise (ValueError "DataFrame constructor not properly called!")
     else ret tt) ;;
    rows <- get_rows_detected ;;
    value <- lift (default_rows_to_append rows) ;;
    let rows_to_append := st_number_input (in_rows_to_append i) value in
    (if st_button i GenerateAndAppend then submit_append i rows_to_append
     else ret tt) ;;
    s <- get ;;
    (if truthy (append_task_id s) then
       append_status i s ;;
       if st_button i StartNewAppendTask then
         set_append_task_id PNone ;; st_rerun
       else ret tt
     else ret tt) ;;
    if st_button i UploadDifferentFile then
      set_uploaded_file_id PNone ;;
      set_uploaded_file_name PNone ;;
      set_uploaded_columns PNone ;;
      set_append_task_id PNone ;;
      st_rerun
    else ret tt
  else ret tt.

(** ** One execution of the script, top to bottom *)
Definition script (i : inputs) : M unit :=
  sidebar i ;;
  column_definition_tab i ;;
  results_tab i ;;
  recent_tasks_tab i ;;
  resume_file_gen_tab i.

End App.

(** After [st.rerun()] Streamlit executes the script again with the same
    widget values and no button pressed. *)
Definition unpressed (i : inputs) : inputs := {|
  pressed := NoButton;
  sel_provider := sel_provider i; sel_model := sel_model i;
  in_num_rows := in_num_rows i; in_batch_size := in_batch_size i;
  in_parallel := in_parallel i; in_column_name := in_column_name i;
  in_column_type := in_column_type i;
  in_column_description := in_column_description i;
  in_min_value := in_min_value i; in_max_value := in_max_value i;
  in_min_length := in_min_length i; in_max_length := in_max_length i;
  sel_task := sel_task i; in_uploaded_file := in_uploaded_file i;
  in_append_model := in_append_model i;
  in_rows_to_append := in_rows_to_append i;
  in_append_batch_size := in_append_batch_size i;
  in_append_parallel := in_append_parallel i
|}.

(** The session after a sequence of executions. *)
Fixpoint executions (E : env) (runs : list inputs) (w : world) : world :=
  match runs with
  | [] => w
  | i :: rest => executions E rest (snd (script E i w))
  end.

Definition initial_world : world := {| sess := initial_session; log := [] |}.

(** The worlds a session can be in. *)
Inductive reachable (E : env) : world -> Prop :=
| reach_start : reachable E initial_world
| reach_step : forall w i, reachable E w -> reachable E (snd (script E i w)).

(** * Vocabulary of the properties *)

(** ** Requests by kind *)

Definition is_create_job (r : request) : bool :=
  (rq_method r =? "POST")%string
  && (rq_url r =? API_URL ++ "/generate")%string.

Definition is_fetch_result (r : request) : bool :=
  (rq_method r =? "GET")%string && prefix (API_URL ++ "/data/") (rq_url r).

(** The result-fetch request of the task [handle]. *)
Definition is_fetch_of (handle : string) (r : request) : bool :=
  (rq_method r =? "GET")%string
  && (rq_url r =? API_URL ++ "/data/" ++ handle)%string.

Definition is_append_job (r : request) : bool :=
  (rq_method r =? "POST")%string
  && (rq_url r =? API_URL ++ "/append_data")%string.

Definition is_status_of (handle : string) (r : request) : bool :=
  (rq_method r =? "GET")%string
  && (rq_url r =? API_URL ++ "/task/" ++ handle)%string.

Definition count (p : request -> bool) (l : list event) : nat :=
  List.length (filter p (requests_of l)).

Definition is_sleep (e : event) : bool :=
  match e with Sleep _ => true | _ => false end.

(** ** Properties carried through an execution

    [holds P S w0 w]: since the world [w0], only events accepted by [P] have
    been added to the log, and the session satisfies [S].  Such a property
    is carried through a computation step by step, whatever its outcome,
    because the world survives an exception or a rerun. *)

Definition holds (P : event -> bool) (S : session -> Prop) (w0 w : world)
    : Prop :=
  (exists new, log w = (new ++ log w0)%list /\ forallb P new = true) /\ S (sess w).

(** [keeps I quiet m w]: running [m] from [w] ends in a world satisfying
    [I]; when [quiet] is set, it moreover does not end in [st.rerun()]. *)
Definition keeps {A} (I : world -> Prop) (quiet : bool) (m : M A) (w : world)
    : Prop :=
  I (snd (m w)) /\ (quiet = true -> fst (m w) <> Rerun).

(** ** What [call_api] does *)

Definition api_request (method url : string) (data : option pyval)
    : request :=
  {| rq_method := method; rq_url := url;
     rq_json := if (method =? "POST")%string then data else None;
     rq_files := None |}.

(** The value [call_api] returns for a given answer of the backend, when
    it returns. *)
Definition api_result (answer : reply) : pyval :=
  match answer with
  | Reply status _ _ (inr v) =>
      if (400 <=? status) && (status <? 600) then PNone else v
  | _ => PNone
  end.

(** The exception the [try] block of [call_api] meets, if any, for an
    answer of the backend. *)
Definition api_exception (url : string) (answer : reply) : option exn :=
  match answer with
  | NoReply why => Some (ConnectionError why)
  | Reply status reason _ json =>
      if (400 <=? status) && (status <? 600)
      then Some (HTTPError status reason url)
      else match json with
           | inr _ => None
           | inl e => Some e
           end
  end.

(** The exception [call_api] catches and reports: a [RequestException]. *)
Definition api_failure (url : string) (answer : reply) : option exn :=
  match api_exception url answer with
  | Some e => if is_RequestException e then Some e else None
  | None => None
  end.

(** The exception that leaves [call_api]: one [response.json()] raises
    that is not a [RequestException]. *)
Definition api_escape (answer : reply) : option exn :=
  match api_exception EmptyString answer with
  | Some e => if is_RequestException e then None else Some e
  | None => None
  end.

(** How [call_api] ends for an answer of the backend. *)
Definition api_outcome (answer : reply) : outcome pyval :=
  match api_escape answer with
  | Some e => Raise e
  | None => Done (api_result answer)
  end.

Definition supported (method : string) : Prop :=
  method = "GET" \/ method = "POST" \/ method = "DELETE".

Definition not_create_job (e : event) : bool :=
  match e with Net r => negb (is_create_job r) | _ => true end.

(** The tabs that follow the Column Definition tab. *)
Definition later_tabs (E : env) (i : inputs) : M unit :=
  (results_tab E i ;; recent_tasks_tab E i ;; resume_file_gen_tab E i)%py.

(** ** Submitting and polling *)

Definition create_job_request (i : inputs) (cols : list ColumnSpec)
    : request :=
  api_request "POST" (API_URL ++ "/generate")
    (Some (generate_request_data i cols)).

Definition upload_request (file : string * string) : request :=
  {| rq_method := "POST"; rq_url := API_URL ++ "/upload_csv";
     rq_json := None; rq_files := Some file |}.

Definition status_request (E : env) (handle : pyval) : request :=
  api_request "GET" (API_URL ++ "/" ++ ("task/" ++ py_str E handle)) None.

Definition not_sleep (e : event) : bool := negb (is_sleep e).

(** The world in which the Results tab branches on the status [st]. *)
Definition polled (E : env) (w : world) (st : string) : world :=
  {| sess := sess w;
     log := Show Info ("Status: " ++ st)
            :: Net (status_request E (task_id (sess w))) :: log w |}.

(** The world after the wait of a pending or running task. *)
Definition waited (E : env) (w : world) (st : string) : world :=
  {| sess := sess w;
     log := Sleep 3
            :: Show Warning
                 "Data generation is in progress... This may take some time."
            :: log (polled E w st) |}.

(** The message of a failed task: [task_status.get('message', 'Unknown
    error')]. *)
Definition failure_message (kv : list (string * pyval)) : pyval :=
  match lookup "message" kv with Some m => m | None => PStr "Unknown error" end.

Definition any_event (e : event) : bool := true.

(** ** The cached result *)

Definition not_fetch_result (e : event) : bool :=
  match e with Net r => negb (is_fetch_result r) | _ => true end.

(** The buttons that leave the task handle alone. *)
Definition keeps_handle (b : button) : bool :=
  match b with
  | CancelTask | LoadSelectedTask | GenerateData => false
  | _ => true
  end.

(** The session still has the result [d] cached for the handle [t]. *)
Definition cached (d t : pyval) (s : session) : Prop :=
  data s = d /\ task_id s = t.

(** [adds_at_most k m]: running [m] adds at most [k] result-fetch requests
    to the log. *)
Definition adds_at_most {A} (k : nat) (m : M A) : Prop :=
  forall w,
    (count is_fetch_result (log (snd (m w)))
     <= k + count is_fetch_result (log w))%nat.

(** ** The column list *)

(** The constraint keys that mean something for a data kind. *)
Definition meaningful (t : data_type) (key : string) : bool :=
  if is_numeric t then (key =? "ge")%string || (key =? "le")%string
  else if is_string t then
    (key =? "min_length")%string || (key =? "max_length")%string
  else false.

Definition well_constrained (c : ColumnSpec) : Prop :=
  match constraints c with
  | None => True
  | Some kv =>
      kv <> [] /\ Forall (fun p => meaningful (type c) (fst p) = true) kv
  end.

Definition named (c : ColumnSpec) : Prop := name c <> EmptyString.

Definition columns_ok (s : session) : Prop :=
  Forall (fun c => named c /\ well_constrained c) (columns s).

(** What one execution may do to the column list [c0]: nothing, append the
    column of the form, or empty the list. *)
Definition one_change (c0 : list ColumnSpec) (fc : ColumnSpec) (s : session)
    : Prop :=
  columns s = c0 \/ columns s = (c0 ++ [fc])%list \/ columns s = [].

Definition same_columns (c0 : list ColumnSpec) (s : session) : Prop :=
  columns s = c0.

(** ** The append job *)

Definition field_is (kv : list (string * pyval)) (key value : string) : bool :=
  match lookup key kv with
  | Some (PStr s) => (s =? value)%string
  | _ => false
  end.

(** The body of an append request names the model of the append form and
    the provider of the sidebar. *)
Definition append_body_ok (i : inputs) (r : request) : bool :=
  match rq_json r with
  | Some (PDict kv) =>
      field_is kv "model" (append_model i)
      && field_is kv "model_provider" (provider_id (provider i))
  | _ => false
  end.

Definition append_jobs_ok (i : inputs) (e : event) : bool :=
  match e with
  | Net r => if is_append_job r then append_body_ok i r else true
  | _ => true
  end.

Definition append_job_request (i : inputs) (s : session) (rows : Z)
    : request :=
  api_request "POST" (API_URL ++ "/append_data")
    (Some (append_request_data i s rows)).

(** ** The default number of rows to append *)

(** Agreement of the code with the closed form at one row count. *)
Definition default_rows_agree (n : nat) : bool :=
  match default_rows_to_append (PInt (Z.of_nat n)) with
  | inr v => v =? Z.min 10 (Z.max 1 (Z.of_nat n / 10))
  | inl _ => false
  end.

(** Following the specification's sentence, not the code:
    [max(1, round(row_count * 0.1))], ten percent of the rows rounded to
    the nearest integer (ties to even, as Python's [round]), floor 1, no
    upper clamp. *)
Definition spec_default_rows (row_count : Z) : Z :=
  let q := row_count / 10 in
  let r := row_count mod 10 in
  Z.max 1 (if r <? 5 then q
           else if 5 <? r then q + 1
           else if Z.even q then q else q + 1).

(** ** Scenarios *)

Definition no_input : inputs := {|
  pressed := NoButton;
  sel_provider := google;
  sel_model := 0%nat;
  in_num_rows := None;
  in_batch_size := None;
  in_parallel := false;
  in_column_name := "age";
  in_column_type := t_integer;
  in_column_description := EmptyString;
  in_min_value := Some 18;
  in_max_value := None;
  in_min_length := None;
  in_max_length := None;
  sel_task := 0%nat;
  in_uploaded_file := Some ("people.csv", "name,age");
  in_append_model := None;
  in_rows_to_append := None;
  in_append_batch_size := None;
  in_append_parallel := false
|}.

Definition press (b : button) (i : inputs) : inputs := {|
  pressed := b;
  sel_provider := sel_provider i; sel_model := sel_model i;
  in_num_rows := in_num_rows i; in_batch_size := in_batch_size i;
  in_parallel := in_parallel i; in_column_name := in_column_name i;
  in_column_type := in_column_type i;
  in_column_description := in_column_description i;
  in_min_value := in_min_value i; in_max_value := in_max_value i;
  in_min_length := in_min_length i; in_max_length := in_max_length i;
  sel_task := sel_task i; in_uploaded_file := in_uploaded_file i;
  in_append_model := in_append_model i;
  in_rows_to_append := in_rows_to_append i;
  in_append_batch_size := in_append_batch_size i;
  in_append_parallel := in_append_parallel i
|}.

Definition ok_json (v : pyval) : reply := Reply 200 "OK" EmptyString (inr v).

(** A backend with a failed task [t1], a pending task [t2] and a completed
    task [t3]; it answers every submission with [t1]. *)
Definition demo_answers (r : request) : reply :=
  let url := rq_url r in
  if (url =? API_URL ++ "/generate")%string then
    ok_json (PDict [("task_id", PStr "t1")])
  else if (url =? API_URL ++ "/task/t1")%string then
    ok_json (PDict [("status", PStr "failed");
                    ("message", PStr "model timeout")])
  else if (url =? API_URL ++ "/task/t2")%string then
    ok_json (PDict [("status", PStr "pending")])
  else if (url =? API_URL ++ "/task/t3")%string then
    ok_json (PDict [("status", PStr "completed")])
  else if (url =? API_URL ++ "/data/t3")%string then
    ok_json (PDict [("data", PList [PDict [("age", PInt 30)]])])
  else if (url =? API_URL ++ "/tasks")%string then
    ok_json (PList [])
  else NoReply "Connection refused".

(** [str()] of the values whose text the scenarios show. *)
Definition plain_repr (v : pyval) : string :=
  match v with
  | PNone => "None"
  | PBool true => "True"
  | PBool false => "False"
  | PInt n => NilZero.string_of_int (Z.to_int n)
  | _ => "<object>"
  end.

Definition scripted (answers : request -> reply) : env := {|
  backend := fun _ r => answers r;
  py_repr := plain_repr;
  read_text := fun _ => None;
  read_csv := fun _ => false;
  DataFrame := fun _ => true;
  tolist := fun column => column
|}.

Definition demo_env : env := scripted demo_answers.

Definition unreachable_env : env :=
  scripted (fun _ => NoReply "Connection refused").

Definition age_column : ColumnSpec := {|
  name := "age"; type := t_integer; description := None;
  constraints := Some [("ge", 18)]
|}.

(** A session with one column and the task [handle] active. *)
Definition session_with (handle cached_data csv : pyval) : session := {|
  columns := [age_column];
  task_id := handle;
  data := cached_data;
  csv_file := csv;
  uploaded_file_id := PNone;
  uploaded_file_name := PNone;
  uploaded_columns := PNone;
  append_task_id := PNone;
  rows_detected := None
|}.

Definition world_with (handle cached_data csv : pyval) : world :=
  {| sess := session_with handle cached_data csv; log := [] |}.

(** The failed task [t1] is active while the append task [t2] of an
    uploaded file of 100 rows is pending. *)
Definition failed_and_appending : world := {|
  sess := {|
    columns := [];
    task_id := PStr "t1";
    data := PNone;
    csv_file := PNone;
    uploaded_file_id := PStr "f1";
    uploaded_file_name := PStr "people.csv";
    uploaded_columns := PNone;
    append_task_id := PStr "t2";
    rows_detected := Some (PInt 100)
  |};
  log := []
|}.

Definition add_age : inputs := press AddColumn no_input.

(** * Vocabulary of the further properties *)

(** What [call_api] shows for an answer of the backend. *)
Definition api_messages (E : env) (url : string) (answer : reply)
    : list event :=
  match api_failure url answer with
  | Some e => [Show Error ("API Error: " ++ str_exn E e)]
  | None => []
  end.

(** The JSON body of an answer, if it has one. *)
Definition resp_body (answer : reply) : option pyval :=
  match answer with
  | Reply _ _ _ (inr v) => Some v
  | _ => None
  end.

(** The buttons that leave the CSV reference alone. *)
Definition keeps_csv (b : button) : bool :=
  match b with
  | CancelTask | LoadSelectedTask | ConvertToCSV => false
  | _ => true
  end.

(** The buttons that leave a cached result alone. *)
Definition keeps_result (b : button) : bool :=
  match b with
  | CancelTask | LoadSelectedTask => false
  | _ => true
  end.

(** The buttons that leave the uploaded file alone. *)
Definition keeps_upload (b : button) : bool :=
  match b with
  | ProcessCSV | UploadDifferentFile => false
  | _ => true
  end.

(** The buttons that leave the append task alone. *)
Definition keeps_append (b : button) : bool :=
  match b with
  | GenerateAndAppend | StartNewAppendTask | UploadDifferentFile => false
  | _ => true
  end.




(** A CSV reference the preview can read: a path that both [pd.read_csv]
    and [open] accept. *)
Definition readable (E : env) (v : pyval) : bool :=
  match v with
  | PStr path =>
      read_csv E path
      && match read_text E path with Some _ => true | None => false end
  | _ => false
  end.


(** The convert-to-CSV request of a task. *)
Definition convert_request (E : env) (handle : pyval) : request :=
  api_request "POST"
    (API_URL ++ "/" ++ ("convert_to_csv/" ++ py_str E handle)) None.

(** The request for the task list. *)
Definition tasks_request : request :=
  api_request "GET" (API_URL ++ "/" ++ "tasks") None.

Definition has_key (k : string) (kv : list (string * pyval)) : bool :=
  match lookup k kv with Some _ => true | None => false end.

(** An entry of the task list the Recent Tasks tab can show: an object with
    the five keys the table reads. *)
Definition is_listed_task (t : pyval) : bool :=
  match t with
  | PDict kv =>
      has_key "task_id" kv && has_key "status" kv && has_key "created_at" kv
      && has_key "completed_at" kv && has_key "result_file" kv
  | _ => false
  end.

(** The "Task ID" cell of an entry. *)
Definition listed_id (t : pyval) : pyval :=
  match t with
  | PDict kv => match lookup "task_id" kv with Some v => v | None => PNone end
  | _ => PNone
  end.

(** The deletion request of "Cancel Task". *)
Definition delete_request (E : env) (handle : pyval) : request :=
  api_request "DELETE" (API_URL ++ "/" ++ ("tasks/" ++ py_str E handle)) None.

(** The download request of the appended file. *)
Definition download_request (E : env) (file_id : pyval) : request :=
  api_request "GET"
    (API_URL ++ "/download_appended/" ++ py_str E file_id) None.

(** The world in which the status block of the append task [handle]
    branches on the status [st]. *)
Definition append_polled (E : env) (handle : pyval) (w : world)
    (st : string) : world :=
  {| sess := sess w;
     log := Show Info ("Status: " ++ st)
            :: Net (status_request E handle) :: log w |}.

(** The detected columns, if any, make a table. *)
Definition columns_shown (E : env) (s : session) : bool :=
  if truthy (uploaded_columns s) then DataFrame E (uploaded_columns s)
  else true.

(** The world of the Resume File Gen tab once the detected rows are
    shown. *)
Definition file_shown (E : env) (w : world) (rows : pyval) : world :=
  {| sess := sess w;
     log := Show Info ("Detected " ++ py_str E rows
                       ++ " rows in the original file") :: log w |}.

(** The values that are not numbers in Python. *)
Definition not_a_number (v : pyval) : bool :=
  match v with
  | PInt _ | PBool _ | PFloat _ => false
  | _ => true
  end.

(** The buttons of the tabs below the Results tab. *)
Definition below_results (b : button) : bool :=
  match b with
  | NoButton | RefreshTasks | LoadSelectedTask | ProcessCSV
  | GenerateAndAppend | StartNewAppendTask | UploadDifferentFile => true
  | _ => false
  end.

(** The request for the result of a task. *)
Definition data_request (E : env) (handle : pyval) : request :=
  api_request "GET" (API_URL ++ "/" ++ ("data/" ++ py_str E handle)) None.

(** ** Further scenarios *)

(** An entry of the task list. *)
Definition listed (handle status : string) : pyval :=
  PDict [ ("task_id", PStr handle); ("status", PStr status);
          ("created_at", PStr "2025-01-01T10:00:00");
          ("completed_at", PNone); ("result_file", PNone) ].

(** A backend that lists two tasks, converts the result of [t3], accepts a
    file of 250 rows and an append job [t4], which is completed, and knows
    a task [t5] in a state of its own; for the rest it answers as
    [demo_answers]. *)
Definition office_answers (r : request) : reply :=
  let url := rq_url r in
  if (url =? API_URL ++ "/tasks")%string then
    ok_json (PList [listed "t3" "completed"; listed "t1" "failed"])
  else if (url =? API_URL ++ "/convert_to_csv/t3")%string then
    ok_json (PDict [("csv_file", PStr "out/t3.csv")])
  else if (url =? API_URL ++ "/upload_csv")%string then
    ok_json (PDict [("file_id", PStr "f1"); ("filename", PStr "people.csv");
                    ("column_info", PList []); ("row_count", PInt 250)])
  else if (url =? API_URL ++ "/append_data")%string then
    ok_json (PDict [("task_id", PStr "t4")])
  else if (url =? API_URL ++ "/task/t4")%string then
    ok_json (PDict [("status", PStr "completed")])
  else if (url =? API_URL ++ "/task/t5")%string then
    ok_json (PDict [("status", PStr "queued")])
  else demo_answers r.

(** The same backend, with the converted file on disk. *)
Definition office_env : env := {|
  backend := fun _ r => office_answers r;
  py_repr := plain_repr;
  read_text := fun path =>
    if (path =? "out/t3.csv")%string then Some "age" else None;
  read_csv := fun path => (path =? "out/t3.csv")%string;
  DataFrame := fun _ => true;
  tolist := fun column => column
|}.

(** A backend whose answers lack fields: the upload answer has only a
    [file_id], the task list an entry with only a [task_id], and the result
    of the completed task [t3] is refused. *)
Definition sloppy_answers (r : request) : reply :=
  let url := rq_url r in
  if (url =? API_URL ++ "/upload_csv")%string then
    ok_json (PDict [("file_id", PStr "f1")])
  else if (url =? API_URL ++ "/tasks")%string then
    ok_json (PList [PDict [("task_id", PStr "t9")]])
  else if (url =? API_URL ++ "/data/t3")%string then
    Reply 500 "Internal Server Error" "no such file"
      (inl (JSONDecodeError "Expecting value: line 1 column 1 (char 0)"))
  else demo_answers r.

Definition sloppy_env : env := scripted sloppy_answers.

(** A backend that refuses everything. *)
Definition refusing_env : env :=
  scripted (fun _ =>
    Reply 503 "Service Unavailable" "try later"
      (inl (JSONDecodeError "Expecting value: line 1 column 1 (char 0)"))).

(** A session with the uploaded file [f1], the row count [rows] and the
    append task [handle]. *)
Definition uploaded (rows : option pyval) (handle : pyval) : world := {|
  sess := {|
    columns := [];
    task_id := PNone;
    data := PNone;
    csv_file := PNone;
    uploaded_file_id := PStr "f1";
    uploaded_file_name := PStr "people.csv";
    uploaded_columns := PNone;
    append_task_id := handle;
    rows_detected := rows
  |};
  log := []
|}.

(** A JSON integer of [n] digits. *)
Definition digits (n : nat) : string :=
  string_of_list_ascii (repeat "9"%char n).

(** What [response.json()] raises on an integer of 5000 digits: Python
    converts integer literals of at most 4300 digits. *)
Definition digit_limit_error : exn :=
  ValueError "Exceeds the limit (4300 digits) for integer string conversion: value has 5000 digits; use sys.set_int_max_str_digits() to increase the limit".

(** A backend that answers a deletion with status 200 and a body that is
    one integer of 5000 digits; for the rest it answers as
    [demo_answers]. *)
Definition overlong_answers (r : request) : reply :=
  if (rq_method r =? "DELETE")%string then
    Reply 200 "OK" (digits 5000) (inl digit_limit_error)
  else demo_answers r.

Definition overlong_env : env := scripted overlong_answers.

(** The result of [t3] as the backend of [demo_answers] delivers it. *)
Definition result_t3 : pyval :=
  PDict [("data", PList [PDict [("age", PInt 30)]])].

(** * Proofs *)

(** ** Carrying a property through a computation *)

Lemma holds_refl P S w : S (sess w) -> holds P S w w.
Proof. intros H. split; [exists []; auto | exact H]. Qed.

Lemma holds_emit P S w0 w e :
  holds P S w0 w -> P e = true ->
  holds P S w0 {| sess := sess w; log := e :: log w |}.
Proof.
  intros [[new [Hl Hp]] Hs] He. split; [|exact Hs].
  exists (e :: new). cbn. rewrite Hl, He, Hp. auto.
Qed.

Lemma holds_modify P S w0 w f :
  holds P S w0 w -> S (f (sess w)) ->
  holds P S w0 {| sess := f (sess w); log := log w |}.
Proof. intros [Hl _] Hs. split; assumption. Qed.

Section Keeps.

Context {A B : Type}.
Variable I : world -> Prop.
Variable quiet : bool.

Lemma keeps_ret (a : A) w : I w -> keeps I quiet (ret a) w.
Proof. intros H. split; [exact H | discriminate]. Qed.

Lemma keeps_raise (e : exn) w : I w -> keeps I quiet (@raise A e) w.
Proof. intros H. split; [exact H | discriminate]. Qed.

Lemma keeps_lift (r : exn + A) w : I w -> keeps I quiet (lift r) w.
Proof. intros H. destruct r; split; try exact H; discriminate. Qed.

Lemma keeps_bind (m : M A) (k : A -> M B) w :
  keeps I quiet m w ->
  (forall a w', m w = (Done a, w') -> I w' -> keeps I quiet (k a) w') ->
  keeps I quiet (bind m k) w.
Proof.
  unfold keeps, bind. intros [Hi Hq] Hk.
  destruct (m w) as [[a | | e] w'] eqn:Hm; cbn in *.
  - apply Hk; [reflexivity | exact Hi].
  - split; [exact Hi | intros Ht; exfalso; apply (Hq Ht); reflexivity].
  - split; [exact Hi | discriminate].
Qed.

(** The first part may establish a stronger property [J] than the one
    carried to the end. *)
Lemma keeps_bind_from (J : world -> Prop) (m : M A) (k : A -> M B) w :
  keeps J quiet m w ->
  (forall w', J w' -> I w') ->
  (forall a w', m w = (Done a, w') -> J w' -> keeps I quiet (k a) w') ->
  keeps I quiet (bind m k) w.
Proof.
  unfold keeps, bind. intros [Hi Hq] Hji Hk.
  destruct (m w) as [[a | | e] w'] eqn:Hm; cbn in *.
  - apply Hk; [reflexivity | exact Hi].
  - split; [auto | intros Ht; exfalso; apply (Hq Ht); reflexivity].
  - split; [auto | discriminate].
Qed.

Lemma keeps_get (k : session -> M B) w :
  keeps I quiet (k (sess w)) w -> keeps I quiet (bind get k) w.
Proof. exact (fun H => H). Qed.

Lemma keeps_try (body : M A) catches (handler : exn -> M A) w :
  keeps I quiet body w ->
  (forall e w', body w = (Raise e, w') -> I w' -> keeps I quiet (handler e) w') ->
  keeps I quiet (try_except body catches handler) w.
Proof.
  unfold keeps, try_except. intros [Hi Hq] Hh.
  destruct (body w) as [[a | | e] w'] eqn:Hm; cbn in *.
  - split; [exact Hi | discriminate].
  - split; [exact Hi | exact Hq].
  - destruct (catches e);
      [apply Hh; [reflexivity | exact Hi] | split; [exact Hi | discriminate]].
Qed.

End Keeps.

Lemma keeps_rerun {A} (I : world -> Prop) w :
  I w -> keeps I false (@st_rerun A) w.
Proof. intros H. split; [exact H | discriminate]. Qed.

Lemma keeps_emit (I : world -> Prop) quiet e w :
  I {| sess := sess w; log := e :: log w |} -> keeps I quiet (emit e) w.
Proof. intros H. split; [exact H | discriminate]. Qed.

Lemma keeps_modify (I : world -> Prop) quiet f w :
  I {| sess := f (sess w); log := log w |} -> keeps I quiet (modify f) w.
Proof. intros H. split; [exact H | discriminate]. Qed.

Lemma keeps_for_each {A B} (I : world -> Prop) quiet (f : A -> M B) :
  (forall x w, I w -> keeps I quiet (f x) w) ->
  forall l w, I w -> keeps I quiet (for_each f l) w.
Proof.
  intros Hf l. induction l as [| x rest IH]; intros w Hw; cbn.
  - apply keeps_ret; exact Hw.
  - apply keeps_bind; [apply Hf; exact Hw |].
    intros y w1 _ H1. apply keeps_bind; [apply IH; exact H1 |].
    intros ys w2 _ H2. apply keeps_ret; exact H2.
Qed.

Lemma keeps_requests_send E (I : world -> Prop) quiet r w :
  I {| sess := sess w; log := Net r :: log w |} ->
  keeps I quiet (requests_send E r) w.
Proof.
  intros H. unfold keeps, requests_send.
  destruct (backend E (requests_of (log w)) r); cbn; split;
    try exact H; discriminate.
Qed.

(** ** What [call_api] does *)

(** With a supported method, [call_api] sends exactly one request and
    leaves the session alone.  It returns unless [response.json()] raises
    an exception that is not a [RequestException], which it lets through;
    a failure it catches is shown in one message. *)
Lemma call_api_supported E endpoint method data w :
  supported method ->
  call_api E endpoint method data w
  = (api_outcome
       (backend E (requests_of (log w))
          (api_request method (API_URL ++ "/" ++ endpoint) data)),
     {| sess := sess w;
        log := (api_messages E (API_URL ++ "/" ++ endpoint)
                  (backend E (requests_of (log w))
                     (api_request method (API_URL ++ "/" ++ endpoint) data))
                ++ Net (api_request method (API_URL ++ "/" ++ endpoint) data)
                :: log w)%list |}).
Proof.
  intros Hm.
  unfold call_api, try_except, bind, requests_get, requests_post,
    requests_delete, requests_send, raise_for_status, response_json, lift,
    st_error, emit, ret, raise, api_request, api_outcome, api_escape,
    api_result, api_messages, api_failure, api_exception.
  destruct Hm as [-> | [-> | ->]]; cbn [String.eqb Ascii.eqb Bool.eqb];
    cbn [sess log];
    (destruct (backend E (requests_of (log w)) _)
       as [why | status reason text [e | v]];
     cbn [status_code resp_reason resp_json resp_url rq_url fst snd sess log
          is_RequestException];
     try reflexivity;
     destruct ((400 <=? status) && (status <? 600));
     cbn [is_RequestException]; try reflexivity;
     destruct (is_RequestException e); reflexivity).
Qed.

Lemma api_messages_shape E url answer :
  api_messages E url answer = []
  \/ exists t, api_messages E url answer = [Show Error t].
Proof.
  unfold api_messages. destruct (api_failure url answer);
    [right; eexists; reflexivity | left; reflexivity].
Qed.

Lemma call_api_run E endpoint method data w :
  supported method ->
  let r := api_request method (API_URL ++ "/" ++ endpoint) data in
  exists msgs,
    call_api E endpoint method data w
    = (api_outcome (backend E (requests_of (log w)) r),
       {| sess := sess w; log := (msgs ++ Net r :: log w)%list |})
    /\ (msgs = [] \/ exists t, msgs = [Show Error t]).
Proof.
  intros Hm r. subst r. eexists. split.
  - apply call_api_supported. exact Hm.
  - apply api_messages_shape.
Qed.

(** On a 2xx answer with a JSON body, [call_api] returns the body and shows
    nothing. *)
Lemma call_api_ok E endpoint method data w status reason text v :
  supported method ->
  backend E (requests_of (log w))
    (api_request method (API_URL ++ "/" ++ endpoint) data)
  = Reply status reason text (inr v) ->
  200 <= status < 300 ->
  call_api E endpoint method data w
  = (Done v,
     {| sess := sess w;
        log := Net (api_request method (API_URL ++ "/" ++ endpoint) data)
               :: log w |}).
Proof.
  intros Hm Hb Hs.
  assert (Hst : (400 <=? status) && (status <? 600) = false)
    by (apply andb_false_iff; left; apply Z.leb_gt; lia).
  rewrite (call_api_supported E endpoint method data w Hm), Hb.
  unfold api_outcome, api_escape, api_messages, api_failure, api_exception,
    api_result.
  rewrite Hst. reflexivity.
Qed.

Lemma keeps_call_api E P S w0 quiet endpoint method data w :
  holds P S w0 w ->
  P (Net (api_request method (API_URL ++ "/" ++ endpoint) data)) = true ->
  (forall t, P (Show Error t) = true) ->
  keeps (holds P S w0) quiet (call_api E endpoint method data) w.
Proof.
  intros Hw Hnet Herr.
  assert (Hsent : forall r,
            r = api_request method (API_URL ++ "/" ++ endpoint) data ->
            keeps (holds P S w0) quiet
              (response <- requests_send E r ;;
               raise_for_status response ;; response_json response) w).
  { intros r ->.
    apply keeps_bind.
    - apply keeps_requests_send. apply holds_emit; [exact Hw | exact Hnet].
    - intros resp w1 _ H1. apply keeps_bind.
      + unfold raise_for_status.
        destruct ((400 <=? status_code resp) && (status_code resp <? 600));
          [apply keeps_raise | apply keeps_ret]; exact H1.
      + intros _ w2 _ H2. unfold response_json.
        apply keeps_lift; exact H2. }
  unfold call_api. apply keeps_try.
  - destruct (method =? "GET")%string eqn:Hg;
      [apply String.eqb_eq in Hg; subst method; apply Hsent; reflexivity |].
    destruct (method =? "POST")%string eqn:Hp;
      [apply String.eqb_eq in Hp; subst method; apply Hsent; reflexivity |].
    destruct (method =? "DELETE")%string eqn:Hd;
      [apply String.eqb_eq in Hd; subst method; apply Hsent; reflexivity |].
    apply keeps_bind.
    + apply keeps_emit. apply holds_emit; [exact Hw | apply Herr].
    + intros _ w1 _ H1. apply keeps_ret; exact H1.
  - intros e w1 _ H1. apply keeps_bind.
    + apply keeps_emit. apply holds_emit; [exact H1 | apply Herr].
    + intros _ w2 _ H2. apply keeps_ret; exact H2.
Qed.

Lemma keeps_emit_holds P S w0 quiet e w :
  holds P S w0 w -> P e = true -> keeps (holds P S w0) quiet (emit e) w.
Proof. intros H He. apply keeps_emit. apply holds_emit; assumption. Qed.

Lemma keeps_modify_holds P S w0 quiet f w :
  holds P S w0 w -> S (f (sess w)) ->
  keeps (holds P S w0) quiet (modify f) w.
Proof. intros H Hs. apply keeps_modify. apply holds_modify; assumption. Qed.

Lemma keeps_send_holds E P S w0 quiet r w :
  holds P S w0 w -> P (Net r) = true ->
  keeps (holds P S w0) quiet (requests_send E r) w.
Proof.
  intros H Hr. apply keeps_requests_send. apply holds_emit; assumption.
Qed.

(** ** Carrying a property through the script, step by step

    [keeps_step] peels one construct off a goal [keeps (holds P S w0) q m w];
    [evt] discharges the side conditions on events, [upd] those on session
    updates. *)

Ltac head_of t :=
  lazymatch t with
  | ?f _ => head_of f
  | _ => t
  end.

Ltac known_button :=
  unfold st_button;
  repeat match goal with
         | H : pressed ?i = _ |- context [pressed ?i] => rewrite H
         end;
  cbn [button_eqb].

Ltac keeps_step evt upd :=
  cbv beta zeta;
  lazymatch goal with
  | |- keeps _ _ (bind get _) _ => apply keeps_get
  | |- keeps _ _ (bind _ _) _ => apply keeps_bind; [ | intros ? ? _ ?]
  | |- keeps _ _ (try_except _ _ _) _ => apply keeps_try; [ | intros ? ? _ ?]
  | |- keeps _ _ (ret _) _ => apply keeps_ret; assumption
  | |- keeps _ _ (raise _) _ => apply keeps_raise; assumption
  | |- keeps _ _ (lift _) _ => apply keeps_lift; assumption
  | |- keeps _ _ st_rerun _ => apply keeps_rerun; assumption
  | |- keeps _ _ (emit _) _ =>
      apply keeps_emit_holds; [assumption | evt]
  | |- keeps _ _ (modify _) _ =>
      apply keeps_modify_holds; [assumption | upd]
  | |- keeps _ _ (requests_send _ _) _ =>
      apply keeps_send_holds; [assumption | evt]
  | |- keeps _ _ (call_api _ _ _ _) _ =>
      apply keeps_call_api; [assumption | evt | intros ?; evt]
  | |- keeps _ _ (for_each _ _) _ =>
      apply keeps_for_each; [intros ? ? ? | assumption]
  | |- keeps _ _ (if st_button _ _ then _ else _) _ => known_button
  | |- keeps _ _ (if st_button _ _ && _ then _ else _) _ => known_button
  | |- keeps _ _ (if ?c then _ else _) _ => destruct c eqn:?
  | |- keeps _ _ (match ?x with _ => _ end) _ => destruct x eqn:?
  | |- keeps _ _ ?m _ => let h := head_of m in unfold h
  end.

Ltac keeps_auto evt upd := repeat keeps_step evt upd.

(** ** C1: submitting a schema *)

Lemma results_tab_no_create E i w0 w :
  holds not_create_job (fun _ => True) w0 w ->
  keeps (holds not_create_job (fun _ => True) w0) false (results_tab E i) w.
Proof. intros H. keeps_auto reflexivity ltac:(exact Logic.I). Qed.

Lemma sidebar_no_create E i w0 w :
  holds not_create_job (fun _ => True) w0 w ->
  keeps (holds not_create_job (fun _ => True) w0) false (sidebar E i) w.
Proof. intros H. keeps_auto reflexivity ltac:(exact Logic.I). Qed.

Lemma recent_tasks_tab_no_create E i w0 w :
  holds not_create_job (fun _ => True) w0 w ->
  keeps (holds not_create_job (fun _ => True) w0) false
    (recent_tasks_tab E i) w.
Proof. intros H. keeps_auto reflexivity ltac:(exact Logic.I). Qed.

Lemma resume_file_gen_tab_no_create E i w0 w :
  holds not_create_job (fun _ => True) w0 w ->
  keeps (holds not_create_job (fun _ => True) w0) false
    (resume_file_gen_tab E i) w.
Proof. intros H. keeps_auto reflexivity ltac:(exact Logic.I). Qed.

Lemma later_tabs_no_create E i w0 w :
  holds not_create_job (fun _ => True) w0 w ->
  keeps (holds not_create_job (fun _ => True) w0) false (later_tabs E i) w.
Proof.
  intros H. unfold later_tabs.
  apply keeps_bind; [apply results_tab_no_create; exact H |].
  intros _ w1 _ H1.
  apply keeps_bind; [apply recent_tasks_tab_no_create; exact H1 |].
  intros _ w2 _ H2. apply resume_file_gen_tab_no_create; exact H2.
Qed.

Lemma requests_of_app l1 l2 :
  requests_of (l1 ++ l2) = (requests_of l1 ++ requests_of l2)%list.
Proof.
  induction l1 as [| [r | | |] l1 IH]; cbn; try rewrite IH; reflexivity.
Qed.

(** Events that are not requests of kind [p] do not change the count. *)
Lemma count_unchanged p new l :
  forallb (fun e => match e with Net r => negb (p r) | _ => true end) new
    = true ->
  count p (new ++ l) = count p l.
Proof.
  unfold count. induction new as [| [r | | |] new IH]; cbn; intros H;
    try (apply IH; exact H); [reflexivity |].
  apply andb_true_iff in H. destruct H as [Hr H].
  apply negb_true_iff in Hr. rewrite Hr. apply IH; exact H.
Qed.

Lemma holds_no_create_count S w0 w :
  holds not_create_job S w0 w ->
  count is_create_job (log w) = count is_create_job (log w0).
Proof.
  intros [[new [-> Hnew]] _]. apply count_unchanged. exact Hnew.
Qed.

Lemma supported_POST : supported "POST".
Proof. right; left; reflexivity. Qed.

Lemma supported_GET : supported "GET".
Proof. left; reflexivity. Qed.

Lemma supported_DELETE : supported "DELETE".
Proof. right; right; reflexivity. Qed.

Lemma requests_of_msgs msgs :
  msgs = [] \/ (exists t, msgs = [Show Error t]) -> requests_of msgs = [].
Proof. intros [-> | [t ->]]; reflexivity. Qed.

(** With columns, the handler sends the create-job request and nothing
    else. *)
Lemma generate_data_requests E i w :
  columns (sess w) <> [] ->
  requests_of (log (snd (generate_data E i w)))
  = create_job_request i (columns (sess w)) :: requests_of (log w)
  /\ columns (sess (snd (generate_data E i w))) = columns (sess w).
Proof.
  intros Hc.
  destruct (columns (sess w)) as [| c cs] eqn:Hcols; [congruence |].
  destruct (call_api_run E "generate" "POST"
              (Some (generate_request_data i (c :: cs))) w supported_POST)
    as [msgs [Hrun Hmsgs]].
  cbv zeta in Hrun.
  assert (Hreq : requests_of (msgs ++ Net (create_job_request i (c :: cs))
                                :: log w)
                 = create_job_request i (c :: cs) :: requests_of (log w)).
  { rewrite requests_of_app, (requests_of_msgs _ Hmsgs). reflexivity. }
  unfold generate_data, bind, get. rewrite Hcols, Hrun.
  unfold api_outcome.
  destruct (api_escape _); [split; [exact Hreq | exact Hcols] |].
  set (result := api_result _).
  unfold truthy_and_contains, bind, lift, ret, raise, set_task_id, modify,
    st_success, emit, st_rerun.
  destruct (truthy result); [| split; [exact Hreq | exact Hcols]].
  destruct (py_contains "task_id" result) as [e | [|]];
    try (split; [exact Hreq | exact Hcols]).
  destruct (py_getitem result "task_id") as [e | v];
    (split; [exact Hreq | exact Hcols]).
Qed.

(** On a well-formed answer the handler stores the returned identifier and
    asks for a rerun. *)
Lemma generate_data_stores_handle E i w status reason text kv v :
  columns (sess w) <> [] ->
  backend E (requests_of (log w)) (create_job_request i (columns (sess w)))
  = Reply status reason text (inr (PDict kv)) ->
  200 <= status < 300 ->
  lookup "task_id" kv = Some v ->
  fst (generate_data E i w) = Rerun
  /\ task_id (sess (snd (generate_data E i w))) = v
  /\ data (sess (snd (generate_data E i w))) = data (sess w)
  /\ csv_file (sess (snd (generate_data E i w))) = csv_file (sess w).
Proof.
  intros Hc Hb Hs Hv.
  destruct (columns (sess w)) as [| c cs] eqn:Hcols; [congruence |].
  pose proof (call_api_ok E "generate" "POST"
                (Some (generate_request_data i (c :: cs))) w
                status reason text (PDict kv) supported_POST Hb Hs) as Hrun.
  unfold generate_data, bind, get. rewrite Hcols, Hrun.
  unfold truthy_and_contains, bind, lift, ret, raise, set_task_id, modify,
    st_success, emit, st_rerun.
  destruct kv as [| kv0 kvs]; [discriminate |].
  cbn [truthy py_contains py_getitem]. rewrite Hv. cbn. auto.
Qed.

Lemma sidebar_idle E i w :
  pressed i <> CancelTask -> sidebar E i w = (Done tt, w).
Proof.
  intros Hp. unfold sidebar, bind, get, st_button.
  destruct (truthy (task_id (sess w))); [| reflexivity].
  destruct (pressed i); try reflexivity. congruence.
Qed.

Lemma column_definition_tab_generate E i w :
  pressed i = GenerateData ->
  column_definition_tab E i w
  = match columns (sess w) with
    | [] => (Done tt, w)
    | _ :: _ => generate_data E i w
    end.
Proof.
  intros Hp. unfold column_definition_tab, bind, get, st_button, ret.
  rewrite Hp. cbn [button_eqb andb]. destruct (columns (sess w)); reflexivity.
Qed.

Lemma script_generate E i w :
  pressed i = GenerateData ->
  script E i w
  = match columns (sess w) with
    | [] => later_tabs E i w
    | _ :: _ => (generate_data E i ;; later_tabs E i)%py w
    end.
Proof.
  intros Hp. unfold script.
  unfold bind at 1. rewrite sidebar_idle by congruence.
  unfold bind at 1. rewrite column_definition_tab_generate by exact Hp.
  unfold later_tabs.
  destruct (columns (sess w)); [reflexivity |].
  unfold bind at 3. reflexivity.
Qed.

Lemma count_cons_create i cols l l' :
  requests_of l' = create_job_request i cols :: requests_of l ->
  count is_create_job l' = S (count is_create_job l).
Proof. unfold count. intros ->. reflexivity. Qed.

(** C1.  With a non-empty column list, "Generate Data" sends the create-job
    request and no other request, the whole execution contains exactly one
    create-job call, and on a well-formed answer (a 2xx response whose JSON
    object has a [task_id]) the session's task handle is the returned
    identifier.  With an empty column list the handler, and the tab around
    it, send nothing, and the execution contains no create-job call. *)
Theorem submit_issues_one_create_job_call E i w :
  pressed i = GenerateData ->
  (columns (sess w) <> [] ->
     requests_of (log (snd (generate_data E i w)))
     = create_job_request i (columns (sess w)) :: requests_of (log w)
     /\ count is_create_job (log (snd (script E i w)))
        = S (count is_create_job (log w))
     /\ forall status reason text kv v,
          backend E (requests_of (log w))
            (create_job_request i (columns (sess w)))
          = Reply status reason text (inr (PDict kv)) ->
          200 <= status < 300 ->
          lookup "task_id" kv = Some v ->
          fst (script E i w) = Rerun
          /\ task_id (sess (snd (script E i w))) = v)
  /\ (columns (sess w) = [] ->
        requests_of (log (snd (generate_data E i w))) = requests_of (log w)
        /\ requests_of (log (snd (column_definition_tab E i w)))
           = requests_of (log w)
        /\ count is_create_job (log (snd (script E i w)))
           = count is_create_job (log w)).
Proof.
  intros Hp. split.
  - intros Hc.
    destruct (generate_data_requests E i w Hc) as [Hreq _].
    split; [exact Hreq |]. split.
    + rewrite (script_generate E i w Hp).
      destruct (columns (sess w)) as [| c cs] eqn:Hcols; [congruence |].
      unfold bind.
      destruct (generate_data E i w) as [[[] | | e] w1] eqn:Hg; cbn in Hreq;
        try (cbn; apply (count_cons_create i (c :: cs)); exact Hreq).
      destruct (later_tabs_no_create E i w1 w1 (holds_refl _ _ _ Logic.I))
        as [Hh _].
      rewrite (holds_no_create_count _ _ _ Hh).
      apply (count_cons_create i (c :: cs)); exact Hreq.
    + intros status reason text kv v Hb Hs Hv.
      destruct (generate_data_stores_handle E i w status reason text kv v
                  Hc Hb Hs Hv) as [Ho [Ht _]].
      rewrite (script_generate E i w Hp).
      destruct (columns (sess w)) as [| c cs]; [congruence |].
      unfold bind. destruct (generate_data E i w) as [[[] | | e] w1];
        cbn in Ho, Ht; try discriminate. cbn. auto.
  - intros Hc. split; [| split].
    + unfold generate_data, bind, get. rewrite Hc. reflexivity.
    + rewrite (column_definition_tab_generate E i w Hp), Hc. reflexivity.
    + rewrite (script_generate E i w Hp), Hc.
      destruct (later_tabs_no_create E i w w (holds_refl _ _ _ Logic.I))
        as [Hh _].
      exact (holds_no_create_count _ _ _ Hh).
Qed.

(** ** C4: cancelling *)

Lemma api_escape_none answer :
  api_escape answer = None -> api_outcome answer = Done (api_result answer).
Proof. unfold api_outcome. intros ->. reflexivity. Qed.

(** C4, as the code has it.  Whatever the state, "Cancel Task" leaves the
    task handle, the cached result and the CSV reference empty and asks for
    a rerun whenever [call_api] comes back from the deletion request; and it
    comes back when the backend does not answer (a transport failure), when
    it answers with a 4xx or 5xx status, when the body decodes, and when
    decoding raises a [RequestException] (a body that is not JSON).  An
    execution in which the button is pressed (it is shown when there is an
    active task) is exactly a run of that handler. *)
Theorem cancel_always_clears E i w :
  (api_escape (backend E (requests_of (log w))
                 (delete_request E (task_id (sess w)))) = None ->
   fst (cancel_task E w) = Rerun
   /\ task_id (sess (snd (cancel_task E w))) = PNone
   /\ data (sess (snd (cancel_task E w))) = PNone
   /\ csv_file (sess (snd (cancel_task E w))) = PNone)
  /\ (pressed i = CancelTask -> truthy (task_id (sess w)) = true ->
      script E i w = cancel_task E w)
  /\ (forall why, api_escape (NoReply why) = None)
  /\ (forall status reason text json,
        400 <= status < 600 ->
        api_escape (Reply status reason text json) = None)
  /\ (forall status reason text v,
        api_escape (Reply status reason text (inr v)) = None)
  /\ (forall status reason text e,
        is_RequestException e = true ->
        api_escape (Reply status reason text (inl e)) = None).
Proof.
  split; [| split; [| split; [| split; [| split]]]].
  - intros Hesc.
    unfold cancel_task, bind, get.
    rewrite (call_api_supported E _ "DELETE" None w supported_DELETE).
    fold (delete_request E (task_id (sess w))).
    rewrite (api_escape_none _ Hesc). cbn. auto.
  - intros Hp Ht. unfold script, bind at 1.
    unfold sidebar, bind at 1, get, st_button. rewrite Ht, Hp.
    cbn [button_eqb]. unfold cancel_task, bind, get.
    rewrite (call_api_supported E _ "DELETE" None w supported_DELETE).
    unfold api_outcome. destruct (api_escape _); reflexivity.
  - reflexivity.
  - intros status reason text json Hs. unfold api_escape, api_exception.
    replace ((400 <=? status) && (status <? 600)) with true
      by (symmetry; apply andb_true_iff; split;
          [apply Z.leb_le | apply Z.ltb_lt]; lia).
    reflexivity.
  - intros status reason text v. unfold api_escape, api_exception.
    destruct ((400 <=? status) && (status <? 600)); reflexivity.
  - intros status reason text e He. unfold api_escape, api_exception.
    destruct ((400 <=? status) && (status <? 600)); [reflexivity |].
    rewrite He. reflexivity.
Qed.

(** ** C5: changing the task handle *)

(** C5 (the code departs from the claim).  Loading a task from the task
    list empties the cached result and the CSV reference, but submitting a
    new job does not: after a successful "Generate Data" the handle is the
    new identifier while the cached result and the CSV reference are those
    of the previous task. *)
Theorem submit_keeps_previous_result E i w status reason text kv v :
  pressed i = GenerateData ->
  columns (sess w) <> [] ->
  backend E (requests_of (log w)) (create_job_request i (columns (sess w)))
  = Reply status reason text (inr (PDict kv)) ->
  200 <= status < 300 ->
  lookup "task_id" kv = Some v ->
  (task_id (sess (snd (script E i w))) = v
   /\ data (sess (snd (script E i w))) = data (sess w)
   /\ csv_file (sess (snd (script E i w))) = csv_file (sess w))
  /\ (forall t w',
        task_id (sess (snd (load_selected_task t w'))) = t
        /\ data (sess (snd (load_selected_task t w'))) = PNone
        /\ csv_file (sess (snd (load_selected_task t w'))) = PNone).
Proof.
  intros Hp Hc Hb Hs Hv. split; [| intros t w'; cbn; auto].
  destruct (generate_data_stores_handle E i w status reason text kv v
              Hc Hb Hs Hv) as [Ho [Ht [Hd Hf]]].
  rewrite (script_generate E i w Hp).
  destruct (columns (sess w)) as [| c cs]; [congruence |].
  unfold bind. destruct (generate_data E i w) as [[[] | | e] w1];
    cbn in Ho, Ht, Hd, Hf; try discriminate. cbn. auto.
Qed.

(** ** C6: failures at the call boundaries *)

Lemma call_api_unreachable E why endpoint method data w :
  (forall hist r, backend E hist r = NoReply why) ->
  supported method ->
  exists l,
    call_api E endpoint method data w
    = (Done PNone, {| sess := sess w; log := l |}).
Proof.
  intros Hdown Hm.
  destruct (call_api_run E endpoint method data w Hm) as [msgs [Hrun _]].
  cbv zeta in Hrun. rewrite Hdown in Hrun. eexists. exact Hrun.
Qed.

Lemma process_csv_raises E i w file why :
  pressed i = ProcessCSV ->
  in_uploaded_file i = Some file ->
  backend E (requests_of (log w)) (upload_request file) = NoReply why ->
  fst (process_csv E i w) = Raise (ConnectionError why).
Proof.
  intros Hp Hf Hb. unfold process_csv, st_button. rewrite Hf, Hp.
  destruct file as [file_name bytes]. cbn [button_eqb].
  unfold bind, requests_post, requests_send.
  change {| rq_method := "POST"; rq_url := API_URL ++ "/upload_csv";
            rq_json := None; rq_files := Some (file_name, bytes) |}
    with (upload_request (file_name, bytes)).
  rewrite Hb. reflexivity.
Qed.

(** A status answer without a [status] field is not caught either:
    [task_status['status']] raises [KeyError] in the Results tab. *)
Lemma missing_status_is_uncaught E i w status reason text kv :
  truthy (task_id (sess w)) = true ->
  backend E (requests_of (log w)) (status_request E (task_id (sess w)))
  = Reply status reason text (inr (PDict kv)) ->
  200 <= status < 300 ->
  kv <> [] ->
  lookup "status" kv = None ->
  fst (results_tab E i w) = Raise (KeyError "status").
Proof.
  intros Ht Hb Hs Hkv Hst.
  unfold results_tab, bind at 1, get. rewrite Ht.
  unfold bind at 1.
  rewrite (call_api_ok E _ "GET" None w status reason text (PDict kv)
             supported_GET Hb Hs).
  destruct kv as [| kv0 kvs]; [congruence |].
  cbn [truthy]. unfold bind at 1. cbn [lift py_getitem]. rewrite Hst.
  reflexivity.
Qed.

(** C6 (the code departs from the claim).  [call_api] turns every
    [RequestException] of the [requests] calls it makes into a message and
    returns, but "Process CSV" calls [requests.post] outside any [try]:
    when the backend does not answer, the handler ends in an uncaught
    [ConnectionError].  With the backend unreachable altogether, the tabs
    before it show their messages and the execution still ends in that
    exception. *)
Theorem upload_transport_failure_is_uncaught E i w file why :
  pressed i = ProcessCSV ->
  in_uploaded_file i = Some file ->
  (backend E (requests_of (log w)) (upload_request file) = NoReply why ->
   fst (process_csv E i w) = Raise (ConnectionError why)
   /\ fst (resume_file_gen_tab E i w) = Raise (ConnectionError why))
  /\ ((forall hist r, backend E hist r = NoReply why) ->
      fst (script E i w) = Raise (ConnectionError why))
  /\ (forall endpoint method data w',
        supported method ->
        api_escape (backend E (requests_of (log w'))
                      (api_request method (API_URL ++ "/" ++ endpoint) data))
        = None ->
        exists v, fst (call_api E endpoint method data w') = Done v).
Proof.
  intros Hp Hf. split; [| split].
  3: { intros endpoint method data w' Hm Hesc.
       rewrite (call_api_supported E endpoint method data w' Hm),
         (api_escape_none _ Hesc).
       eexists. reflexivity. }
  - intros Hb. pose proof (process_csv_raises E i w file why Hp Hf Hb) as H.
    split; [exact H |].
    unfold resume_file_gen_tab, bind at 1.
    destruct (process_csv E i w) as [[[] | | e] w1]; cbn in H;
      try discriminate. exact H.
  - intros Hdown.
    unfold script, bind at 1. rewrite sidebar_idle by congruence.
    assert (H1 : column_definition_tab E i w = (Done tt, w)).
    { unfold column_definition_tab, bind, get, st_button, ret.
      rewrite Hp. cbn [button_eqb andb].
      destruct (columns (sess w)); reflexivity. }
    unfold bind at 1. rewrite H1.
    assert (H2 : exists l, results_tab E i w
                           = (Done tt, {| sess := sess w; log := l |})).
    { unfold results_tab, bind at 1, get.
      destruct (truthy (task_id (sess w))).
      - destruct (call_api_unreachable E why
                    ("task/" ++ py_str E (task_id (sess w))) "GET" None w
                    Hdown supported_GET) as [l Hl].
        unfold bind at 1. rewrite Hl. cbn. eexists. reflexivity.
      - cbn. eexists. reflexivity. }
    destruct H2 as [l2 H2]. unfold bind at 1. rewrite H2.
    set (w2 := {| sess := sess w; log := l2 |}).
    assert (H3 : exists l, recent_tasks_tab E i w2
                           = (Done tt, {| sess := sess w; log := l |})).
    { unfold recent_tasks_tab, st_button. rewrite Hp. cbn [button_eqb].
      destruct (call_api_unreachable E why "tasks" "GET" None w2
                  Hdown supported_GET) as [l Hl].
      unfold bind at 2. unfold bind at 1, ret at 1. rewrite Hl.
      cbn. eexists. reflexivity. }
    destruct H3 as [l3 H3]. unfold bind at 1. rewrite H3.
    set (w3 := {| sess := sess w; log := l3 |}).
    pose proof (process_csv_raises E i w3 file why Hp Hf (Hdown _ _)) as H.
    unfold resume_file_gen_tab, bind at 1.
    destruct (process_csv E i w3) as [[[] | | e] w4]; cbn in H;
      try discriminate. exact H.
Qed.

(** ** C2: polling *)

Lemma completed_branch_is_quiet E i w0 w :
  holds not_sleep (fun _ => True) w0 w ->
  keeps (holds not_sleep (fun _ => True) w0) true
    (fetch_result E ;; show_result E i)%py w.
Proof. intros H. keeps_auto reflexivity ltac:(exact Logic.I). Qed.

(** The Results tab up to the branch on the status. *)
Lemma results_tab_polled E i w status reason text kv st :
  truthy (task_id (sess w)) = true ->
  backend E (requests_of (log w)) (status_request E (task_id (sess w)))
  = Reply status reason text (inr (PDict kv)) ->
  200 <= status < 300 ->
  lookup "status" kv = Some (PStr st) ->
  results_tab E i w
  = (if (st =? "completed")%string then
       (fetch_result E ;; show_result E i)%py
     else if (st =? "running")%string || (st =? "pending")%string then
       (st_warning "Data generation is in progress... This may take some time." ;;
        time_sleep 3 ;; st_rerun)%py
     else if (st =? "failed")%string then
       (msg <- lift (py_get (PDict kv) "message" (PStr "Unknown error")) ;;
        st_error ("Generation failed: " ++ py_str E msg))%py
     else ret tt) (polled E w st).
Proof.
  intros Ht Hb Hs Hst.
  unfold results_tab, bind at 1, get. rewrite Ht.
  unfold bind at 1.
  rewrite (call_api_ok E _ "GET" None w status reason text (PDict kv)
             supported_GET Hb Hs).
  destruct kv as [| kv0 kvs]; [discriminate |].
  cbn [truthy]. unfold bind at 1. cbn [lift py_getitem]. rewrite Hst.
  unfold ret at 1. unfold bind at 1. unfold st_info at 1, emit at 1.
  cbn [py_eq_str py_str]. reflexivity.
Qed.

(** With an active task, the Results tab begins with the status request
    for that task. *)
Lemma results_tab_first_request E i w :
  truthy (task_id (sess w)) = true ->
  exists more,
    requests_of (log (snd (results_tab E i w)))
    = (more ++ status_request E (task_id (sess w))
            :: requests_of (log w))%list.
Proof.
  intros Ht.
  destruct (call_api_run E ("task/" ++ py_str E (task_id (sess w))) "GET"
              None w supported_GET) as [msgs [Hrun Hmsgs]].
  cbv zeta in Hrun.
  unfold results_tab, bind at 1, get. rewrite Ht.
  unfold bind at 1. rewrite Hrun. unfold api_outcome.
  destruct (api_escape _).
  { exists []. cbn [snd log app].
    rewrite requests_of_app, (requests_of_msgs _ Hmsgs). reflexivity. }
  set (w1 := {| sess := sess w; log := _ |}).
  set (v := api_result _).
  match goal with
  | |- context [snd (?k w1)] =>
      assert (Hk : keeps (holds any_event (fun _ => True) w1) false k w1)
  end.
  { pose proof (holds_refl any_event (fun _ => True) w1 Logic.I) as H.
    keeps_auto reflexivity ltac:(exact Logic.I). }
  destruct Hk as [[[new [Hlog _]] _] _]. rewrite Hlog.
  exists (requests_of new). subst w1. cbn [log].
  rewrite !requests_of_app, (requests_of_msgs _ Hmsgs). reflexivity.
Qed.

(** An execution without a pressed button starts at the Results tab. *)
Lemma script_unpressed E i w :
  script E (unpressed i) w = later_tabs E (unpressed i) w.
Proof.
  unfold script. unfold bind at 1.
  rewrite sidebar_idle by (cbn; discriminate).
  assert (H1 : column_definition_tab E (unpressed i) w = (Done tt, w)).
  { unfold column_definition_tab, bind, get, st_button, ret. cbn.
    destruct (columns (sess w)); reflexivity. }
  unfold bind at 1. rewrite H1. reflexivity.
Qed.

Lemma column_definition_tab_below E i w :
  below_results (pressed i) = true ->
  column_definition_tab E i w = (Done tt, w).
Proof.
  intros Hp. unfold column_definition_tab, bind, get, st_button, ret.
  destruct (pressed i); try discriminate Hp; cbn [button_eqb andb];
    destruct (columns (sess w)); reflexivity.
Qed.

Lemma script_below E i w :
  below_results (pressed i) = true ->
  script E i w = later_tabs E i w.
Proof.
  intros Hp. unfold script. unfold bind at 1.
  rewrite sidebar_idle by (intros H; rewrite H in Hp; discriminate Hp).
  unfold bind at 1. rewrite (column_definition_tab_below E i w Hp).
  reflexivity.
Qed.

(** With an active task, an execution that reaches the Results tab sends
    the status request of that task. *)
Lemma later_tabs_first_request E i w :
  truthy (task_id (sess w)) = true ->
  exists more,
    requests_of (log (snd (later_tabs E i w)))
    = (more ++ status_request E (task_id (sess w))
            :: requests_of (log w))%list.
Proof.
  intros Ht.
  destruct (results_tab_first_request E i w Ht) as [more Hmore].
  unfold later_tabs, bind at 1.
  destruct (results_tab E i w) as [[[] | | e] w1]; cbn [snd] in Hmore;
    try (exists more; exact Hmore).
  match goal with
  | |- context [snd (?k w1)] =>
      assert (Hk : keeps (holds any_event (fun _ => True) w1) false k w1)
  end.
  { pose proof (holds_refl any_event (fun _ => True) w1 Logic.I) as H.
    keeps_auto reflexivity ltac:(exact Logic.I). }
  destruct Hk as [[[new [Hlog _]] _] _]. rewrite Hlog.
  exists (requests_of new ++ more)%list.
  rewrite requests_of_app, Hmore, app_assoc. reflexivity.
Qed.

(** C2, as the code has it.  With an active task and a well-formed status
    answer, the Results tab maps the remote status directly:
    - [pending] or [running]: a warning, a wait of 3 and a rerun, the
      session unchanged; the execution that follows goes straight to the
      Results tab, which sends the same status request again;
    - [completed]: no wait and no rerun; the tab goes on to the guarded
      fetch and the display of the result;
    - [failed]: the tab shows "Generation failed: " followed by the remote
      message, sends nothing more, does not wait and does not ask for a
      rerun; the session is unchanged.
    The tab keeps no record of a failure: every later execution that
    reaches the Results tab with that handle (no button pressed, or a
    button of the tabs below it) sends the status request again. *)
Theorem poll_maps_remote_status E i w status reason text kv st :
  truthy (task_id (sess w)) = true ->
  backend E (requests_of (log w)) (status_request E (task_id (sess w)))
  = Reply status reason text (inr (PDict kv)) ->
  200 <= status < 300 ->
  lookup "status" kv = Some (PStr st) ->
  (st = "pending" \/ st = "running" ->
     results_tab E i w = (Rerun, waited E w st)
     /\ script E (unpressed i) (waited E w st)
        = later_tabs E (unpressed i) (waited E w st)
     /\ exists more,
          requests_of (log (snd (results_tab E (unpressed i)
                                   (waited E w st))))
          = (more ++ status_request E (task_id (sess w))
                  :: requests_of (log (waited E w st)))%list)
  /\ (st = "completed" ->
        results_tab E i w
        = (fetch_result E ;; show_result E i)%py (polled E w st)
        /\ fst (results_tab E i w) <> Rerun
        /\ exists new,
             log (snd (results_tab E i w)) = (new ++ log w)%list
             /\ forallb not_sleep new = true)
  /\ (st = "failed" ->
        results_tab E i w
        = (Done tt,
           {| sess := sess w;
              log := Show Error ("Generation failed: "
                                 ++ py_str E (failure_message kv))
                     :: log (polled E w st) |})
        /\ (forall m, lookup "message" kv = Some (PStr m) ->
             py_str E (failure_message kv) = m)
        /\ forall j w',
             below_results (pressed j) = true ->
             task_id (sess w') = task_id (sess w) ->
             exists more,
               requests_of (log (snd (script E j w')))
               = (more ++ status_request E (task_id (sess w))
                       :: requests_of (log w'))%list).
Proof.
  intros Ht Hb Hs Hst.
  pose proof (results_tab_polled E i w status reason text kv st Ht Hb Hs Hst)
    as Hrun.
  split; [| split].
  - intros Hw. split; [| split].
    + rewrite Hrun. destruct Hw as [-> | ->]; reflexivity.
    + apply script_unpressed.
    + apply (results_tab_first_request E (unpressed i) (waited E w st)).
      exact Ht.
  - intros ->. cbn [String.eqb Ascii.eqb Bool.eqb] in Hrun.
    split; [exact Hrun |].
    assert (H0 : holds not_sleep (fun _ => True) w (polled E w "completed")).
    { split; [| exact Logic.I]. eexists [_; _]. split; reflexivity. }
    destruct (completed_branch_is_quiet E i w _ H0) as [[Hnew _] Hq].
    rewrite Hrun. split; [apply Hq; reflexivity | exact Hnew].
  - intros ->. split; [| split].
    + rewrite Hrun. reflexivity.
    + intros m Hm. unfold failure_message. rewrite Hm. reflexivity.
    + intros j w' Hj Hsame.
      rewrite (script_below E j w' Hj), <- Hsame.
      apply later_tabs_first_request. rewrite Hsame. exact Ht.
Qed.

(** ** C3: the cached result *)

Ltac cached_facts :=
  repeat match goal with
         | H : holds _ (cached _ _) _ _ |- _ => destruct H as [_ [? ?]]
         end.

Ltac cached_update := unfold cached; cbn; cached_facts; split; congruence.

(** The guard of the fetch is closed when a result is cached. *)
Ltac guard_closed Hd :=
  cached_facts;
  match goal with
  | Hn : negb (truthy (data (sess ?w))) = true, Hx : data (sess ?w) = _ |- _ =>
      rewrite Hx, Hd in Hn; discriminate Hn
  end.

Ltac cached_auto Hd :=
  keeps_auto reflexivity cached_update; try (exfalso; guard_closed Hd).

Lemma sidebar_cached E i d t w0 w :
  keeps_handle (pressed i) = true ->
  holds not_fetch_result (cached d t) w0 w ->
  keeps (holds not_fetch_result (cached d t) w0) false (sidebar E i) w.
Proof.
  intros Hk H. destruct (pressed i) eqn:Hp; try discriminate Hk;
    keeps_auto reflexivity cached_update.
Qed.

Lemma column_definition_tab_cached E i d t w0 w :
  keeps_handle (pressed i) = true ->
  holds not_fetch_result (cached d t) w0 w ->
  keeps (holds not_fetch_result (cached d t) w0) false
    (column_definition_tab E i) w.
Proof.
  intros Hk H. destruct (pressed i) eqn:Hp; try discriminate Hk;
    keeps_auto reflexivity cached_update.
Qed.

Lemma results_tab_cached E i d t w0 w :
  truthy d = true ->
  holds not_fetch_result (cached d t) w0 w ->
  keeps (holds not_fetch_result (cached d t) w0) false (results_tab E i) w.
Proof. intros Hd H. cached_auto Hd. Qed.

Lemma recent_tasks_tab_cached E i d t w0 w :
  keeps_handle (pressed i) = true ->
  holds not_fetch_result (cached d t) w0 w ->
  keeps (holds not_fetch_result (cached d t) w0) false
    (recent_tasks_tab E i) w.
Proof.
  intros Hk H. destruct (pressed i) eqn:Hp; try discriminate Hk;
    keeps_auto reflexivity cached_update.
Qed.

Lemma resume_file_gen_tab_cached E i d t w0 w :
  holds not_fetch_result (cached d t) w0 w ->
  keeps (holds not_fetch_result (cached d t) w0) false
    (resume_file_gen_tab E i) w.
Proof. intros H. keeps_auto reflexivity cached_update. Qed.

Lemma script_cached E i d t w0 w :
  truthy d = true ->
  keeps_handle (pressed i) = true ->
  holds not_fetch_result (cached d t) w0 w ->
  holds not_fetch_result (cached d t) w0 (snd (script E i w)).
Proof.
  intros Hd Hk H.
  cut (keeps (holds not_fetch_result (cached d t) w0) false (script E i) w);
    [intros [Hs _]; exact Hs |].
  unfold script.
  apply keeps_bind; [apply sidebar_cached; assumption |].
  intros _ w1 _ H1.
  apply keeps_bind; [apply column_definition_tab_cached; assumption |].
  intros _ w2 _ H2.
  apply keeps_bind; [apply results_tab_cached; assumption |].
  intros _ w3 _ H3.
  apply keeps_bind; [apply recent_tasks_tab_cached; assumption |].
  intros _ w4 _ H4. apply resume_file_gen_tab_cached; assumption.
Qed.

Lemma executions_cached E runs d t w0 w :
  truthy d = true ->
  Forall (fun i => keeps_handle (pressed i) = true) runs ->
  holds not_fetch_result (cached d t) w0 w ->
  holds not_fetch_result (cached d t) w0 (executions E runs w).
Proof.
  intros Hd Hruns. revert w.
  induction Hruns as [| i runs Hi _ IH]; intros w H; cbn; [exact H |].
  apply IH. apply script_cached; assumption.
Qed.

Lemma holds_no_fetch_count S w0 w :
  holds not_fetch_result S w0 w ->
  count is_fetch_result (log w) = count is_fetch_result (log w0).
Proof.
  intros [[new [-> Hnew]] _]. apply count_unchanged. exact Hnew.
Qed.

Lemma adds_none {A} (m : M A) :
  (forall w, keeps (holds not_fetch_result (fun _ => True) w) false m w) ->
  adds_at_most 0 m.
Proof.
  intros H w. destruct (H w) as [Hh _].
  rewrite (holds_no_fetch_count _ _ _ Hh). apply Nat.le_refl.
Qed.

Lemma adds_more {A} k k' (m : M A) :
  adds_at_most k m -> (k <= k')%nat -> adds_at_most k' m.
Proof. intros H Hk w. specialize (H w). lia. Qed.

Lemma adds_bind {A B} k1 k2 (m : M A) (f : A -> M B) :
  adds_at_most k1 m -> (forall a, adds_at_most k2 (f a)) ->
  adds_at_most (k1 + k2) (bind m f).
Proof.
  intros Hm Hf w. unfold bind. specialize (Hm w).
  destruct (m w) as [[a | | e] w1]; cbn in *; try lia.
  specialize (Hf a w1). lia.
Qed.

Lemma adds_get {B} k (f : session -> M B) :
  (forall s, adds_at_most k (f s)) -> adds_at_most k (bind get f).
Proof. intros H w. exact (H (sess w) w). Qed.

Ltac no_fetch :=
  apply adds_none;
  let w' := fresh "w" in
  intros w';
  pose proof (holds_refl not_fetch_result (fun _ => True) w' Logic.I);
  keeps_auto reflexivity ltac:(exact Logic.I).

Lemma fetch_result_once E : adds_at_most 1 (fetch_result E).
Proof.
  intros w. unfold fetch_result, bind at 1, get.
  destruct (negb (truthy (data (sess w)))); [| cbn; lia].
  destruct (call_api_run E ("data/" ++ py_str E (task_id (sess w))) "GET"
              None w supported_GET) as [msgs [Hrun Hmsgs]].
  cbv zeta in Hrun. unfold bind. rewrite Hrun. unfold api_outcome.
  destruct (api_escape _); cbn [snd set_data modify log];
  unfold count; rewrite requests_of_app, (requests_of_msgs _ Hmsgs);
  cbn [requests_of app filter];
  destruct (is_fetch_result _); cbn [List.length]; lia.
Qed.

Lemma show_result_no_fetch E i : adds_at_most 0 (show_result E i).
Proof. no_fetch. Qed.

Lemma results_tab_fetches_once E i : adds_at_most 1 (results_tab E i).
Proof.
  unfold results_tab. apply adds_get. intros s.
  destruct (truthy (task_id s)); [| apply (adds_more 0); [no_fetch | lia]].
  apply (adds_bind 0 1); [no_fetch |]. intros task_status.
  destruct (truthy task_status); [| apply (adds_more 0); [no_fetch | lia]].
  apply (adds_bind 0 1); [no_fetch |]. intros status.
  apply (adds_bind 0 1); [no_fetch |]. intros _.
  destruct (py_eq_str status "completed");
    [| apply (adds_more 0); [no_fetch | lia]].
  apply (adds_bind 1 0); [apply fetch_result_once |].
  intros _. apply show_result_no_fetch.
Qed.

Lemma script_fetches_once E i : adds_at_most 1 (script E i).
Proof.
  unfold script.
  apply (adds_bind 0 1); [no_fetch |]. intros _.
  apply (adds_bind 0 1); [no_fetch |]. intros _.
  apply (adds_bind 1 0); [apply results_tab_fetches_once |]. intros _.
  apply (adds_bind 0 0); [no_fetch |]. intros _. no_fetch.
Qed.

(** C3, as the code has it.  Once an execution leaves a result cached (a
    true value in [st.session_state.data]), that execution has fetched the
    result at most once, and the executions that follow send no
    result-fetch request at all as long as none of them presses "Cancel
    Task", "Load Selected Task" or "Generate Data": the handle and the
    cached result stay as they are, and the number of result-fetch requests
    stays at most one above what it was before. *)
Theorem cached_result_is_fetched_once E i runs w :
  truthy (data (sess (snd (script E i w)))) = true ->
  Forall (fun j => keeps_handle (pressed j) = true) runs ->
  let w1 := snd (script E i w) in
  let w2 := executions E runs w1 in
  count is_fetch_result (log w2) = count is_fetch_result (log w1)
  /\ (count is_fetch_result (log w2)
      <= 1 + count is_fetch_result (log w))%nat
  /\ task_id (sess w2) = task_id (sess w1)
  /\ data (sess w2) = data (sess w1).
Proof.
  intros Hd Hruns w1 w2.
  assert (H1 : holds not_fetch_result
                 (cached (data (sess w1)) (task_id (sess w1))) w1 w1)
    by (apply holds_refl; split; reflexivity).
  pose proof (executions_cached E runs _ _ w1 w1 Hd Hruns H1) as H2.
  fold w2 in H2.
  pose proof (holds_no_fetch_count _ _ _ H2) as Hc.
  destruct H2 as [_ [Hdata Htask]].
  split; [exact Hc |]. split; [| split; assumption].
  rewrite Hc. apply script_fetches_once.
Qed.

(** ** C8 and C9: the column list *)

Lemma form_column_well_constrained i : well_constrained (form_column i).
Proof.
  unfold well_constrained, form_column, form_constraints, put_if_set.
  cbn [constraints type].
  destruct (in_column_type i), (in_min_value i), (in_max_value i),
    (in_min_length i), (in_max_length i); cbn;
    try exact Logic.I;
    (split; [discriminate | repeat constructor]).
Qed.

Ltac columns_facts :=
  repeat match goal with
         | H : holds _ columns_ok _ _ |- _ =>
             destruct H as [_ H]; unfold columns_ok in H
         end.

Ltac column_is_named :=
  match goal with
  | H : _ && negb (in_column_name ?i =? EmptyString)%string = true |- _ =>
      apply andb_true_iff in H; destruct H as [_ H];
      apply negb_true_iff in H; apply String.eqb_neq in H; exact H
  end.

Ltac columns_update :=
  unfold columns_ok; cbn; columns_facts;
  first
    [ assumption
    | constructor
    | apply Forall_app; split;
      [ assumption
      | constructor;
        [ split; [column_is_named | apply form_column_well_constrained]
        | constructor ] ] ].

Lemma script_columns_ok E i w0 w :
  holds any_event columns_ok w0 w ->
  keeps (holds any_event columns_ok w0) false (script E i) w.
Proof. intros H. keeps_auto reflexivity columns_update. Qed.

Lemma reachable_columns_ok E w : reachable E w -> columns_ok (sess w).
Proof.
  induction 1 as [| w i _ IH].
  - constructor.
  - destruct (script_columns_ok E i w w (holds_refl _ _ _ IH)) as [[_ H] _].
    exact H.
Qed.

Ltac change_facts :=
  repeat match goal with
         | H : holds _ (one_change _ _) _ _ |- _ =>
             destruct H as [_ H]; unfold one_change in H
         | H : holds _ (same_columns _) _ _ |- _ =>
             destruct H as [_ H]; unfold same_columns in H
         end.

Ltac change_update :=
  unfold one_change, same_columns; cbn; change_facts;
  first [ assumption
        | right; right; reflexivity
        | right; left; congruence ].

Lemma script_changes_columns_once E i w :
  one_change (columns (sess w)) (form_column i) (sess (snd (script E i w))).
Proof.
  set (c0 := columns (sess w)). set (fc := form_column i).
  cut (keeps (holds any_event (one_change c0 fc) w) false (script E i) w);
    [intros [[_ H] _]; exact H |].
  unfold script.
  apply (keeps_bind_from _ _ (holds any_event (same_columns c0) w)).
  - pose proof (holds_refl any_event (same_columns c0) w eq_refl) as H.
    keeps_auto reflexivity change_update.
  - intros w1 [Hl Hs]. split; [exact Hl | left; exact Hs].
  - intros _ w1 _ HJ.
    assert (H1 : holds any_event (one_change c0 fc) w w1)
      by (destruct HJ as [Hl Hs]; split; [exact Hl | left; exact Hs]).
    subst fc. keeps_auto reflexivity change_update.
Qed.



(** C9, as the code has it.  In every state the session can reach, every
    column name is non-empty (nothing makes the names distinct); and one
    execution leaves the column list as it was, or with the column of the
    form appended, or empty: a stored column is never edited or removed on
    its own. *)
Theorem columns_are_named_and_append_only E i w :
  (reachable E w -> Forall named (columns (sess w)))
  /\ (columns (sess (snd (script E i w))) = columns (sess w)
      \/ columns (sess (snd (script E i w)))
         = (columns (sess w) ++ [form_column i])%list
      \/ columns (sess (snd (script E i w))) = []).
Proof.
  split.
  - intros Hr. pose proof (reachable_columns_ok E w Hr) as H.
    unfold columns_ok in H. apply Forall_forall.
    intros c Hc. rewrite Forall_forall in H. apply (H c Hc).
  - exact (script_changes_columns_once E i w).
Qed.

(** ** C10: the model of an append job *)

Ltac append_event :=
  first [ reflexivity
        | cbn; unfold field_is; cbn; rewrite !String.eqb_refl; reflexivity ].

Lemma script_append_jobs_ok E i w0 w :
  holds (append_jobs_ok i) (fun _ => True) w0 w ->
  keeps (holds (append_jobs_ok i) (fun _ => True) w0) false (script E i) w.
Proof. intros H. keeps_auto append_event ltac:(exact Logic.I). Qed.

Lemma field_is_true kv key value :
  field_is kv key value = true -> lookup key kv = Some (PStr value).
Proof.
  unfold field_is. destruct (lookup key kv) as [[| | | | s | |] |];
    try discriminate.
  intros H. apply String.eqb_eq in H. subst s. reflexivity.
Qed.

Lemma submit_append_requests E i rows w :
  requests_of (log (snd (submit_append E i rows w)))
  = append_job_request i (sess w) rows :: requests_of (log w).
Proof.
  destruct (call_api_run E "append_data" "POST"
              (Some (append_request_data i (sess w) rows)) w supported_POST)
    as [msgs [Hrun Hmsgs]].
  cbv zeta in Hrun.
  assert (Hreq : requests_of (msgs ++ Net (append_job_request i (sess w) rows)
                                :: log w)
                 = append_job_request i (sess w) rows :: requests_of (log w)).
  { rewrite requests_of_app, (requests_of_msgs _ Hmsgs). reflexivity. }
  unfold submit_append, bind, get. rewrite Hrun.
  unfold api_outcome. destruct (api_escape _); [exact Hreq |].
  set (result := api_result _).
  unfold truthy_and_contains, bind, lift, ret, raise, set_append_task_id,
    modify, st_success, emit, st_rerun.
  destruct (truthy result); [| exact Hreq].
  destruct (py_contains "task_id" result) as [e | [|]]; try exact Hreq.
  destruct (py_getitem result "task_id") as [e | v]; exact Hreq.
Qed.

Lemma sidebar_model_is_listed i :
  In (model i) (MODEL_PROVIDERS_models (provider i)).
Proof.
  unfold model, st_selectbox.
  destruct (provider i); cbn [MODEL_PROVIDERS_models hd].
  - destruct (sel_model i) as [| [| n]]; cbn; auto.
    destruct n; cbn; auto.
  - destruct (sel_model i) as [| n]; cbn; auto.
    destruct n; cbn; auto.
Qed.

(** ** C7: the default number of rows to append

    The default is computed in binary64; the lemmas below follow the
    rounding of [SpecFloat] far enough to bound the product from below. *)

Lemma digits2_pos_bounds p :
  2 ^ (Z.pos (digits2_pos p) - 1) <= Z.pos p < 2 ^ Z.pos (digits2_pos p).
Proof.
  induction p as [p IH | p IH |]; cbn [digits2_pos].
  - rewrite Pos2Z.inj_succ.
    replace (Z.succ (Z.pos (digits2_pos p)) - 1)
      with (Z.succ (Z.pos (digits2_pos p) - 1)) by lia.
    rewrite !Z.pow_succ_r by lia. lia.
  - rewrite Pos2Z.inj_succ.
    replace (Z.succ (Z.pos (digits2_pos p)) - 1)
      with (Z.succ (Z.pos (digits2_pos p) - 1)) by lia.
    rewrite !Z.pow_succ_r by lia. lia.
  - cbn. lia.
Qed.

Lemma digits2_pos_le p k :
  Z.pos p < 2 ^ k -> Z.pos (digits2_pos p) <= k.
Proof.
  intros H. destruct (digits2_pos_bounds p) as [Hl _].
  destruct (Z.le_gt_cases (Z.pos (digits2_pos p)) k) as [|Hk]; [assumption|].
  exfalso.
  assert (0 <= k) by (destruct k; try lia; cbn in H; lia).
  assert (2 ^ k <= 2 ^ (Z.pos (digits2_pos p) - 1))
    by (apply Z.pow_le_mono_r; lia).
  lia.
Qed.

Lemma digits2_pos_gt p k :
  0 <= k -> 2 ^ k <= Z.pos p -> k < Z.pos (digits2_pos p).
Proof.
  intros Hk H. destruct (digits2_pos_bounds p) as [_ Hu].
  apply (Z.pow_lt_mono_r_iff 2); lia.
Qed.

Lemma shr_1_m mrs : 0 <= shr_m mrs -> shr_m (shr_1 mrs) = shr_m mrs / 2.
Proof.
  destruct mrs as [m r s]. cbn [shr_m]. intros Hm.
  destruct m as [| [p | p |] | p]; cbn [shr_1 shr_m]; try lia.
  - reflexivity.
  - rewrite Pos2Z.inj_xI. apply Z.div_unique with 1; lia.
  - rewrite Pos2Z.inj_xO. apply Z.div_unique with 0; lia.
  - reflexivity.
Qed.

Lemma shr_m_iter n : forall mrs,
  0 <= shr_m mrs ->
  shr_m (iter_pos shr_1 n mrs) = shr_m mrs / 2 ^ Z.pos n.
Proof.
  induction n as [n IH | n IH |]; intros mrs Hm; cbn [iter_pos].
  - assert (H1 : 0 <= shr_m (shr_1 mrs))
      by (rewrite shr_1_m by assumption; apply Z.div_pos; lia).
    assert (H2 : 0 <= shr_m (iter_pos shr_1 n (shr_1 mrs)))
      by (rewrite IH by assumption; apply Z.div_pos; [lia | apply Z.pow_pos_nonneg; lia]).
    rewrite IH, IH, shr_1_m by assumption.
    rewrite !Z.div_div by (try apply Z.pow_pos_nonneg; try apply Z.pow_nonzero; lia).
    f_equal. change 2 with (2 ^ 1) at 1.
    rewrite <- !Z.pow_add_r by lia. f_equal. lia.
  - assert (H2 : 0 <= shr_m (iter_pos shr_1 n mrs))
      by (rewrite IH by assumption; apply Z.div_pos; [lia | apply Z.pow_pos_nonneg; lia]).
    rewrite IH, IH by assumption.
    rewrite !Z.div_div by (try apply Z.pow_pos_nonneg; try apply Z.pow_nonzero; lia).
    f_equal. rewrite <- !Z.pow_add_r by lia. f_equal. lia.
  - rewrite shr_1_m by assumption. reflexivity.
Qed.

Lemma round_nearest_even_bounds mx lx :
  mx <= round_nearest_even mx lx <= mx + 1.
Proof.
  destruct lx as [| []]; cbn [round_nearest_even]; try lia.
  destruct (Z.even mx); lia.
Qed.

Lemma fexp_normal x : -1021 <= x -> fexp prec64 emax64 x = x - 53.
Proof. intros H. unfold fexp, emin, prec64, emax64. lia. Qed.

Lemma round_at_least_10 m e :
  -1000 <= e <= -56 ->
  10 * 2 ^ (- e) <= Z.pos m ->
  Z.pos m < 2 ^ (50 - e) ->
  exists m' e',
    binary_round_aux prec64 emax64 false (Z.pos m) e loc_Exact
    = S754_finite false m' e'
    /\ e' < 0 /\ 10 * 2 ^ (- e') <= Z.pos m'.
Proof.
  intros He Hlow Hup.
  set (d := Z.pos (digits2_pos m)).
  destruct (digits2_pos_bounds m) as [Hd1 Hd2]. fold d in Hd1, Hd2.
  assert (Hp56 : 2 ^ 56 <= 2 ^ (- e)) by (apply Z.pow_le_mono_r; lia).
  assert (Hd60 : 59 < d).
  { apply digits2_pos_gt; [lia |]. change (2 ^ 59) with (8 * 2 ^ 56). lia. }
  assert (Hdup : d <= 50 - e) by (apply digits2_pos_le; exact Hup).
  unfold binary_round_aux, shr_fexp. cbn [Zdigits2]. fold d.
  rewrite fexp_normal by lia.
  replace (d + e - 53 - e) with (d - 53) by lia.
  destruct (d - 53) as [| n1 | n1] eqn:Hn1; try lia.
  cbn [shr shr_record_of_loc].
  set (mrs := iter_pos shr_1 n1 _).
  assert (Hq : shr_m mrs = Z.pos m / 2 ^ Z.pos n1)
    by (subst mrs; rewrite shr_m_iter; cbn [shr_m]; [reflexivity | lia]).
  set (q := shr_m mrs) in *.
  set (e1 := e + Z.pos n1).
  assert (Hpn : 0 < 2 ^ Z.pos n1) by (apply Z.pow_pos_nonneg; lia).
  assert (Hq52 : 2 ^ 52 <= q).
  { rewrite Hq. apply Z.div_le_lower_bound; [exact Hpn |].
    rewrite <- Z.pow_add_r by lia.
    replace (Z.pos n1 + 52) with (d - 1) by lia. exact Hd1. }
  assert (Hq53 : q < 2 ^ 53).
  { rewrite Hq. apply Z.div_lt_upper_bound; [exact Hpn |].
    rewrite <- Z.pow_add_r by lia.
    replace (Z.pos n1 + 53) with d by lia. exact Hd2. }
  assert (Hq10 : 10 * 2 ^ (- e1) <= q).
  { rewrite Hq. apply Z.div_le_lower_bound; [exact Hpn |].
    replace (2 ^ Z.pos n1 * (10 * 2 ^ (- e1)))
      with (10 * (2 ^ Z.pos n1 * 2 ^ (- e1))) by ring.
    rewrite <- Z.pow_add_r by (subst e1; lia).
    replace (Z.pos n1 + - e1) with (- e) by (subst e1; lia). exact Hlow. }
  pose proof (round_nearest_even_bounds q (loc_of_shr_record mrs)) as Hr.
  set (q' := round_nearest_even q (loc_of_shr_record mrs)) in *.
  destruct q' as [| pq | pq] eqn:Hq'; try lia.
  cbn [Zdigits2].
  set (d' := Z.pos (digits2_pos pq)).
  assert (Hd'1 : 52 < d') by (apply digits2_pos_gt; lia).
  assert (Hd'2 : d' <= 54)
    by (apply digits2_pos_le; change (2 ^ 54) with (2 * 2 ^ 53); lia).
  rewrite fexp_normal by (subst e1; lia).
  replace (d' + e1 - 53 - e1) with (d' - 53) by lia.
  assert (Hcases : d' - 53 = 0 \/ d' - 53 = 1) by lia.
  destruct Hcases as [Hc | Hc]; rewrite Hc;
    cbn [shr shr_record_of_loc iter_pos shr_1 shr_m].
  - replace (e1 <=? emax64 - prec64) with true
      by (symmetry; apply Z.leb_le; unfold emax64, prec64; subst e1; lia).
    exists pq, e1. split; [reflexivity |]. split; [subst e1; lia | lia].
  - destruct (digits2_pos_bounds pq) as [Hpq _]. fold d' in Hpq.
    replace (d' - 1) with 53 in Hpq by lia.
    change (2 ^ 53) with 9007199254740992 in *.
    replace (e1 + 1 <=? emax64 - prec64) with true
      by (symmetry; apply Z.leb_le; unfold emax64, prec64; subst e1; lia).
    assert (Hpow : 2 ^ (- e1) = 2 * 2 ^ (- (e1 + 1))).
    { replace (- e1) with (Z.succ (- (e1 + 1))) by lia.
      apply Z.pow_succ_r. subst e1; lia. }
    destruct pq as [p | p |]; cbn [shr_m]; try lia.
    exists p, (e1 + 1). split; [reflexivity |].
    split; [subst e1; lia | lia].
Qed.

Lemma iter_xO_value p n : Z.pos (Pos.iter xO p n) = Z.pos p * 2 ^ Z.pos n.
Proof.
  induction n as [| n IH] using Pos.peano_ind.
  - cbn. lia.
  - rewrite Pos.iter_succ, Pos2Z.inj_xO, IH, Pos2Z.inj_succ.
    rewrite Z.pow_succ_r by lia. ring.
Qed.

Lemma iter_xO_digits p n :
  Z.pos (digits2_pos (Pos.iter xO p n)) = Z.pos (digits2_pos p) + Z.pos n.
Proof.
  induction n as [| n IH] using Pos.peano_ind.
  - cbn. lia.
  - rewrite Pos.iter_succ. cbn [digits2_pos]. lia.
Qed.

(** A mantissa of 53 bits in the normal range is left as it is. *)
Lemma round_exact m e :
  Z.pos (digits2_pos m) = 53 -> -1000 <= e <= 0 ->
  binary_round_aux prec64 emax64 false (Z.pos m) e loc_Exact
  = S754_finite false m e.
Proof.
  intros Hd He. unfold binary_round_aux, shr_fexp. cbn [Zdigits2].
  rewrite Hd, fexp_normal by lia.
  replace (53 + e - 53 - e) with 0 by lia.
  cbn [shr shr_record_of_loc shr_m loc_of_shr_record round_nearest_even
       Zdigits2].
  rewrite Hd, fexp_normal by lia.
  replace (53 + e - 53 - e) with 0 by lia.
  cbn [shr shr_record_of_loc shr_m].
  replace (e <=? emax64 - prec64) with true
    by (symmetry; apply Z.leb_le; unfold emax64, prec64; lia).
  reflexivity.
Qed.

(** [float(n)] is exact for a positive integer below [2^53]. *)
Lemma float_of_int_exact p :
  Z.pos p < 2 ^ 53 ->
  exists mf ef,
    float_of_int (Z.pos p) = inr (S754_finite false mf ef)
    /\ -52 <= ef <= 0
    /\ Z.pos mf = Z.pos p * 2 ^ (- ef).
Proof.
  intros Hp. set (d := Z.pos (digits2_pos p)).
  assert (Hd : 1 <= d <= 53) by (split; [lia | apply digits2_pos_le; exact Hp]).
  unfold float_of_int, binary_normalize, binary_round, shl_align.
  fold d. rewrite fexp_normal by lia.
  replace (d + 0 - 53 - 0) with (d - 53) by lia.
  destruct (d - 53) as [| n | n] eqn:Hn; try lia.
  - rewrite round_exact by (fold d; lia).
    exists p, 0. split; [reflexivity |]. split; [lia |]. cbn. lia.
  - rewrite round_exact
      by (try rewrite iter_xO_digits; fold d; replace (d + 0 - 53) with (d - 53); lia).
    exists (Pos.iter xO p n), (d + 0 - 53). split; [reflexivity |].
    split; [lia |]. rewrite iter_xO_value. f_equal. f_equal. lia.
Qed.

Lemma default_rows_large rc :
  100 <= rc < 2 ^ 53 -> default_rows_to_append (PInt rc) = inr 10.
Proof.
  intros Hrc. destruct rc as [| p | p]; try lia.
  destruct (float_of_int_exact p) as [mf [ef [Hf [Hef Hmf]]]]; [lia |].
  unfold default_rows_to_append, py_mul_float. rewrite Hf.
  unfold float_0_1, SFmul. cbn [xorb].
  assert (Hpe : 0 < 2 ^ (- ef)) by (apply Z.pow_pos_nonneg; lia).
  assert (Hsplit : 2 ^ (- (ef + -56)) = 2 ^ 56 * 2 ^ (- ef)).
  { replace (- (ef + -56)) with (56 + - ef) by lia.
    apply Z.pow_add_r; lia. }
  destruct (round_at_least_10 (mf * 7205759403792794) (ef + -56))
    as [m' [e' [Hr [He' Hm']]]].
  - lia.
  - rewrite Hsplit, Pos2Z.inj_mul, Hmf.
    change (2 ^ 56) with 72057594037927936. nia.
  - replace (50 - (ef + -56)) with (106 + - ef) by lia.
    rewrite Z.pow_add_r by lia. rewrite Pos2Z.inj_mul, Hmf.
    change (2 ^ 106) with (9007199254740992 * 9007199254740992).
    change (2 ^ 53) with 9007199254740992 in Hrc. nia.
  - rewrite Hr. cbn [py_int].
    replace (0 <=? e') with false by (symmetry; apply Z.leb_gt; exact He').
    assert (10 <= Z.pos m' / 2 ^ (- e')).
    { apply Z.div_le_lower_bound; [apply Z.pow_pos_nonneg; lia | lia]. }
    f_equal. lia.
Qed.

Lemma default_rows_small_cases :
  forallb default_rows_agree (seq 0 100) = true.
Proof. vm_compute. reflexivity. Qed.

(** C7, as the code has it.  For a row count below [2^53] the default of
    "Number of rows to append" is a tenth of the detected rows, truncated
    to an integer, raised to 1 when smaller and capped at 10; the binary64
    product [rows_detected * 0.1] never changes that integer part.  For a
    file of 100 rows the default is 10; an input the user has not touched
    yields the default. *)
Theorem default_rows_is_a_capped_tenth rc :
  0 <= rc < 2 ^ 53 ->
  default_rows_to_append (PInt rc) = inr (Z.min 10 (Z.max 1 (rc / 10)))
  /\ default_rows_to_append (PInt 100) = inr 10
  /\ (forall value, st_number_input None value = value).
Proof.
  intros Hrc. split; [| split; [vm_compute; reflexivity | reflexivity]].
  destruct (Z.lt_ge_cases rc 100) as [Hs | Hl].
  - pose proof default_rows_small_cases as H.
    rewrite forallb_forall in H.
    specialize (H (Z.to_nat rc)).
    unfold default_rows_agree in H. rewrite Z2Nat.id in H by lia.
    assert (Hin : In (Z.to_nat rc) (seq 0 100)) by (apply in_seq; lia).
    specialize (H Hin).
    destruct (default_rows_to_append (PInt rc)) as [e | v];
      [discriminate |].
    apply Z.eqb_eq in H. rewrite H. reflexivity.
  - rewrite default_rows_large by lia. f_equal.
    assert (10 <= rc / 10) by (apply Z.div_le_lower_bound; lia). lia.
Qed.

(** ** The claims that fail on the code *)

(** C2 does not hold as stated: a failed status does not stop the polling
    of the handle.  Here the Results tab shows the failure of [t1]; the
    pending append task then waits and asks for a rerun, and the execution
    that follows, which no user action triggers, polls [t1] again. *)
Lemma failed_handle_is_polled_again :
  let first := script demo_env (press NoButton no_input) failed_and_appending in
  let second := script demo_env (unpressed no_input) (snd first) in
  fst first = Rerun
  /\ In (Show Error "Generation failed: model timeout") (log (snd first))
  /\ In (Sleep 3) (log (snd first))
  /\ count (is_status_of "t1") (log (snd first)) = 1%nat
  /\ count (is_status_of "t1") (log (snd second)) = 2%nat.
Proof.
  vm_compute. repeat split; auto 10.
Qed.

(** C7 does not hold as stated: the code caps the default at 10 and
    truncates where the specification rounds.  For 200 rows the code gives
    10 and the specification's formula 20; for 15 rows, 1 and 2. *)
Lemma default_rows_differ_from_the_formula :
  default_rows_to_append (PInt 200) = inr 10
  /\ spec_default_rows 200 = 20
  /\ default_rows_to_append (PInt 15) = inr 1
  /\ spec_default_rows 15 = 2.
Proof. vm_compute. repeat split; reflexivity. Qed.

(** C9 does not hold as stated: nothing makes column names distinct.
    Adding the column [age] twice leaves two columns of that name. *)
Lemma column_names_need_not_be_unique :
  ~ (forall E w, reachable E w -> NoDup (map name (columns (sess w)))).
Proof.
  intros H.
  specialize (H demo_env _
                (reach_step _ _ add_age
                   (reach_step _ _ add_age (reach_start demo_env)))).
  vm_compute in H. inversion H as [| x l Hnotin _]. apply Hnotin.
  left. reflexivity.
Qed.

(** C3 does not hold as stated: the result of one task handle can be
    fetched more than once.  Here the result of the completed task [t3] is
    fetched and cached; the task is then loaded again from the task list,
    which empties the cache, and the execution that follows fetches the
    result of [t3] a second time. *)
Lemma reloaded_task_is_fetched_again :
  let w := world_with (PStr "t3") PNone PNone in
  let w1 := snd (script office_env no_input w) in
  let w2 := snd (script office_env (press LoadSelectedTask no_input) w1) in
  let w3 := snd (script office_env (unpressed no_input) w2) in
  truthy (data (sess w1)) = true
  /\ count (is_fetch_of "t3") (log w1) = 1%nat
  /\ task_id (sess w2) = PStr "t3"
  /\ task_id (sess w3) = PStr "t3"
  /\ count (is_fetch_of "t3") (log w3) = 2%nat.
Proof.
  vm_compute. repeat split; reflexivity.
Qed.

(** C4 does not hold as stated: "Cancel Task" clears nothing when
    [call_api] does not come back.  Here the deletion succeeds with status
    200 and a body that is an integer of 5000 digits; [response.json()]
    raises [ValueError], which is not a [RequestException], and the
    execution ends in it with the task handle, the cached result and the
    CSV reference still set. *)
Lemma cancel_can_leave_the_task_active :
  let w := world_with (PStr "t1") (PStr "stale") (PStr "old.csv") in
  let run := script overlong_env (press CancelTask no_input) w in
  fst run = Raise digit_limit_error
  /\ task_id (sess (snd run)) = PStr "t1"
  /\ data (sess (snd run)) = PStr "stale"
  /\ csv_file (sess (snd run)) = PStr "old.csv".
Proof.
  vm_compute. repeat split; reflexivity.
Qed.

(** ** The theorems at concrete inputs *)


Lemma submit_issues_one_create_job_call_witness :
  count is_create_job
    (log (snd (script demo_env (press GenerateData no_input)
                 (world_with PNone PNone PNone))))
  = 1%nat
  /\ task_id (sess (snd (script demo_env (press GenerateData no_input)
                           (world_with PNone PNone PNone))))
     = PStr "t1".
Proof.
  destruct (submit_issues_one_create_job_call demo_env
              (press GenerateData no_input) (world_with PNone PNone PNone)
              eq_refl) as [H _].
  assert (Hc : columns (sess (world_with PNone PNone PNone)) <> [])
    by (vm_compute; intros H0; inversion H0).
  destruct (H Hc) as [_ [Hcount Hstore]].
  split; [exact Hcount |].
  refine (proj2 (Hstore 200 "OK" EmptyString [("task_id", PStr "t1")]
                   (PStr "t1") _ _ _)).
  - reflexivity.
  - lia.
  - reflexivity.
Defined.

Lemma poll_maps_remote_status_witness :
  results_tab demo_env no_input (world_with (PStr "t1") PNone PNone)
  = (Done tt,
     {| sess := session_with (PStr "t1") PNone PNone;
        log := [ Show Error "Generation failed: model timeout";
                 Show Info "Status: failed";
                 Net (status_request demo_env (PStr "t1")) ] |}).
Proof.
  refine (proj1 (proj2 (proj2
            (poll_maps_remote_status demo_env no_input
               (world_with (PStr "t1") PNone PNone) 200 "OK" EmptyString
               [("status", PStr "failed"); ("message", PStr "model timeout")]
               "failed" _ _ _ _)) eq_refl)).
  - reflexivity.
  - reflexivity.
  - lia.
  - reflexivity.
Defined.

Lemma cached_result_is_fetched_once_witness :
  let w := world_with (PStr "t3") PNone PNone in
  let w1 := snd (script demo_env no_input w) in
  let w2 := executions demo_env [no_input; press RefreshTasks no_input] w1 in
  count is_fetch_result (log w1) = 1%nat
  /\ count is_fetch_result (log w2) = count is_fetch_result (log w1)
  /\ task_id (sess w2) = task_id (sess w1)
  /\ data (sess w2) = data (sess w1).
Proof.
  intros w w1 w2.
  assert (Hruns : Forall (fun j => keeps_handle (pressed j) = true)
                    [no_input; press RefreshTasks no_input])
    by (repeat constructor).
  destruct (cached_result_is_fetched_once demo_env no_input
              [no_input; press RefreshTasks no_input] w eq_refl Hruns)
    as [Hsame [_ [Ht Hd]]].
  split; [reflexivity |]. split; [exact Hsame |]. split; assumption.
Defined.

Lemma cancel_always_clears_witness :
  script unreachable_env (press CancelTask no_input)
    (world_with (PStr "t1") (PStr "stale") (PStr "old.csv"))
  = cancel_task unreachable_env
      (world_with (PStr "t1") (PStr "stale") (PStr "old.csv"))
  /\ task_id (sess (snd (cancel_task unreachable_env
        (world_with (PStr "t1") (PStr "stale") (PStr "old.csv"))))) = PNone.
Proof.
  destruct (cancel_always_clears unreachable_env (press CancelTask no_input)
              (world_with (PStr "t1") (PStr "stale") (PStr "old.csv")))
    as [Hclear [Hscript _]].
  split; [apply Hscript; reflexivity |].
  exact (proj1 (proj2 (Hclear eq_refl))).
Defined.

Lemma submit_keeps_previous_result_witness :
  let w := world_with (PStr "t3") (PDict [("data", PList [])])
             (PStr "old.csv") in
  let w' := snd (script demo_env (press GenerateData no_input) w) in
  task_id (sess w') = PStr "t1"
  /\ data (sess w') = PDict [("data", PList [])]
  /\ csv_file (sess w') = PStr "old.csv".
Proof.
  intros w w'.
  assert (Hc : columns (sess w) <> [])
    by (vm_compute; intros H0; inversion H0).
  refine (proj1 (submit_keeps_previous_result demo_env
                   (press GenerateData no_input) w 200 "OK" EmptyString
                   [("task_id", PStr "t1")] (PStr "t1") eq_refl Hc _ _ _)).
  - reflexivity.
  - lia.
  - reflexivity.
Defined.

Lemma upload_transport_failure_is_uncaught_witness :
  fst (script unreachable_env (press ProcessCSV no_input) initial_world)
  = Raise (ConnectionError "Connection refused").
Proof.
  refine (proj1 (proj2 (upload_transport_failure_is_uncaught unreachable_env
                          (press ProcessCSV no_input) initial_world
                          ("people.csv", "name,age") "Connection refused"
                          eq_refl eq_refl)) _).
  intros hist r. reflexivity.
Defined.

Lemma default_rows_is_a_capped_tenth_witness :
  default_rows_to_append (PInt 250) = inr 10.
Proof.
  refine (proj1 (default_rows_is_a_capped_tenth 250 _)).
  split; [lia | reflexivity].
Defined.


Lemma columns_are_named_and_append_only_witness :
  Forall named (columns (sess (snd (script demo_env add_age initial_world)))).
Proof.
  refine (proj1 (columns_are_named_and_append_only demo_env no_input
                   (snd (script demo_env add_age initial_world))) _).
  apply reach_step. apply reach_start.
Defined.

(** * Further properties of the script *)

(** ** [call_api] *)

Lemma error_status_iff status :
  (400 <=? status) && (status <? 600) = true <-> 400 <= status < 600.
Proof.
  rewrite andb_true_iff, Z.leb_le, Z.ltb_lt. reflexivity.
Qed.

Lemma no_error_status status :
  ~ 400 <= status < 600 -> (400 <=? status) && (status <? 600) = false.
Proof.
  intros H. destruct ((400 <=? status) && (status <? 600)) eqn:Hs;
    [| reflexivity].
  exfalso. apply H. apply error_status_iff. exact Hs.
Qed.

(** A failure [call_api] catches gives [None], and nothing escapes. *)
Lemma api_failure_caught url answer :
  api_failure url answer <> None ->
  api_escape answer = None /\ api_result answer = PNone.
Proof.
  unfold api_failure, api_escape, api_exception, api_result.
  destruct answer as [why | status reason text [e | v]];
    try (split; reflexivity);
    destruct ((400 <=? status) && (status <? 600));
    try (split; reflexivity).
  - destruct (is_RequestException e); [split; reflexivity | congruence].
  - congruence.
Qed.

Lemma api_failure_gives_none url answer :
  api_failure url answer <> None -> api_outcome answer = Done PNone.
Proof.
  intros H. destruct (api_failure_caught url answer H) as [He Hr].
  unfold api_outcome. rewrite He, Hr. reflexivity.
Qed.

(** What escapes [call_api] is not reported. *)
Lemma api_escape_no_failure url answer e :
  api_escape answer = Some e -> api_failure url answer = None.
Proof.
  unfold api_failure, api_escape, api_exception.
  destruct answer as [why | status reason text [e' | v]];
    try discriminate;
    destruct ((400 <=? status) && (status <? 600)); try discriminate.
  destruct (is_RequestException e'); [discriminate | reflexivity].
Qed.

(** X1.  [call_api] never asks for a rerun and leaves the session alone.
    With a supported method it sends exactly one request.  A missing
    answer, a 4xx or 5xx status and a body on which [response.json()]
    raises a [RequestException] (a body that is not JSON) each give [None]
    and exactly one "API Error" message; a body that decodes gives the
    decoded value and no message; and when [response.json()] raises any
    other exception, [call_api] lets it through and shows nothing.  With
    any other method it sends nothing, shows "Unsupported method" and
    returns [None]. *)
Theorem call_api_turns_failures_into_messages E endpoint method data w :
  let url := API_URL ++ "/" ++ endpoint in
  let r := api_request method url data in
  let answer := backend E (requests_of (log w)) r in
  (supported method ->
     call_api E endpoint method data w
     = (api_outcome answer,
        {| sess := sess w;
           log := (api_messages E url answer ++ Net r :: log w)%list |})
     /\ (forall e, api_failure url answer = Some e ->
           api_outcome answer = Done PNone
           /\ api_messages E url answer
              = [Show Error ("API Error: " ++ str_exn E e)])
     /\ (forall why, answer = NoReply why ->
           api_failure url answer = Some (ConnectionError why))
     /\ (forall status reason text json,
           answer = Reply status reason text json ->
           400 <= status < 600 ->
           api_failure url answer = Some (HTTPError status reason url))
     /\ (forall status reason text e,
           answer = Reply status reason text (inl e) ->
           ~ 400 <= status < 600 ->
           is_RequestException e = true ->
           api_failure url answer = Some e)
     /\ (forall status reason text v,
           answer = Reply status reason text (inr v) ->
           ~ 400 <= status < 600 ->
           api_outcome answer = Done v /\ api_messages E url answer = [])
     /\ (forall status reason text e,
           answer = Reply status reason text (inl e) ->
           ~ 400 <= status < 600 ->
           is_RequestException e = false ->
           api_outcome answer = Raise e /\ api_messages E url answer = []))
  /\ (~ supported method ->
        call_api E endpoint method data w
        = (Done PNone,
           {| sess := sess w;
              log := Show Error ("Unsupported method: " ++ method)
                     :: log w |})).
Proof.
  intros url r answer. split.
  - intros Hm. split; [| split; [| split; [| split; [| split; [| split]]]]].
    + apply call_api_supported. exact Hm.
    + intros e He. split.
      * apply (api_failure_gives_none url). rewrite He. discriminate.
      * unfold api_messages. rewrite He. reflexivity.
    + intros why ->. reflexivity.
    + intros status reason text json -> Hs.
      unfold api_failure, api_exception.
      rewrite (proj2 (error_status_iff status) Hs). reflexivity.
    + intros status reason text e -> Hs He.
      unfold api_failure, api_exception.
      rewrite (no_error_status status Hs), He. reflexivity.
    + intros status reason text v -> Hs.
      unfold api_outcome, api_escape, api_messages, api_failure,
        api_exception, api_result.
      rewrite (no_error_status status Hs). split; reflexivity.
    + intros status reason text e -> Hs He.
      unfold api_outcome, api_escape, api_messages, api_failure,
        api_exception.
      rewrite (no_error_status status Hs), He. split; reflexivity.
  - intros Hm.
    unfold call_api, try_except, bind, st_error, emit, ret.
    destruct (method =? "GET")%string eqn:Hg;
      [apply String.eqb_eq in Hg; exfalso; apply Hm; left; exact Hg |].
    destruct (method =? "POST")%string eqn:Hp;
      [apply String.eqb_eq in Hp; exfalso; apply Hm; right; left; exact Hp |].
    destruct (method =? "DELETE")%string eqn:Hd;
      [apply String.eqb_eq in Hd; exfalso; apply Hm; right; right; exact Hd |].
    reflexivity.
Qed.

(** ** What a button can change *)

Ltac frame_facts :=
  repeat match goal with
         | H : holds _ _ _ _ |- _ => destruct H as [_ H]; cbn beta in H
         end.

Ltac frame_update := cbn; frame_facts; first [assumption | congruence].

(** A session property [S] that no assignment of the execution breaks is
    kept by the whole script; the button is known. *)
Ltac frame_auto :=
  match goal with
  | |- keeps _ _ (script _ _) _ => unfold script
  | |- keeps _ _ (later_tabs _ _) _ => unfold later_tabs
  | _ => idtac
  end;
  keeps_auto reflexivity frame_update.

Lemma script_keeps_task_id E i t w0 w :
  keeps_handle (pressed i) = true ->
  holds any_event (fun s => task_id s = t) w0 w ->
  keeps (holds any_event (fun s => task_id s = t) w0) false (script E i) w.
Proof.
  intros Hk H. destruct (pressed i) eqn:Hp; try discriminate Hk; frame_auto.
Qed.

Lemma script_keeps_csv_file E i c w0 w :
  keeps_csv (pressed i) = true ->
  holds any_event (fun s => csv_file s = c) w0 w ->
  keeps (holds any_event (fun s => csv_file s = c) w0) false (script E i) w.
Proof.
  intros Hk H. destruct (pressed i) eqn:Hp; try discriminate Hk; frame_auto.
Qed.

Lemma script_keeps_result E i d w0 w :
  keeps_result (pressed i) = true ->
  truthy d = true ->
  holds any_event (fun s => data s = d) w0 w ->
  keeps (holds any_event (fun s => data s = d) w0) false (script E i) w.
Proof.
  intros Hk Hd H.
  destruct (pressed i) eqn:Hp; try discriminate Hk; frame_auto;
    try (exfalso; frame_facts;
         match goal with
         | Hn : negb (truthy (data (sess ?w))) = true,
           Hx : data (sess ?w) = _ |- _ =>
             rewrite Hx, Hd in Hn; discriminate Hn
         end).
Qed.

(** X2.  The state of the generation workflow changes only on request: the
    task handle changes only in an execution where "Cancel Task", "Load
    Selected Task" or "Generate Data" is pressed, the CSV reference only
    with "Cancel Task", "Load Selected Task" or "Convert to CSV", and a
    cached result only with "Cancel Task" or "Load Selected Task".  In
    particular nothing the Resume File Gen tab does touches them. *)
Theorem generation_state_changes_only_on_request E i w :
  (keeps_handle (pressed i) = true ->
   task_id (sess (snd (script E i w))) = task_id (sess w))
  /\ (keeps_csv (pressed i) = true ->
      csv_file (sess (snd (script E i w))) = csv_file (sess w))
  /\ (keeps_result (pressed i) = true ->
      truthy (data (sess w)) = true ->
      data (sess (snd (script E i w))) = data (sess w)).
Proof.
  split; [| split].
  - intros Hk.
    destruct (script_keeps_task_id E i _ w w Hk (holds_refl _ _ w eq_refl))
      as [[_ H] _]. exact H.
  - intros Hk.
    destruct (script_keeps_csv_file E i _ w w Hk (holds_refl _ _ w eq_refl))
      as [[_ H] _]. exact H.
  - intros Hk Hd.
    destruct (script_keeps_result E i _ w w Hk Hd (holds_refl _ _ w eq_refl))
      as [[_ H] _]. exact H.
Qed.

Lemma script_keeps_rows_detected E i v w0 w :
  pressed i <> ProcessCSV ->
  holds any_event (fun s => rows_detected s = v) w0 w ->
  keeps (holds any_event (fun s => rows_detected s = v) w0) false
    (script E i) w.
Proof.
  intros Hk H. destruct (pressed i) eqn:Hp; try congruence; frame_auto.
Qed.

Lemma script_keeps_upload E i a b c w0 w :
  keeps_upload (pressed i) = true ->
  holds any_event
    (fun s => uploaded_file_id s = a /\ uploaded_file_name s = b
              /\ uploaded_columns s = c) w0 w ->
  keeps (holds any_event
           (fun s => uploaded_file_id s = a /\ uploaded_file_name s = b
                     /\ uploaded_columns s = c) w0) false (script E i) w.
Proof.
  intros Hk H. destruct (pressed i) eqn:Hp; try discriminate Hk;
    unfold script;
    keeps_auto reflexivity ltac:(cbn; frame_facts; assumption).
Qed.

Lemma script_keeps_append_task E i t w0 w :
  keeps_append (pressed i) = true ->
  holds any_event (fun s => append_task_id s = t) w0 w ->
  keeps (holds any_event (fun s => append_task_id s = t) w0) false
    (script E i) w.
Proof.
  intros Hk H. destruct (pressed i) eqn:Hp; try discriminate Hk; frame_auto.
Qed.

(** X3.  The state of the append workflow changes only on request: the
    uploaded file (its identifier, name and columns) changes only with
    "Process CSV" or "Upload Different File", the append task only with
    "Generate and Append Data", "Start New Append Task" or "Upload Different
    File", and the detected row count only with "Process CSV": "Upload
    Different File" forgets the file but keeps its row count. *)
Theorem append_state_changes_only_on_request E i w :
  (keeps_upload (pressed i) = true ->
   uploaded_file_id (sess (snd (script E i w))) = uploaded_file_id (sess w)
   /\ uploaded_file_name (sess (snd (script E i w)))
      = uploaded_file_name (sess w)
   /\ uploaded_columns (sess (snd (script E i w)))
      = uploaded_columns (sess w))
  /\ (keeps_append (pressed i) = true ->
      append_task_id (sess (snd (script E i w))) = append_task_id (sess w))
  /\ (pressed i <> ProcessCSV ->
      rows_detected (sess (snd (script E i w))) = rows_detected (sess w)).
Proof.
  split; [| split].
  - intros Hk.
    destruct (script_keeps_upload E i _ _ _ w w Hk
                (holds_refl _ _ w (conj eq_refl (conj eq_refl eq_refl))))
      as [[_ H] _]. exact H.
  - intros Hk.
    destruct (script_keeps_append_task E i _ w w Hk
                (holds_refl _ _ w eq_refl)) as [[_ H] _]. exact H.
  - intros Hk.
    destruct (script_keeps_rows_detected E i _ w w Hk
                (holds_refl _ _ w eq_refl)) as [[_ H] _]. exact H.
Qed.

(** ** Submissions that fail *)

Lemma later_tabs_keep_task_id E i t w0 w :
  pressed i <> LoadSelectedTask ->
  holds any_event (fun s => task_id s = t) w0 w ->
  keeps (holds any_event (fun s => task_id s = t) w0) false
    (later_tabs E i) w.
Proof.
  intros Hk H. destruct (pressed i) eqn:Hp; try congruence; frame_auto.
Qed.

(** X4.  A submission that fails changes nothing.  When [call_api] catches
    the failure (no answer, a 4xx or 5xx status, a body that is not JSON),
    "Generate Data" sends its one request, shows the error and returns
    without a rerun, the session as it was, and the task handle is still
    the old one at the end of the execution.  When decoding the answer
    raises an exception [call_api] does not catch, the handler, and the
    execution with it, ends in that exception, the session as it was and
    nothing shown. *)
Theorem failed_submission_changes_nothing E i w :
  columns (sess w) <> [] ->
  let job := create_job_request i (columns (sess w)) in
  let answer := backend E (requests_of (log w)) job in
  (api_failure (API_URL ++ "/generate") answer <> None ->
   generate_data E i w
   = (Done tt,
      {| sess := sess w;
         log := (api_messages E (API_URL ++ "/generate") answer
                 ++ Net job :: log w)%list |})
   /\ (pressed i = GenerateData ->
       task_id (sess (snd (script E i w))) = task_id (sess w)))
  /\ (forall e,
        api_escape answer = Some e ->
        generate_data E i w
        = (Raise e, {| sess := sess w; log := Net job :: log w |})
        /\ (pressed i = GenerateData ->
            script E i w
            = (Raise e, {| sess := sess w; log := Net job :: log w |}))).
Proof.
  intros Hc job answer.
  assert (Hcall : generate_data E i w
                  = (result <- (fun w' => (api_outcome answer, w')) ;;
                     ok <- truthy_and_contains "task_id" result ;;
                     if ok then
                       v <- lift (py_getitem result "task_id") ;;
                       set_task_id v ;;
                       v' <- lift (py_getitem result "task_id") ;;
                       st_success ("Generation task submitted! Task ID: "
                                   ++ py_str E v') ;;
                       st_rerun
                     else ret tt)
                      {| sess := sess w;
                         log := (api_messages E (API_URL ++ "/generate")
                                   answer
                                 ++ Net job :: log w)%list |}).
  { subst answer job. unfold generate_data, bind at 1, get.
    destruct (columns (sess w)) as [| c cs] eqn:Hcols; [congruence |].
    unfold bind at 1.
    rewrite (call_api_supported E "generate" "POST" _ w supported_POST).
    reflexivity. }
  split.
  - intros Hf.
    assert (Hg : generate_data E i w
                 = (Done tt,
                    {| sess := sess w;
                       log := (api_messages E (API_URL ++ "/generate") answer
                               ++ Net job :: log w)%list |})).
    { rewrite Hcall. unfold bind at 1.
      rewrite (api_failure_gives_none _ _ Hf). reflexivity. }
    split; [exact Hg |].
    intros Hp. rewrite (script_generate E i w Hp).
    destruct (columns (sess w)) as [| c cs]; [congruence |].
    unfold bind. rewrite Hg.
    set (w1 := {| sess := sess w; log := _ |}).
    assert (Hl : pressed i <> LoadSelectedTask) by congruence.
    destruct (later_tabs_keep_task_id E i (task_id (sess w)) w1 w1 Hl
                (holds_refl _ _ w1 eq_refl)) as [[_ H] _].
    exact H.
  - intros e He.
    assert (Hg : generate_data E i w
                 = (Raise e, {| sess := sess w; log := Net job :: log w |})).
    { rewrite Hcall. unfold bind at 1, api_outcome, api_messages.
      rewrite He, (api_escape_no_failure _ _ _ He). reflexivity. }
    split; [exact Hg |].
    intros Hp. rewrite (script_generate E i w Hp).
    destruct (columns (sess w)) as [| c cs]; [congruence |].
    unfold bind. rewrite Hg. reflexivity.
Qed.

(** ** The model of a generation job *)



(** ** Statuses the Results tab does not know *)

(** X6.  A status other than [completed], [running], [pending] and [failed]
    falls through the chain of tests: the Results tab shows the status line
    and nothing else; it does not wait, rerun, fetch or report an error. *)
Theorem unknown_status_is_ignored E i w status reason text kv st :
  truthy (task_id (sess w)) = true ->
  backend E (requests_of (log w)) (status_request E (task_id (sess w)))
  = Reply status reason text (inr (PDict kv)) ->
  200 <= status < 300 ->
  lookup "status" kv = Some (PStr st) ->
  st <> "completed" -> st <> "running" -> st <> "pending" ->
  st <> "failed" ->
  results_tab E i w = (Done tt, polled E w st).
Proof.
  intros Ht Hb Hs Hst Hc Hr Hp Hf.
  rewrite (results_tab_polled E i w status reason text kv st Ht Hb Hs Hst).
  apply String.eqb_neq in Hc, Hr, Hp, Hf.
  rewrite Hc, Hr, Hp, Hf. reflexivity.
Qed.

(** ** The CSV preview *)

Lemma csv_preview_returns E s w :
  exists ev,
    csv_preview E s w = (Done tt, {| sess := sess w; log := ev :: log w |})
    /\ forall l, requests_of (ev :: l) = requests_of l.
Proof.
  unfold csv_preview, try_except, bind, st_download_button, st_error, emit,
    raise, ret.
  destruct (csv_file s) as [| b | n | f | path | l | kv]; cbn;
    try (eexists; split; [reflexivity | reflexivity]).
  destruct (read_csv E path); cbn;
    [| eexists; split; [reflexivity | reflexivity]].
  destruct (read_text E path); cbn; eexists; split; reflexivity.
Qed.

(** X7.  The CSV preview never fails: whatever the CSV reference is and
    whatever the file system does, it returns normally and leaves the
    session alone.  When both [pd.read_csv] and [open] accept the path it
    offers the download; otherwise it shows one "Error reading CSV file"
    message. *)
Theorem csv_preview_catches_file_errors E s w :
  fst (csv_preview E s w) = Done tt
  /\ sess (snd (csv_preview E s w)) = sess w
  /\ (readable E (csv_file s) = true ->
      log (snd (csv_preview E s w))
      = Offer "Download CSV File"
          ("synthetic_data_" ++ py_str E (task_id s) ++ ".csv") :: log w)
  /\ (readable E (csv_file s) = false ->
      exists what,
        log (snd (csv_preview E s w))
        = Show Error ("Error reading CSV file: " ++ what) :: log w).
Proof.
  unfold readable, csv_preview, try_except, bind, st_download_button,
    st_error, emit, raise, ret.
  destruct (csv_file s) as [| b | n | f | path | l | kv]; cbn;
    try (repeat split; try discriminate; intros _; eexists; reflexivity).
  destruct (read_csv E path); cbn;
    [| repeat split; try discriminate; intros _; eexists; reflexivity].
  destruct (read_text E path); cbn;
    repeat split; try discriminate; intros _; eexists; reflexivity.
Qed.


(** Running a computation whose branches are decided by the hypotheses. *)
Ltac step_through :=
  cbn [bind get ret lift raise button_eqb emit modify truthy_and_contains
       st_error st_success st_info st_warning time_sleep st_download_button
       st_rerun set_columns set_task_id set_data set_csv_file
       set_uploaded_file_id set_uploaded_file_name set_uploaded_columns
       set_append_task_id set_rows_detected fst snd sess log columns task_id
       data csv_file uploaded_file_id uploaded_file_name uploaded_columns
       append_task_id rows_detected truthy py_contains py_getitem py_get
       py_eq_str].

Lemma requests_of_messages E url answer r l :
  requests_of (api_messages E url answer ++ Net r :: l) = r :: requests_of l.
Proof.
  unfold api_messages. destruct (api_failure url answer); reflexivity.
Qed.

(** ** Converting the result to CSV *)

(** X8.  With the result on screen, "Convert to CSV" sends one conversion
    request for the active task.  When [call_api] catches a failure of it
    (no answer, a 4xx or 5xx status, a body that is not JSON) the CSV
    reference stays what it was, and when a 2xx answer carries a [csv_file]
    the reference becomes that value; in both cases the result view returns
    normally.  When decoding the answer raises an exception [call_api] does
    not catch, the view ends in that exception, the session unchanged. *)
Theorem convert_to_csv_stores_the_path E i w kv rows :
  pressed i = ConvertToCSV ->
  data (sess w) = PDict kv ->
  lookup "data" kv = Some rows ->
  DataFrame E rows = true ->
  (api_failure (rq_url (convert_request E (task_id (sess w))))
     (backend E (requests_of (log w))
        (convert_request E (task_id (sess w)))) <> None ->
   fst (show_result E i w) = Done tt
   /\ csv_file (sess (snd (show_result E i w))) = csv_file (sess w)
   /\ requests_of (log (snd (show_result E i w)))
      = convert_request E (task_id (sess w)) :: requests_of (log w))
  /\ (forall status reason text kv' f,
        backend E (requests_of (log w))
          (convert_request E (task_id (sess w)))
        = Reply status reason text (inr (PDict kv')) ->
        200 <= status < 300 ->
        lookup "csv_file" kv' = Some f ->
        fst (show_result E i w) = Done tt
        /\ csv_file (sess (snd (show_result E i w))) = f
        /\ requests_of (log (snd (show_result E i w)))
           = convert_request E (task_id (sess w)) :: requests_of (log w))
  /\ (forall e,
        api_escape (backend E (requests_of (log w))
                      (convert_request E (task_id (sess w)))) = Some e ->
        show_result E i w
        = (Raise e,
           {| sess := sess w;
              log := Net (convert_request E (task_id (sess w)))
                     :: log w |})).
Proof.
  intros Hp Hd Hrows Hdf.
  assert (Hkv : kv <> []) by (intros ->; discriminate Hrows).
  assert (Htr : truthy (PDict kv) = true)
    by (destruct kv; [congruence | reflexivity]).
  assert (Hin : py_contains "data" (PDict kv) = inr true)
    by (cbn; rewrite Hrows; reflexivity).
  assert (Hget : py_getitem (PDict kv) "data" = inr rows)
    by (cbn; rewrite Hrows; reflexivity).
  assert (Hstart :
            show_result E i w
            = ((csv_result <- call_api E ("convert_to_csv/"
                                ++ py_str E (task_id (sess w))) "POST" None ;;
                ok <- truthy_and_contains "csv_file" csv_result ;;
                if ok then
                  f <- lift (py_getitem csv_result "csv_file") ;;
                  set_csv_file f ;;
                  st_success "CSV conversion successful!"
                else ret tt) ;;
               s <- get ;;
               if truthy (csv_file s) then csv_preview E s else ret tt) w).
  { unfold show_result, truthy_and_contains, st_button.
    repeat (cbn [bind get ret lift raise button_eqb];
            rewrite ?Hd, ?Htr, ?Hin, ?Hget, ?Hdf, ?Hp).
    reflexivity. }
  split; [| split].
  - intros Hf.
    assert (Hres : exists l,
              show_result E i w = (Done tt, {| sess := sess w; log := l |})
              /\ requests_of l
                 = convert_request E (task_id (sess w))
                   :: requests_of (log w)).
    { rewrite Hstart. unfold bind at 1. unfold bind at 1.
      rewrite (call_api_supported E _ "POST" None w supported_POST).
      fold (convert_request E (task_id (sess w))).
      rewrite (api_failure_gives_none _ _ Hf). step_through.
      destruct (truthy (csv_file (sess w))).
      - match goal with
        | |- context [csv_preview E ?s ?w1] =>
            destruct (csv_preview_returns E s w1) as [ev [Hev Hq]]; rewrite Hev
        end.
        eexists. split; [reflexivity |].
        cbn [log]. rewrite Hq. apply requests_of_messages.
      - eexists. split; [reflexivity |]. apply requests_of_messages. }
    destruct Hres as [l [Hres Hl]]. rewrite Hres. cbn [fst snd sess log].
    auto.
  - intros status reason text kv' f Hb Hs Hcsv.
    assert (Hres : exists s' l,
              show_result E i w = (Done tt, {| sess := s'; log := l |})
              /\ csv_file s' = f
              /\ requests_of l
                 = convert_request E (task_id (sess w))
                   :: requests_of (log w)).
    { rewrite Hstart. unfold bind at 1. unfold bind at 1.
      rewrite (call_api_ok E _ "POST" None w status reason text (PDict kv')
                 supported_POST Hb Hs).
      destruct kv' as [| kv0' kvs']; [discriminate |].
      repeat (step_through; rewrite ?Hcsv).
      destruct (truthy f).
      - match goal with
        | |- context [csv_preview E ?s ?w1] =>
            destruct (csv_preview_returns E s w1) as [ev [Hev Hq]]; rewrite Hev
        end.
        eexists _, _. split; [reflexivity |]. split; [reflexivity |].
        cbn [log]. rewrite Hq. reflexivity.
      - eexists _, _. split; [reflexivity |]. split; [reflexivity |].
        reflexivity. }
    destruct Hres as [s' [l [Hres [Hf Hl]]]]. rewrite Hres.
    cbn [fst snd sess log]. auto.
  - intros e He. rewrite Hstart. unfold bind at 1. unfold bind at 1.
    rewrite (call_api_supported E _ "POST" None w supported_POST).
    fold (convert_request E (task_id (sess w))).
    unfold api_outcome, api_messages. rewrite He.
    rewrite (api_escape_no_failure _ _ _ He). reflexivity.
Qed.

(** ** The Recent Tasks tab *)

Lemma item_or_empty_present t kv k w :
  t = PDict kv -> has_key k kv = true ->
  exists v, item_or_empty t k w = (Done v, w).
Proof.
  intros -> Hk. unfold item_or_empty, has_key in *.
  destruct (lookup k kv) as [x |] eqn:Hx; [| discriminate].
  cbn. rewrite Hx. cbn. destruct (truthy x); cbn; rewrite ?Hx;
    eexists; reflexivity.
Qed.

Lemma item_or_empty_missing t k w :
  (forall kv, t = PDict kv -> has_key k kv = false) ->
  exists e, item_or_empty t k w = (Raise e, w).
Proof.
  intros Hk. unfold item_or_empty, has_key in *.
  destruct t as [| b | n | f | s | l | kv]; cbn; try (eexists; reflexivity).
  specialize (Hk kv eq_refl).
  destruct (lookup k kv); [discriminate |]. cbn. eexists; reflexivity.
Qed.

Lemma task_row_listed t w :
  is_listed_task t = true -> task_row t w = (Done (listed_id t), w).
Proof.
  destruct t as [| b | n | f | s | l | kv]; try discriminate.
  unfold is_listed_task. rewrite !andb_true_iff.
  intros [[[[H1 H2] H3] H4] H5].
  destruct (item_or_empty_present (PDict kv) kv "completed_at" w eq_refl H4)
    as [v4 E4].
  destruct (item_or_empty_present (PDict kv) kv "result_file" w eq_refl H5)
    as [v5 E5].
  unfold task_row, listed_id, has_key in *.
  destruct (lookup "task_id" kv) as [tid |] eqn:L1; [| discriminate].
  destruct (lookup "status" kv) as [st |] eqn:L2; [| discriminate].
  destruct (lookup "created_at" kv) as [cr |] eqn:L3; [| discriminate].
  unfold bind at 1. cbn [py_getitem]. rewrite L1. cbn [lift ret].
  unfold bind at 1. cbn [py_getitem]. rewrite L2. cbn [lift ret].
  unfold bind at 1. cbn [py_getitem]. rewrite L3. cbn [lift ret].
  unfold bind at 1. rewrite E4.
  unfold bind at 1. rewrite E5. reflexivity.
Qed.

Lemma task_row_unlisted t w :
  is_listed_task t = false -> exists e, task_row t w = (Raise e, w).
Proof.
  intros H. unfold task_row.
  destruct t as [| b | n | f | s | l | kv]; try (eexists; reflexivity).
  unfold is_listed_task, has_key in H.
  unfold bind at 1. cbn [py_getitem].
  destruct (lookup "task_id" kv) as [tid |] eqn:L1;
    [| eexists; reflexivity]. cbn [lift ret].
  unfold bind at 1. cbn [py_getitem].
  destruct (lookup "status" kv) as [st |] eqn:L2;
    [| eexists; reflexivity]. cbn [lift ret].
  unfold bind at 1. cbn [py_getitem].
  destruct (lookup "created_at" kv) as [cr |] eqn:L3;
    [| eexists; reflexivity]. cbn [lift ret].
  unfold bind at 1.
  destruct (lookup "completed_at" kv) as [co |] eqn:L4.
  - destruct (item_or_empty_present (PDict kv) kv "completed_at" w eq_refl)
      as [v4 E4]; [unfold has_key; rewrite L4; reflexivity |].
    rewrite E4. unfold bind at 1.
    destruct (item_or_empty_missing (PDict kv) "result_file" w) as [e E5].
    { intros kv' [= <-]. unfold has_key.
      destruct (lookup "result_file" kv); [discriminate H | reflexivity]. }
    rewrite E5. eexists; reflexivity.
  - destruct (item_or_empty_missing (PDict kv) "completed_at" w) as [e E4].
    { intros kv' [= <-]. unfold has_key. rewrite L4. reflexivity. }
    rewrite E4. eexists; reflexivity.
Qed.

Lemma for_each_task_row ts w :
  forallb is_listed_task ts = true ->
  for_each task_row ts w = (Done (map listed_id ts), w).
Proof.
  induction ts as [| t ts IH]; [reflexivity |].
  cbn [forallb]. rewrite andb_true_iff. intros [Ht Hts].
  cbn [for_each map]. unfold bind at 1. rewrite (task_row_listed t w Ht).
  unfold bind at 1. rewrite (IH Hts). reflexivity.
Qed.

Lemma for_each_task_row_unlisted ts w :
  forallb is_listed_task ts = false ->
  exists e, for_each task_row ts w = (Raise e, w).
Proof.
  induction ts as [| t ts IH]; [discriminate |].
  cbn [forallb for_each]. intros H. unfold bind at 1.
  destruct (is_listed_task t) eqn:Ht.
  - rewrite (task_row_listed t w Ht). unfold bind at 1.
    destruct (IH H) as [e He]. rewrite He. eexists; reflexivity.
  - destruct (task_row_unlisted t w Ht) as [e He]. rewrite He.
    eexists; reflexivity.
Qed.

(** The tab up to the answer of the backend. *)
Lemma recent_tasks_tab_start E i w :
  pressed i <> RefreshTasks ->
  recent_tasks_tab E i w
  = (tasks <- (fun w' =>
                 (api_outcome (backend E (requests_of (log w)) tasks_request),
                  w')) ;;
     if truthy tasks then
       ts <- lift (py_iter tasks) ;;
       ids <- for_each task_row ts ;;
       match ids with
       | _ :: _ =>
           if st_button i LoadSelectedTask then
             load_selected_task
               (st_selectbox (sel_task i) (tolist E ids) PNone)
           else ret tt
       | [] => st_info "No tasks available"
       end
     else st_info "No tasks available or unable to fetch task list")
      {| sess := sess w;
         log := (api_messages E (API_URL ++ "/" ++ "tasks")
                   (backend E (requests_of (log w)) tasks_request)
                 ++ Net tasks_request :: log w)%list |}.
Proof.
  intros Hp. unfold recent_tasks_tab, st_button.
  replace (button_eqb (pressed i) RefreshTasks) with false
    by (destruct (pressed i); try reflexivity; congruence).
  unfold bind at 1. cbn [ret]. unfold bind at 1.
  rewrite (call_api_supported E "tasks" "GET" None w supported_GET).
  reflexivity.
Qed.

(** The tab once [call_api] has returned. *)
Lemma recent_tasks_tab_returned E i w :
  pressed i <> RefreshTasks ->
  api_escape (backend E (requests_of (log w)) tasks_request) = None ->
  recent_tasks_tab E i w
  = (let tasks := api_result (backend E (requests_of (log w)) tasks_request) in
     if truthy tasks then
       ts <- lift (py_iter tasks) ;;
       ids <- for_each task_row ts ;;
       match ids with
       | _ :: _ =>
           if st_button i LoadSelectedTask then
             load_selected_task
               (st_selectbox (sel_task i) (tolist E ids) PNone)
           else ret tt
       | [] => st_info "No tasks available"
       end
     else st_info "No tasks available or unable to fetch task list")
      {| sess := sess w;
         log := (api_messages E (API_URL ++ "/" ++ "tasks")
                   (backend E (requests_of (log w)) tasks_request)
                 ++ Net tasks_request :: log w)%list |}.
Proof.
  intros Hp He. rewrite (recent_tasks_tab_start E i w Hp).
  unfold bind at 1. rewrite (api_escape_none _ He). reflexivity.
Qed.

(** The tab on a 2xx answer that decodes. *)
Lemma recent_tasks_tab_decoded E i w status reason text v :
  pressed i <> RefreshTasks ->
  backend E (requests_of (log w)) tasks_request
  = Reply status reason text (inr v) ->
  200 <= status < 300 ->
  recent_tasks_tab E i w
  = (if truthy v then
       ts <- lift (py_iter v) ;;
       ids <- for_each task_row ts ;;
       match ids with
       | _ :: _ =>
           if st_button i LoadSelectedTask then
             load_selected_task
               (st_selectbox (sel_task i) (tolist E ids) PNone)
           else ret tt
       | [] => st_info "No tasks available"
       end
     else st_info "No tasks available or unable to fetch task list")
      {| sess := sess w; log := Net tasks_request :: log w |}.
Proof.
  intros Hp Hb Hs. unfold recent_tasks_tab, st_button.
  replace (button_eqb (pressed i) RefreshTasks) with false
    by (destruct (pressed i); try reflexivity; congruence).
  unfold bind at 1. cbn [ret]. unfold bind at 1.
  rewrite (call_api_ok E "tasks" "GET" None w status reason text v
             supported_GET Hb Hs).
  reflexivity.
Qed.

Lemma st_selectbox_in {A} (choice : nat) (options : list A) (d : A) :
  options <> [] -> In (st_selectbox choice options d) options.
Proof.
  intros Hne. unfold st_selectbox.
  destruct options as [| x rest]; [congruence |]. cbn [hd].
  destruct (Nat.lt_ge_cases choice (List.length (x :: rest))) as [Hlt | Hge].
  - apply nth_In. exact Hlt.
  - rewrite nth_overflow by exact Hge. left. reflexivity.
Qed.

(** X9.  "Load Selected Task" makes the selected option the active task.
    When the backend answers the task list with a non-empty list of
    well-formed entries, the options of the select box are the task
    identifiers as pandas gives them back from the "Task ID" column; the
    handle becomes the selected option (the first one when the selection is
    out of range), the cached result and the CSV reference are dropped, and
    the page reruns; only the list request is sent.  When pandas gives the
    identifiers back unchanged, the new handle is the identifier of a
    listed entry. *)
Theorem load_selects_a_listed_task E i w status reason text ts :
  pressed i = LoadSelectedTask ->
  backend E (requests_of (log w)) tasks_request
  = Reply status reason text (inr (PList ts)) ->
  200 <= status < 300 ->
  ts <> [] ->
  forallb is_listed_task ts = true ->
  let options := tolist E (map listed_id ts) in
  let chosen := st_selectbox (sel_task i) options PNone in
  let w' := snd (recent_tasks_tab E i w) in
  fst (recent_tasks_tab E i w) = Rerun
  /\ task_id (sess w') = chosen
  /\ data (sess w') = PNone
  /\ csv_file (sess w') = PNone
  /\ log w' = Net tasks_request :: log w
  /\ (options <> [] -> In chosen options)
  /\ (options = map listed_id ts -> In chosen (map listed_id ts)).
Proof.
  intros Hp Hb Hs Hne Hok options chosen w'. subst w'.
  assert (Hres : exists s',
            recent_tasks_tab E i w
            = (Rerun, {| sess := s'; log := Net tasks_request :: log w |})
            /\ task_id s' = chosen /\ data s' = PNone
            /\ csv_file s' = PNone).
  { rewrite (recent_tasks_tab_decoded E i w status reason text (PList ts))
      by (try exact Hb; try exact Hs; rewrite Hp; discriminate).
    destruct ts as [| t ts'] eqn:Hts; [congruence |].
    cbn [truthy py_iter lift]. unfold bind at 1. cbn [ret].
    unfold bind at 1. rewrite (for_each_task_row (t :: ts') _ Hok).
    cbn [map]. unfold st_button. rewrite Hp. cbn [button_eqb].
    unfold load_selected_task. step_through.
    eexists. split; [reflexivity |]. cbn. auto. }
  destruct Hres as [s' [Hres [H1 [H2 H3]]]]. rewrite Hres.
  cbn [fst snd sess log].
  split; [reflexivity |]. split; [exact H1 |]. split; [exact H2 |].
  split; [exact H3 |]. split; [reflexivity |]. split.
  - intros Ho. apply st_selectbox_in. exact Ho.
  - intros Ho. unfold chosen. rewrite Ho. apply st_selectbox_in.
    destruct ts; [congruence | discriminate].
Qed.

(** X10.  Nothing can be loaded without a task list: when [call_api] comes
    back from the list request with a value that is false in Python (no
    answer, an error status, a body that is not JSON, an empty list), the
    tab shows its notice and returns; the session is unchanged whatever
    button triggered the execution. *)
Theorem no_task_list_blocks_loading E i w :
  pressed i <> RefreshTasks ->
  api_escape (backend E (requests_of (log w)) tasks_request) = None ->
  truthy (api_result (backend E (requests_of (log w)) tasks_request)) = false ->
  fst (recent_tasks_tab E i w) = Done tt
  /\ sess (snd (recent_tasks_tab E i w)) = sess w
  /\ log (snd (recent_tasks_tab E i w))
     = (Show Info "No tasks available or unable to fetch task list"
        :: api_messages E (API_URL ++ "/tasks")
             (backend E (requests_of (log w)) tasks_request)
        ++ Net tasks_request :: log w)%list.
Proof.
  intros Hp He Ht. rewrite (recent_tasks_tab_returned E i w Hp He). cbv zeta.
  rewrite Ht. cbn. auto.
Qed.

(** X11.  One malformed entry breaks the tab: when the task list holds an
    entry that is not an object with the five keys of the table, building
    the table raises, outside any handler, with the session unchanged; the
    Resume File Gen tab below is not run. *)
Theorem malformed_task_entry_is_uncaught E i w status reason text ts :
  pressed i <> RefreshTasks ->
  backend E (requests_of (log w)) tasks_request
  = Reply status reason text (inr (PList ts)) ->
  200 <= status < 300 ->
  forallb is_listed_task ts = false ->
  exists e,
    recent_tasks_tab E i w
    = (Raise e, {| sess := sess w; log := Net tasks_request :: log w |}).
Proof.
  intros Hp Hb Hs Hbad.
  rewrite (recent_tasks_tab_decoded E i w status reason text (PList ts)
             Hp Hb Hs).
  destruct ts as [| t ts']; [discriminate |].
  cbn [truthy py_iter lift]. unfold bind at 1. cbn [ret].
  unfold bind at 1.
  destruct (for_each_task_row_unlisted (t :: ts') {| sess := sess w; log := Net tasks_request :: log w |} Hbad)
    as [e He].
  rewrite He. exists e. reflexivity.
Qed.

Lemma task_row_pure t w :
  (exists v, task_row t w = (Done v, w))
  \/ (exists e, task_row t w = (Raise e, w)).
Proof.
  destruct (is_listed_task t) eqn:Ht.
  - left. eexists. apply task_row_listed. exact Ht.
  - right. apply task_row_unlisted. exact Ht.
Qed.

Lemma for_each_task_row_pure ts w :
  (exists ids, for_each task_row ts w = (Done ids, w)
               /\ List.length ids = List.length ts)
  \/ (exists e, for_each task_row ts w = (Raise e, w)).
Proof.
  induction ts as [| t ts IH].
  - left. exists []. split; reflexivity.
  - assert (Hstep : for_each task_row (t :: ts) w
                    = match task_row t w with
                      | (Done y, w') =>
                          match for_each task_row ts w' with
                          | (Done ys, w'') => (Done (y :: ys), w'')
                          | (Rerun, w'') => (Rerun, w'')
                          | (Raise e, w'') => (Raise e, w'')
                          end
                      | (Rerun, w') => (Rerun, w')
                      | (Raise e, w') => (Raise e, w')
                      end) by reflexivity.
    rewrite Hstep. clear Hstep.
    destruct (task_row_pure t w) as [[v Hv] | [e He]]; [| rewrite He].
    + rewrite Hv.
      destruct IH as [[ids [Hids Hlen]] | [e He]]; [rewrite Hids | rewrite He].
      * left. exists (v :: ids). split; [reflexivity |].
        cbn. rewrite Hlen. reflexivity.
      * right. eexists; reflexivity.
    + right. eexists; reflexivity.
Qed.

Lemma py_iter_truthy v l :
  truthy v = true -> py_iter v = inr l -> l <> [].
Proof.
  destruct v as [| b | n | f | s | l' | kv]; cbn; try discriminate.
  - destruct s; [discriminate |]. intros _ [= <-]. discriminate.
  - destruct l'; [discriminate |]. intros _ [= <-]. discriminate.
  - destruct kv; [discriminate |]. intros _ [= <-]. discriminate.
Qed.

(** X12.  The notice of an empty task table is dead code: whatever the
    backend answers and whatever button is pressed, the Recent Tasks tab
    never shows "No tasks available".  A value that passes [if tasks:] has
    at least one element, so the table built from it has a row, or building
    it raises. *)
Theorem empty_table_notice_is_never_shown E i w :
  exists new,
    log (snd (recent_tasks_tab E i w)) = (new ++ log w)%list
    /\ ~ In (Show Info "No tasks available") new.
Proof.
  destruct (button_eqb (pressed i) RefreshTasks) eqn:Hp.
  - exists []. split; [| intros []].
    unfold recent_tasks_tab, st_button. rewrite Hp. reflexivity.
  - rewrite (recent_tasks_tab_start E i w)
      by (intros H; rewrite H in Hp; discriminate Hp).
    unfold bind at 1.
    set (answer := backend E (requests_of (log w)) tasks_request).
    assert (Hmsg : ~ In (Show Info "No tasks available")
                     (api_messages E (API_URL ++ "/" ++ "tasks") answer
                      ++ [Net tasks_request])).
    { unfold api_messages.
      destruct (api_failure _ answer); cbn; intros [H | H];
        try discriminate H; try destruct H as [H | H];
        try discriminate H; exact H. }
    assert (Hlog : forall l : list event,
               (api_messages E (API_URL ++ "/" ++ "tasks") answer
                ++ Net tasks_request :: l
                = (api_messages E (API_URL ++ "/" ++ "tasks") answer
                   ++ [Net tasks_request]) ++ l)%list)
      by (intros l; rewrite <- app_assoc; reflexivity).
    rewrite Hlog.
    set (msgs := (api_messages E (API_URL ++ "/" ++ "tasks") answer
                  ++ [Net tasks_request])%list) in *.
    unfold api_outcome.
    destruct (api_escape answer);
      [exists msgs; split; [reflexivity | exact Hmsg] |].
    destruct (truthy (api_result answer)) eqn:Ht.
    + destruct (py_iter (api_result answer)) as [e | ts] eqn:Hiter.
      * exists msgs. split; [reflexivity | exact Hmsg].
      * pose proof (py_iter_truthy _ _ Ht Hiter) as Hne.
        cbn [lift]. unfold bind at 1. cbn [ret]. unfold bind at 1.
        destruct (for_each_task_row_pure ts
                    {| sess := sess w; log := (msgs ++ log w)%list |})
          as [[ids [Hids Hlen]] | [e He]].
        -- rewrite Hids. destruct ids as [| x ids].
           ++ destruct ts; [congruence | discriminate Hlen].
           ++ unfold st_button, load_selected_task.
              destruct (button_eqb (pressed i) LoadSelectedTask);
                exists msgs; split; try reflexivity; exact Hmsg.
        -- rewrite He. exists msgs. split; [reflexivity | exact Hmsg].
    + exists (Show Info "No tasks available or unable to fetch task list"
              :: msgs).
      split; [reflexivity |].
      intros [H | H]; [discriminate H | exact (Hmsg H)].
Qed.

(** ** Uploading a file *)

Lemma not_an_error status :
  200 <= status < 300 -> (400 <=? status) && (status <? 600) = false.
Proof. intros H. apply andb_false_iff. left. apply Z.leb_gt. lia. Qed.

Lemma process_csv_sends E i w file :
  pressed i = ProcessCSV ->
  in_uploaded_file i = Some file ->
  process_csv E i w
  = (response <- requests_send E (upload_request file) ;;
     if status_code response =? 200 then
       result <- response_json response ;;
       v <- lift (py_getitem result "file_id") ;;
       set_uploaded_file_id v ;;
       v <- lift (py_getitem result "filename") ;;
       set_uploaded_file_name v ;;
       v <- lift (py_getitem result "column_info") ;;
       set_uploaded_columns v ;;
       v <- lift (py_getitem result "row_count") ;;
       set_rows_detected v ;;
       v <- lift (py_getitem result "row_count") ;;
       st_success ("File processed successfully! Detected "
                   ++ py_str E v ++ " rows.") ;;
       st_rerun
     else st_error ("Error processing file: " ++ resp_text response)) w.
Proof.
  intros Hp Hf. unfold process_csv, st_button. rewrite Hf, Hp.
  destruct file as [file_name bytes]. reflexivity.
Qed.

(** X13.  "Process CSV" accepts an answer only with status 200.  Any other
    status, an error status as well as another 2xx, leaves the session as
    it was and shows the body of the answer as an error; with status 200
    and the four fields in the body, the file identifier, its name, its
    columns and its row count are stored and the page reruns. *)
Theorem upload_needs_status_200 E i w file status reason text json :
  pressed i = ProcessCSV ->
  in_uploaded_file i = Some file ->
  backend E (requests_of (log w)) (upload_request file)
  = Reply status reason text json ->
  (status <> 200 ->
   process_csv E i w
   = (Done tt,
      {| sess := sess w;
         log := Show Error ("Error processing file: " ++ text)
                :: Net (upload_request file) :: log w |}))
  /\ (forall kv fid fname cols rc,
        status = 200 -> json = inr (PDict kv) ->
        lookup "file_id" kv = Some fid ->
        lookup "filename" kv = Some fname ->
        lookup "column_info" kv = Some cols ->
        lookup "row_count" kv = Some rc ->
        exists s',
          process_csv E i w
          = (Rerun,
             {| sess := s';
                log := Show Success ("File processed successfully! Detected "
                                     ++ py_str E rc ++ " rows.")
                       :: Net (upload_request file) :: log w |})
          /\ uploaded_file_id s' = fid
          /\ uploaded_file_name s' = fname
          /\ uploaded_columns s' = cols
          /\ rows_detected s' = Some rc
          /\ columns s' = columns (sess w)
          /\ task_id s' = task_id (sess w)
          /\ append_task_id s' = append_task_id (sess w)).
Proof.
  intros Hp Hf Hb. split.
  - intros Hs. rewrite (process_csv_sends E i w file Hp Hf).
    unfold bind at 1, requests_send. rewrite Hb. cbn [status_code resp_text].
    replace (status =? 200) with false by (symmetry; apply Z.eqb_neq; exact Hs).
    reflexivity.
  - intros kv fid fname cols rc Hs Hj H1 H2 H3 H4. subst status json.
    rewrite (process_csv_sends E i w file Hp Hf).
    unfold bind at 1, requests_send. rewrite Hb.
    cbn [status_code resp_text Z.eqb Pos.eqb].
    unfold response_json. cbn [resp_json].
    repeat (step_through; rewrite ?H1, ?H2, ?H3, ?H4).
    eexists. split; [reflexivity |]. cbn. auto 10.
Qed.

(** X14.  An answer with status 200 that has a [file_id] but no [filename]
    is stored by halves: the handler has assigned the file identifier when
    [result["filename"]] raises [KeyError], outside any handler, so the
    session keeps the identifier while the row count is still what it was
    (missing, on a first upload). *)
Theorem partial_upload_answer_is_half_stored E i w file reason text kv fid :
  pressed i = ProcessCSV ->
  in_uploaded_file i = Some file ->
  backend E (requests_of (log w)) (upload_request file)
  = Reply 200 reason text (inr (PDict kv)) ->
  lookup "file_id" kv = Some fid ->
  lookup "filename" kv = None ->
  exists s',
    process_csv E i w
    = (Raise (KeyError "filename"),
       {| sess := s'; log := Net (upload_request file) :: log w |})
    /\ resume_file_gen_tab E i w
       = (Raise (KeyError "filename"),
          {| sess := s'; log := Net (upload_request file) :: log w |})
    /\ uploaded_file_id s' = fid
    /\ uploaded_file_name s' = uploaded_file_name (sess w)
    /\ rows_detected s' = rows_detected (sess w).
Proof.
  intros Hp Hf Hb H1 H2.
  assert (Hrun : exists s',
             process_csv E i w
             = (Raise (KeyError "filename"),
                {| sess := s'; log := Net (upload_request file) :: log w |})
             /\ uploaded_file_id s' = fid
             /\ uploaded_file_name s' = uploaded_file_name (sess w)
             /\ rows_detected s' = rows_detected (sess w)).
  { rewrite (process_csv_sends E i w file Hp Hf).
    unfold bind at 1, requests_send. rewrite Hb.
    cbn [status_code resp_text Z.eqb Pos.eqb].
    unfold response_json. cbn [resp_json].
    repeat (step_through; rewrite ?H1, ?H2).
    eexists. split; [reflexivity |]. cbn. auto. }
  destruct Hrun as [s' [Hrun [Ha [Hb' Hc]]]]. exists s'.
  split; [exact Hrun |]. split; [| auto].
  unfold resume_file_gen_tab, bind at 1. rewrite Hrun. reflexivity.
Qed.

Lemma process_csv_idle E i w :
  pressed i <> ProcessCSV -> process_csv E i w = (Done tt, w).
Proof.
  intros Hp. unfold process_csv, st_button.
  destruct (in_uploaded_file i) as [[file_name bytes] |]; [| reflexivity].
  replace (button_eqb (pressed i) ProcessCSV) with false
    by (destruct (pressed i); try reflexivity; congruence).
  reflexivity.
Qed.

(** X15.  Without a row count the tab is stuck: when a file identifier is
    stored but [rows_detected] was never assigned, every execution that
    does not process a new file raises [AttributeError] at the top of the
    tab, with the session unchanged.  "Upload Different File", further
    down, is never reached and cannot clear the identifier. *)
Theorem missing_row_count_locks_the_tab E i w :
  truthy (uploaded_file_id (sess w)) = true ->
  rows_detected (sess w) = None ->
  pressed i <> ProcessCSV ->
  resume_file_gen_tab E i w
  = (Raise (AttributeError "st.session_state has no attribute rows_detected"),
     w).
Proof.
  intros Hf Hr Hp. unfold resume_file_gen_tab, bind at 1.
  rewrite (process_csv_idle E i w Hp).
  unfold bind at 1, get. rewrite Hf.
  unfold bind at 1, get_rows_detected, bind at 1, get. rewrite Hr.
  reflexivity.
Qed.

(** The tab up to the default of the form. *)
Lemma resume_tab_rows E i w rows :
  pressed i <> ProcessCSV ->
  truthy (uploaded_file_id (sess w)) = true ->
  rows_detected (sess w) = Some rows ->
  columns_shown E (sess w) = true ->
  resume_file_gen_tab E i w
  = (value <- lift (default_rows_to_append rows) ;;
     (if st_button i GenerateAndAppend
      then submit_append E i (st_number_input (in_rows_to_append i) value)
      else ret tt) ;;
     s <- get ;;
     (if truthy (append_task_id s) then
        append_status E i s ;;
        if st_button i StartNewAppendTask then
          set_append_task_id PNone ;; st_rerun
        else ret tt
      else ret tt) ;;
     if st_button i UploadDifferentFile then
       set_uploaded_file_id PNone ;;
       set_uploaded_file_name PNone ;;
       set_uploaded_columns PNone ;;
       set_append_task_id PNone ;;
       st_rerun
     else ret tt) (file_shown E w rows).
Proof.
  intros Hp Hf Hr Hc. unfold resume_file_gen_tab, bind at 1.
  rewrite (process_csv_idle E i w Hp).
  unfold bind at 1, get at 1. rewrite Hf.
  unfold bind at 1, get_rows_detected at 1, bind at 1, get at 1. rewrite Hr.
  unfold ret at 1. unfold bind at 1, st_info at 1, emit at 1.
  fold (file_shown E w rows).
  unfold bind at 1. unfold columns_shown in Hc.
  replace (sess (file_shown E w rows)) with (sess w) by reflexivity.
  assert (Hcols : (if truthy (uploaded_columns (sess w))
                   then
                     if DataFrame E (uploaded_columns (sess w)) then ret tt
                     else raise (ValueError
                                   "DataFrame constructor not properly called!")
                   else ret tt) (file_shown E w rows)
                  = (Done tt, file_shown E w rows)).
  { destruct (truthy (uploaded_columns (sess w))); [rewrite Hc |];
      reflexivity. }
  rewrite Hcols.
  unfold bind at 1, get_rows_detected at 1, bind at 1, get at 1.
  replace (rows_detected (sess (file_shown E w rows))) with (Some rows)
    by (symmetry; exact Hr).
  reflexivity.
Qed.

(** The tab up to the form, for a file whose row count gives a default. *)
Lemma resume_tab_form E i w rows d :
  pressed i <> ProcessCSV ->
  truthy (uploaded_file_id (sess w)) = true ->
  rows_detected (sess w) = Some rows ->
  columns_shown E (sess w) = true ->
  default_rows_to_append rows = inr d ->
  resume_file_gen_tab E i w
  = ((if st_button i GenerateAndAppend
      then submit_append E i (st_number_input (in_rows_to_append i) d)
      else ret tt) ;;
     s <- get ;;
     (if truthy (append_task_id s) then
        append_status E i s ;;
        if st_button i StartNewAppendTask then
          set_append_task_id PNone ;; st_rerun
        else ret tt
      else ret tt) ;;
     if st_button i UploadDifferentFile then
       set_uploaded_file_id PNone ;;
       set_uploaded_file_name PNone ;;
       set_uploaded_columns PNone ;;
       set_append_task_id PNone ;;
       st_rerun
     else ret tt) (file_shown E w rows).
Proof.
  intros Hp Hf Hr Hc Hd.
  rewrite (resume_tab_rows E i w rows Hp Hf Hr Hc).
  unfold bind at 1. rewrite Hd. reflexivity.
Qed.

(** X16.  A row count the default cannot be computed from breaks the tab:
    the tab shows the detected rows and then raises, outside any handler,
    what [min(10, max(1, int(rows_detected * 0.1)))] raises; the form and
    the buttons below it are not reached.  A row count that is not a number
    ([None], a string, a list, an object) gives [TypeError]. *)
Theorem unusable_row_count_breaks_the_form E i w rows :
  pressed i <> ProcessCSV ->
  truthy (uploaded_file_id (sess w)) = true ->
  rows_detected (sess w) = Some rows ->
  columns_shown E (sess w) = true ->
  (forall e, default_rows_to_append rows = inl e ->
     resume_file_gen_tab E i w = (Raise e, file_shown E w rows))
  /\ (not_a_number rows = true ->
      exists what,
        resume_file_gen_tab E i w
        = (Raise (TypeError what), file_shown E w rows)).
Proof.
  intros Hp Hf Hr Hc.
  assert (Hraise : forall e, default_rows_to_append rows = inl e ->
            resume_file_gen_tab E i w = (Raise e, file_shown E w rows)).
  { intros e Hd. rewrite (resume_tab_rows E i w rows Hp Hf Hr Hc).
    unfold bind at 1. rewrite Hd. reflexivity. }
  split; [exact Hraise |].
  intros Hn.
  destruct rows as [| b | n | f | s | l | kv]; try discriminate Hn;
    eexists; apply Hraise; reflexivity.
Qed.

(** ** The status of an append task *)

Lemma append_status_polled E i s w status reason text kv st :
  backend E (requests_of (log w)) (status_request E (append_task_id s))
  = Reply status reason text (inr (PDict kv)) ->
  200 <= status < 300 ->
  lookup "status" kv = Some (PStr st) ->
  (st =? "completed")%string = false ->
  append_status E i s w
  = (if (st =? "running")%string || (st =? "pending")%string then
       (st_warning "Data generation is in progress... This may take some time." ;;
        time_sleep 3 ;; st_rerun)%py
     else if (st =? "failed")%string then
       (msg <- lift (py_get (PDict kv) "message" (PStr "Unknown error")) ;;
        st_error ("Generation failed: " ++ py_str E msg))%py
     else ret tt) (append_polled E (append_task_id s) w st).
Proof.
  intros Hb Hs Hst Hc.
  unfold append_status, bind at 1.
  rewrite (call_api_ok E _ "GET" None w status reason text (PDict kv)
             supported_GET Hb Hs).
  destruct kv as [| kv0 kvs]; [discriminate |].
  cbn [truthy]. unfold bind at 1. cbn [lift py_getitem]. rewrite Hst.
  cbn [lift ret]. unfold bind at 1. unfold st_info at 1, emit at 1.
  cbn [py_eq_str py_str]. rewrite Hc. reflexivity.
Qed.

(** X17.  The status block of an append task maps the remote status as the
    Results tab does: [pending] or [running] gives a warning, a wait of 3
    and a rerun; [failed] shows "Generation failed: " with the remote
    message ("Unknown error" without one); any other status that is not
    [completed] is shown and otherwise ignored.  The session is unchanged
    in all three cases and only the status request is sent. *)
Theorem append_poll_maps_remote_status E i s w status reason text kv st :
  backend E (requests_of (log w)) (status_request E (append_task_id s))
  = Reply status reason text (inr (PDict kv)) ->
  200 <= status < 300 ->
  lookup "status" kv = Some (PStr st) ->
  let w1 := append_polled E (append_task_id s) w st in
  (st = "pending" \/ st = "running" ->
   append_status E i s w
   = (Rerun,
      {| sess := sess w;
         log := Sleep 3
                :: Show Warning
                     "Data generation is in progress... This may take some time."
                :: log w1 |}))
  /\ (st = "failed" ->
      append_status E i s w
      = (Done tt,
         {| sess := sess w;
            log := Show Error ("Generation failed: "
                               ++ py_str E (failure_message kv))
                   :: log w1 |}))
  /\ (st <> "completed" -> st <> "pending" -> st <> "running" ->
      st <> "failed" ->
      append_status E i s w = (Done tt, w1)).
Proof.
  intros Hb Hs Hst w1. subst w1. split; [| split].
  - intros Hw.
    rewrite (append_status_polled E i s w status reason text kv st Hb Hs Hst)
      by (destruct Hw as [-> | ->]; reflexivity).
    destruct Hw as [-> | ->]; reflexivity.
  - intros ->.
    rewrite (append_status_polled E i s w status reason text kv "failed"
               Hb Hs Hst eq_refl).
    reflexivity.
  - intros H1 H2 H3 H4.
    rewrite (append_status_polled E i s w status reason text kv st Hb Hs Hst)
      by (apply String.eqb_neq; exact H1).
    apply String.eqb_neq in H2, H3, H4. rewrite H2, H3, H4. reflexivity.
Qed.

(** X18.  An append task that is still pending or running cannot be
    abandoned.  With a file stored whose detected columns are displayable
    and whose row count gives a default, an execution of the tab in which
    neither "Process CSV" nor "Generate and Append Data" is pressed ends in
    the wait and the rerun of the status block, before the code of "Start
    New Append Task" and of "Upload Different File" is reached.  Pressing
    either button leaves the append task and the uploaded file as they
    are. *)
Theorem pending_append_task_cannot_be_abandoned
    E i w rows d status reason text kv st :
  pressed i <> ProcessCSV ->
  pressed i <> GenerateAndAppend ->
  truthy (uploaded_file_id (sess w)) = true ->
  rows_detected (sess w) = Some rows ->
  columns_shown E (sess w) = true ->
  default_rows_to_append rows = inr d ->
  truthy (append_task_id (sess w)) = true ->
  backend E (requests_of (log w))
    (status_request E (append_task_id (sess w)))
  = Reply status reason text (inr (PDict kv)) ->
  200 <= status < 300 ->
  lookup "status" kv = Some (PStr st) ->
  st = "pending" \/ st = "running" ->
  resume_file_gen_tab E i w
  = (Rerun,
     {| sess := sess w;
        log := Sleep 3
               :: Show Warning
                    "Data generation is in progress... This may take some time."
               :: log (append_polled E (append_task_id (sess w))
                         (file_shown E w rows) st) |}).
Proof.
  intros Hp Hg Hf Hr Hc Hd Ha Hb Hs Hst Hw.
  rewrite (resume_tab_form E i w rows d Hp Hf Hr Hc Hd).
  unfold st_button at 1.
  replace (button_eqb (pressed i) GenerateAndAppend) with false
    by (destruct (pressed i); try reflexivity; congruence).
  unfold bind at 1, ret at 1. unfold bind at 1, get at 1.
  replace (sess (file_shown E w rows)) with (sess w) by reflexivity.
  rewrite Ha. unfold bind at 1. unfold bind at 1.
  assert (Hrun : append_status E i (sess w) (file_shown E w rows)
                 = (Rerun,
                    {| sess := sess w;
                       log := Sleep 3
                              :: Show Warning
                                   "Data generation is in progress... This may take some time."
                              :: log (append_polled E (append_task_id (sess w))
                                        (file_shown E w rows) st) |})).
  { rewrite (append_status_polled E i (sess w) (file_shown E w rows)
               status reason text kv st Hb Hs Hst)
      by (destruct Hw as [-> | ->]; reflexivity).
    destruct Hw as [-> | ->]; reflexivity. }
  rewrite Hrun. reflexivity.
Qed.

(** The status block of a completed append task, up to the download. *)
Lemma append_status_completed E i s w status reason text kv :
  backend E (requests_of (log w)) (status_request E (append_task_id s))
  = Reply status reason text (inr (PDict kv)) ->
  200 <= status < 300 ->
  lookup "status" kv = Some (PStr "completed") ->
  exists rest,
    append_status E i s w
    = (response <- requests_send E (download_request E (uploaded_file_id s)) ;;
       rest response)
        {| sess := sess w;
           log := Show Success "Data appended successfully!"
                  :: log (append_polled E (append_task_id s) w "completed") |}
    /\ forall response w',
         status_code response <> 200 ->
         lookup "result_file" kv = None ->
         rest response w' = (Raise (KeyError "result_file"), w').
Proof.
  intros Hb Hs Hst.
  destruct kv as [| kv0 kvs]; [discriminate |].
  eexists. split.
  - unfold append_status, bind at 1.
    rewrite (call_api_ok E _ "GET" None w status reason text
               (PDict (kv0 :: kvs)) supported_GET Hb Hs).
    cbn [truthy]. unfold bind at 1. cbn [lift py_getitem]. rewrite Hst.
    cbn [lift ret]. unfold bind at 1. unfold st_info at 1, emit at 1.
    cbn [py_eq_str py_str String.eqb Ascii.eqb Bool.eqb].
    unfold bind at 1. unfold st_success at 1, emit at 1.
    cbn [sess log]. unfold requests_get.
    match goal with
    | |- bind _ ?k _ = _ => instantiate (1 := k)
    end.
    reflexivity.
  - intros response w' Hne Hrf. cbv beta.
    replace (status_code response =? 200) with false
      by (symmetry; apply Z.eqb_neq; exact Hne).
    unfold bind at 1, ret at 1. unfold bind at 1.
    cbn [lift py_getitem]. rewrite Hrf. reflexivity.
Qed.

(** X19.  The download of a completed append task is not guarded: the
    status block calls [requests.get] outside any [try], so when the
    backend does not answer the download request the tab ends in an
    uncaught [ConnectionError]; and when the download is refused and the
    status answer has no [result_file], [task_status["result_file"]] raises
    [KeyError].  In both cases "Start New Append Task" is not reached. *)
Theorem append_download_is_unguarded E i s w status reason text kv :
  backend E (requests_of (log w)) (status_request E (append_task_id s))
  = Reply status reason text (inr (PDict kv)) ->
  200 <= status < 300 ->
  lookup "status" kv = Some (PStr "completed") ->
  let asked := status_request E (append_task_id s) :: requests_of (log w) in
  let download := download_request E (uploaded_file_id s) in
  (forall why,
     backend E asked download = NoReply why ->
     fst (append_status E i s w) = Raise (ConnectionError why))
  /\ (forall dstatus dreason dtext djson,
        backend E asked download = Reply dstatus dreason dtext djson ->
        dstatus <> 200 ->
        lookup "result_file" kv = None ->
        fst (append_status E i s w) = Raise (KeyError "result_file")).
Proof.
  intros Hb Hs Hst asked download. subst asked download.
  destruct (append_status_completed E i s w status reason text kv Hb Hs Hst)
    as [rest [Hrun Hrest]].
  split.
  - intros why Hd. rewrite Hrun.
    unfold bind at 1, requests_send. cbn [log append_polled requests_of].
    rewrite Hd. reflexivity.
  - intros dstatus dreason dtext djson Hd Hne Hrf. rewrite Hrun.
    unfold bind at 1, requests_send. cbn [log append_polled requests_of].
    rewrite Hd. rewrite Hrest by assumption. reflexivity.
Qed.

(** ** Submitting an append job *)

Lemma default_rows_closed_form rc :
  0 <= rc < 2 ^ 53 ->
  default_rows_to_append (PInt rc) = inr (Z.min 10 (Z.max 1 (rc / 10))).
Proof.
  intros Hrc. destruct (Z.lt_ge_cases rc 100) as [Hs | Hl].
  - pose proof default_rows_small_cases as H.
    rewrite forallb_forall in H.
    specialize (H (Z.to_nat rc)).
    unfold default_rows_agree in H. rewrite Z2Nat.id in H by lia.
    assert (Hin : In (Z.to_nat rc) (seq 0 100)) by (apply in_seq; lia).
    specialize (H Hin).
    destruct (default_rows_to_append (PInt rc)) as [e | v];
      [discriminate |].
    apply Z.eqb_eq in H. rewrite H. reflexivity.
  - rewrite default_rows_large by lia. f_equal.
    assert (10 <= rc / 10) by (apply Z.div_le_lower_bound; lia). lia.
Qed.


(** What follows the form of the tab only adds to the log. *)
Lemma after_the_form_adds E i w :
  exists new,
    log (snd ((s <- get ;;
               (if truthy (append_task_id s) then
                  append_status E i s ;;
                  if st_button i StartNewAppendTask then
                    set_append_task_id PNone ;; st_rerun
                  else ret tt
                else ret tt) ;;
               if st_button i UploadDifferentFile then
                 set_uploaded_file_id PNone ;;
                 set_uploaded_file_name PNone ;;
                 set_uploaded_columns PNone ;;
                 set_append_task_id PNone ;;
                 st_rerun
               else ret tt) w))
    = (new ++ log w)%list.
Proof.
  match goal with
  | |- context [snd (?k w)] =>
      assert (Hk : keeps (holds any_event (fun _ => True) w) false k w)
  end.
  { pose proof (holds_refl any_event (fun _ => True) w Logic.I) as H.
    destruct (pressed i) eqn:Hp;
      keeps_auto reflexivity ltac:(exact Logic.I). }
  destruct Hk as [[[new [Hlog _]] _] _]. exists new. exact Hlog.
Qed.

(** With a file stored and a usable row count, "Generate and Append Data"
    sends the append job, whatever the backend answers. *)
Lemma resume_tab_sends_the_job E i w rows d :
  pressed i = GenerateAndAppend ->
  truthy (uploaded_file_id (sess w)) = true ->
  rows_detected (sess w) = Some rows ->
  columns_shown E (sess w) = true ->
  default_rows_to_append rows = inr d ->
  exists more,
    requests_of (log (snd (resume_file_gen_tab E i w)))
    = (more ++ append_job_request i (sess w)
                 (st_number_input (in_rows_to_append i) d)
            :: requests_of (log w))%list.
Proof.
  intros Hp Hf Hr Hc Hd.
  rewrite (resume_tab_form E i w rows d
             ltac:(rewrite Hp; discriminate) Hf Hr Hc Hd).
  unfold st_button at 1. rewrite Hp. cbn [button_eqb].
  pose proof (submit_append_requests E i
                (st_number_input (in_rows_to_append i) d)
                (file_shown E w rows)) as Hsent.
  unfold bind at 1.
  destruct (submit_append E i (st_number_input (in_rows_to_append i) d)
              (file_shown E w rows)) as [[[] | | e] w1];
    cbn [snd] in Hsent; try (exists []; exact Hsent).
  destruct (after_the_form_adds E i w1) as [new Hnew].
  rewrite Hnew, requests_of_app, Hsent.
  exists (requests_of new). reflexivity.
Qed.


(** ** C10: the model of an append job *)

(** With no generation task active and a task list the Recent Tasks tab can
    show, an execution with "Generate and Append Data" pressed reaches the
    form and sends the append job. *)
Lemma script_sends_the_job E i w rows d status reason text ts :
  pressed i = GenerateAndAppend ->
  truthy (task_id (sess w)) = false ->
  backend E (requests_of (log w)) tasks_request
  = Reply status reason text (inr (PList ts)) ->
  200 <= status < 300 ->
  forallb is_listed_task ts = true ->
  truthy (uploaded_file_id (sess w)) = true ->
  rows_detected (sess w) = Some rows ->
  columns_shown E (sess w) = true ->
  default_rows_to_append rows = inr d ->
  exists more,
    requests_of (log (snd (script E i w)))
    = (more ++ append_job_request i (sess w)
                 (st_number_input (in_rows_to_append i) d)
            :: tasks_request :: requests_of (log w))%list.
Proof.
  intros Hp Ht Hb Hs Hok Hf Hr Hc Hd.
  rewrite (script_below E i w) by (rewrite Hp; reflexivity).
  unfold later_tabs, bind at 1.
  unfold results_tab at 1, bind at 1, get at 1. rewrite Ht.
  unfold st_info at 1, emit at 1. unfold bind at 1.
  set (w1 := {| sess := sess w; log := _ :: log w |}).
  assert (Hrec : exists l,
             recent_tasks_tab E i w1
             = (Done tt, {| sess := sess w; log := l |})
             /\ requests_of l = tasks_request :: requests_of (log w)).
  { rewrite (recent_tasks_tab_decoded E i w1 status reason text (PList ts))
      by (try exact Hb; try exact Hs; rewrite Hp; discriminate).
    destruct ts as [| t ts'].
    - cbn. eexists. split; reflexivity.
    - cbn [truthy py_iter lift]. unfold bind at 1. cbn [ret].
      unfold bind at 1. rewrite (for_each_task_row (t :: ts') _ Hok).
      cbn [map]. unfold st_button. rewrite Hp. cbn [button_eqb].
      eexists. split; reflexivity. }
  destruct Hrec as [l [Hrec Hl]]. rewrite Hrec.
  set (w2 := {| sess := sess w; log := l |}).
  destruct (resume_tab_sends_the_job E i w2 rows d Hp Hf Hr Hc Hd)
    as [more Hmore].
  exists more. rewrite Hmore. cbn [log w2 sess]. rewrite Hl. reflexivity.
Qed.

(** C10.  Every append-job request an execution sends carries, as [model],
    the value of the form's "LLM Model" text input (["gemma3:latest"] when
    the user has not typed anything) and, as [model_provider], the provider
    chosen in the sidebar; the "Generate and Append Data" handler sends
    exactly that request, and an execution in which the button is pressed
    on a stored file does send it.  The sidebar's model, always one of the
    models of the chosen provider, is not used: with provider [google] and
    the text input left alone, the request pairs [google] with a model that
    is not one of its models. *)
Theorem append_job_model_comes_from_the_form E i w :
  (exists new,
     log (snd (script E i w)) = (new ++ log w)%list
     /\ forall r, In (Net r) new -> is_append_job r = true ->
          exists kv,
            rq_json r = Some (PDict kv)
            /\ lookup "model" kv = Some (PStr (append_model i))
            /\ lookup "model_provider" kv
               = Some (PStr (provider_id (provider i))))
  /\ (forall rows,
        requests_of (log (snd (submit_append E i rows w)))
        = append_job_request i (sess w) rows :: requests_of (log w))
  /\ (forall rows d status reason text ts,
        pressed i = GenerateAndAppend ->
        truthy (task_id (sess w)) = false ->
        backend E (requests_of (log w)) tasks_request
        = Reply status reason text (inr (PList ts)) ->
        200 <= status < 300 ->
        forallb is_listed_task ts = true ->
        truthy (uploaded_file_id (sess w)) = true ->
        rows_detected (sess w) = Some rows ->
        columns_shown E (sess w) = true ->
        default_rows_to_append rows = inr d ->
        let job := append_job_request i (sess w)
                     (st_number_input (in_rows_to_append i) d) in
        In job (requests_of (log (snd (script E i w))))
        /\ is_append_job job = true
        /\ exists kv,
             rq_json job = Some (PDict kv)
             /\ lookup "model" kv = Some (PStr (append_model i))
             /\ lookup "model_provider" kv
                = Some (PStr (provider_id (provider i))))
  /\ (in_append_model i = None -> append_model i = "gemma3:latest")
  /\ (forall s, in_append_model i = Some s -> append_model i = s)
  /\ In (model i) (MODEL_PROVIDERS_models (provider i))
  /\ (provider i = google -> in_append_model i = None ->
        ~ In (append_model i) (MODEL_PROVIDERS_models (provider i))).
Proof.
  split; [| split; [| split; [| split; [| split; [| split]]]]].
  - destruct (script_append_jobs_ok E i w w (holds_refl _ _ _ Logic.I))
      as [[[new [Hlog Hnew]] _] _].
    exists new. split; [exact Hlog |].
    intros r Hin Hr. rewrite forallb_forall in Hnew.
    specialize (Hnew (Net r) Hin). cbn in Hnew. rewrite Hr in Hnew.
    unfold append_body_ok in Hnew.
    destruct (rq_json r) as [[| | | | | | kv] |]; try discriminate.
    apply andb_true_iff in Hnew. destruct Hnew as [Hm Hp].
    exists kv. split; [reflexivity |].
    split; apply field_is_true; assumption.
  - intros rows. apply submit_append_requests.
  - intros rows d status reason text ts Hp Ht Hb Hs Hok Hf Hr Hc Hd job.
    destruct (script_sends_the_job E i w rows d status reason text ts
                Hp Ht Hb Hs Hok Hf Hr Hc Hd) as [more Hmore].
    split; [| split].
    + rewrite Hmore. apply in_or_app. right. left. reflexivity.
    + reflexivity.
    + eexists. split; [reflexivity |]. split; reflexivity.
  - intros H. unfold append_model. rewrite H. reflexivity.
  - intros s H. unfold append_model. rewrite H. reflexivity.
  - apply sidebar_model_is_listed.
  - intros Hp Hm. unfold append_model. rewrite Hp, Hm. cbn.
    intros [H | []]. discriminate H.
Qed.

(** ** Whole executions *)

(** X21.  While a generation task is pending or running, the tabs below the
    Results tab are not executed: the execution ends in the wait and the
    rerun of the Results tab.  A button of the Recent Tasks tab or of the
    Resume File Gen tab pressed meanwhile has no effect: the session is
    unchanged and the status request is the only request sent. *)
Theorem pending_task_blocks_the_tabs_below
    E i w status reason text kv st :
  below_results (pressed i) = true ->
  truthy (task_id (sess w)) = true ->
  backend E (requests_of (log w)) (status_request E (task_id (sess w)))
  = Reply status reason text (inr (PDict kv)) ->
  200 <= status < 300 ->
  lookup "status" kv = Some (PStr st) ->
  st = "pending" \/ st = "running" ->
  script E i w
  = (Rerun,
     {| sess := sess w;
        log := Sleep 3
               :: Show Warning
                    "Data generation is in progress... This may take some time."
               :: Show Info ("Status: " ++ st)
               :: Net (status_request E (task_id (sess w))) :: log w |}).
Proof.
  intros Hp Ht Hb Hs Hst Hw.
  rewrite (script_below E i w Hp). unfold later_tabs, bind at 1.
  rewrite (results_tab_polled E i w status reason text kv st Ht Hb Hs Hst).
  destruct Hw as [-> | ->]; reflexivity.
Qed.

Lemma recent_tasks_tab_quiet E i w :
  pressed i <> RefreshTasks ->
  pressed i <> LoadSelectedTask ->
  exists o msgs,
    recent_tasks_tab E i w
    = (o, {| sess := sess w;
             log := (msgs ++ Net tasks_request :: log w)%list |})
    /\ requests_of msgs = []
    /\ forallb not_sleep msgs = true
    /\ o <> Rerun.
Proof.
  intros Hr Hl. rewrite (recent_tasks_tab_start E i w Hr). unfold bind at 1.
  set (answer := backend E (requests_of (log w)) tasks_request).
  set (msgs := api_messages E (API_URL ++ "/" ++ "tasks") answer).
  assert (Hmsgs : requests_of msgs = []).
  { subst msgs. unfold api_messages.
    destruct (api_failure _ answer); reflexivity. }
  assert (Hsl : forallb not_sleep msgs = true).
  { subst msgs. unfold api_messages.
    destruct (api_failure _ answer); reflexivity. }
  unfold api_outcome.
  destruct (api_escape answer) as [e |].
  { exists (Raise e), msgs. split; [reflexivity |].
    split; [exact Hmsgs | split; [exact Hsl | discriminate]]. }
  destruct (truthy (api_result answer)) eqn:Ht.
  - destruct (py_iter (api_result answer)) as [e | ts] eqn:Hiter.
    + exists (Raise e), msgs. split; [reflexivity |].
      split; [exact Hmsgs | split; [exact Hsl | discriminate]].
    + cbn [lift]. unfold bind at 1. cbn [ret]. unfold bind at 1.
      destruct (for_each_task_row_pure ts
                  {| sess := sess w;
                     log := (msgs ++ Net tasks_request :: log w)%list |})
        as [[ids [Hids Hlen]] | [e He]].
      * rewrite Hids. unfold st_button.
        replace (button_eqb (pressed i) LoadSelectedTask) with false
          by (destruct (pressed i); try reflexivity; congruence).
        destruct ids as [| x ids].
        -- exists (Done tt), (Show Info "No tasks available" :: msgs).
           split; [reflexivity |]. split; [exact Hmsgs | split; [exact Hsl | discriminate]].
        -- exists (Done tt), msgs. split; [reflexivity |].
           split; [exact Hmsgs | split; [exact Hsl | discriminate]].
      * rewrite He. exists (Raise e), msgs. split; [reflexivity |].
        split; [exact Hmsgs | split; [exact Hsl | discriminate]].
  - exists (Done tt),
      (Show Info "No tasks available or unable to fetch task list" :: msgs).
    split; [reflexivity |]. split; [exact Hmsgs | split; [exact Hsl | discriminate]].
Qed.

(** X22.  An idle page only lists the tasks: with no button pressed, no
    active task and no uploaded file, an execution sends the task-list
    request and nothing else, leaves the session as it was, does not wait
    and does not ask for a rerun. *)
Theorem idle_page_only_lists_tasks E i w :
  pressed i = NoButton ->
  truthy (task_id (sess w)) = false ->
  truthy (uploaded_file_id (sess w)) = false ->
  fst (script E i w) <> Rerun
  /\ sess (snd (script E i w)) = sess w
  /\ exists new,
       log (snd (script E i w)) = (new ++ log w)%list
       /\ requests_of new = [tasks_request]
       /\ forallb not_sleep new = true.
Proof.
  intros Hp Ht Hf.
  assert (Hrun : exists o msgs,
             script E i w
             = (o, {| sess := sess w;
                      log := (msgs ++ Net tasks_request
                              :: Show Info "No active generation task. Go to the Column Definition tab to start a new task."
                              :: log w)%list |})
             /\ requests_of msgs = []
             /\ forallb not_sleep msgs = true
             /\ o <> Rerun).
  { rewrite (script_below E i w) by (rewrite Hp; reflexivity).
    unfold later_tabs, bind at 1.
    unfold results_tab at 1, bind at 1, get at 1. rewrite Ht.
    unfold st_info at 1, emit at 1. unfold bind at 1.
    match goal with
    | |- context [recent_tasks_tab E i ?w1] =>
        destruct (recent_tasks_tab_quiet E i w1)
          as [o [msgs [Hrec [Hmsgs [Hsl Ho]]]]];
          [rewrite Hp; discriminate | rewrite Hp; discriminate |];
          rewrite Hrec
    end.
    cbn [sess log] in *.
    destruct o as [[] | | e]; [| congruence |].
    - exists (Done tt), msgs.
      split; [| split; [exact Hmsgs | split; [exact Hsl | discriminate]]].
      unfold resume_file_gen_tab, bind at 1.
      rewrite process_csv_idle by (rewrite Hp; discriminate).
      unfold bind at 1, get at 1. cbn [sess]. rewrite Hf. reflexivity.
    - exists (Raise e), msgs.
      split; [reflexivity |].
      split; [exact Hmsgs | split; [exact Hsl | discriminate]]. }
  destruct Hrun as [o [msgs [Hrun [Hmsgs [Hsl Ho]]]]]. rewrite Hrun.
  cbn [fst snd sess log]. split; [exact Ho |]. split; [reflexivity |].
  exists (msgs ++ [Net tasks_request;
                    Show Info "No active generation task. Go to the Column Definition tab to start a new task."])%list.
  split; [rewrite <- app_assoc; reflexivity |]. split.
  - rewrite requests_of_app, Hmsgs. reflexivity.
  - rewrite forallb_app, Hsl. reflexivity.
Qed.

(** X23.  "Cancel Task" touches the generation task only.  The execution
    sends the deletion request of the active task and nothing else.  When
    [call_api] comes back from it, the handle, the cached result and the
    CSV reference are emptied and the page reruns before any tab is run;
    the column list, the uploaded file and the append task are as they
    were.  When decoding the answer raises an exception [call_api] does not
    catch, the execution ends in that exception with the whole session as
    it was. *)
Theorem cancel_touches_only_the_generation_state E i w :
  pressed i = CancelTask ->
  truthy (task_id (sess w)) = true ->
  (api_escape (backend E (requests_of (log w))
                 (delete_request E (task_id (sess w)))) = None ->
   exists s',
     script E i w
     = (Rerun,
        {| sess := s';
           log := (api_messages E
                     (rq_url (delete_request E (task_id (sess w))))
                     (backend E (requests_of (log w))
                        (delete_request E (task_id (sess w))))
                   ++ Net (delete_request E (task_id (sess w)))
                   :: log w)%list |})
     /\ task_id s' = PNone /\ data s' = PNone /\ csv_file s' = PNone
     /\ columns s' = columns (sess w)
     /\ uploaded_file_id s' = uploaded_file_id (sess w)
     /\ uploaded_file_name s' = uploaded_file_name (sess w)
     /\ uploaded_columns s' = uploaded_columns (sess w)
     /\ rows_detected s' = rows_detected (sess w)
     /\ append_task_id s' = append_task_id (sess w))
  /\ (forall e,
        api_escape (backend E (requests_of (log w))
                      (delete_request E (task_id (sess w)))) = Some e ->
        script E i w
        = (Raise e,
           {| sess := sess w;
              log := Net (delete_request E (task_id (sess w)))
                     :: log w |})).
Proof.
  intros Hp Ht.
  assert (Hrun : script E i w
                 = (call_api E ("tasks/" ++ py_str E (task_id (sess w)))
                      "DELETE" None ;;
                    set_task_id PNone ;;
                    set_data PNone ;;
                    set_csv_file PNone ;;
                    st_rerun) w).
  { unfold script, bind at 1.
    unfold sidebar, bind at 1, get at 1, st_button. rewrite Ht, Hp.
    cbn [button_eqb]. unfold cancel_task, bind at 1, get at 1.
    unfold bind.
    destruct (call_api E ("tasks/" ++ py_str E (task_id (sess w)))
                "DELETE" None w) as [[v | | e] w1]; reflexivity. }
  rewrite Hrun. unfold delete_request.
  split.
  - intros He. unfold bind at 1.
    rewrite (call_api_supported E _ "DELETE" None w supported_DELETE).
    rewrite (api_escape_none _ He). step_through.
    eexists. split; [reflexivity |]. cbn. auto 12.
  - intros e He. unfold bind at 1.
    rewrite (call_api_supported E _ "DELETE" None w supported_DELETE).
    unfold api_outcome, api_messages. rewrite He.
    rewrite (api_escape_no_failure _ _ _ He). reflexivity.
Qed.

(** ** A result that could not be fetched *)

(** X24.  A failed fetch is not cached.  When the task is completed, no
    result is cached and [call_api] catches a failure of the result request
    (no answer, a 4xx or 5xx status, a body that is not JSON), the Results
    tab shows the error, stores [None] as the result and shows nothing
    more; the task stays active and the stored result is false, so the
    guard of the fetch is open again in the next execution.  When decoding
    the answer raises an exception [call_api] does not catch, the tab ends
    in that exception before the assignment, the session as it was. *)
Theorem failed_fetch_is_not_cached E i w status reason text kv :
  truthy (task_id (sess w)) = true ->
  truthy (data (sess w)) = false ->
  backend E (requests_of (log w)) (status_request E (task_id (sess w)))
  = Reply status reason text (inr (PDict kv)) ->
  200 <= status < 300 ->
  lookup "status" kv = Some (PStr "completed") ->
  let asked := status_request E (task_id (sess w)) :: requests_of (log w) in
  let fetch := data_request E (task_id (sess w)) in
  (api_failure (rq_url fetch) (backend E asked fetch) <> None ->
   exists s',
     results_tab E i w
     = (Done tt,
        {| sess := s';
           log := (api_messages E (rq_url fetch) (backend E asked fetch)
                   ++ Net fetch :: log (polled E w "completed"))%list |})
     /\ data s' = PNone
     /\ task_id s' = task_id (sess w)
     /\ csv_file s' = csv_file (sess w)
     /\ columns s' = columns (sess w))
  /\ (forall e,
        api_escape (backend E asked fetch) = Some e ->
        results_tab E i w
        = (Raise e,
           {| sess := sess w;
              log := Net fetch :: log (polled E w "completed") |})).
Proof.
  intros Ht Hd Hb Hs Hst asked fetch. subst asked fetch.
  assert (Hfetch :
            results_tab E i w
            = ((d <- (fun w' =>
                        (api_outcome
                           (backend E
                              (status_request E (task_id (sess w))
                               :: requests_of (log w))
                              (data_request E (task_id (sess w)))), w')) ;;
                set_data d) ;;
               show_result E i)
                {| sess := sess w;
                   log := (api_messages E
                             (rq_url (data_request E (task_id (sess w))))
                             (backend E
                                (status_request E (task_id (sess w))
                                 :: requests_of (log w))
                                (data_request E (task_id (sess w))))
                           ++ Net (data_request E (task_id (sess w)))
                           :: log (polled E w "completed"))%list |}).
  { rewrite (results_tab_polled E i w status reason text kv "completed"
               Ht Hb Hs Hst).
    cbn [String.eqb Ascii.eqb Bool.eqb].
    unfold bind at 1. unfold fetch_result, bind at 1, get at 1.
    replace (sess (polled E w "completed")) with (sess w) by reflexivity.
    rewrite Hd. cbn [negb]. unfold bind at 1.
    rewrite (call_api_supported E _ "GET" None (polled E w "completed")
               supported_GET).
    reflexivity. }
  split.
  - intros Hf. rewrite Hfetch. unfold bind at 1. unfold bind at 1.
    rewrite (api_failure_gives_none _ _ Hf).
    unfold show_result. step_through.
    eexists. split; [reflexivity |]. cbn. auto.
  - intros e He. rewrite Hfetch. unfold bind at 1. unfold bind at 1.
    unfold api_outcome, api_messages.
    rewrite He, (api_escape_no_failure _ _ _ He). reflexivity.
Qed.

(** ** The default number of rows, for every row count *)

Lemma binary_round_aux_opp s m e l :
  binary_round_aux prec64 emax64 (negb s) m e l
  = SFopp (binary_round_aux prec64 emax64 s m e l).
Proof.
  unfold binary_round_aux.
  destruct (shr_fexp prec64 emax64 m e l) as [mrs' e'].
  destruct (shr_fexp prec64 emax64 _ e' loc_Exact) as [mrs'' e''].
  destruct (shr_m mrs''); [reflexivity | | reflexivity].
  destruct (e'' <=? emax64 - prec64); reflexivity.
Qed.

Lemma py_int_of_rounded m e l a :
  py_int (binary_round_aux prec64 emax64 false m e l) = inr a ->
  0 <= a
  /\ py_int (SFopp (binary_round_aux prec64 emax64 false m e l))
     = inr (- a).
Proof.
  assert (Hnn : forall p x,
            0 <= (if 0 <=? x then Z.pos p * 2 ^ x else Z.pos p / 2 ^ (- x))).
  { intros p x. destruct (0 <=? x) eqn:Hx.
    - apply Z.mul_nonneg_nonneg; [lia | apply Z.pow_nonneg; lia].
    - apply Z.leb_gt in Hx. apply Z.div_pos; [lia |].
      apply Z.pow_pos_nonneg; lia. }
  unfold binary_round_aux.
  destruct (shr_fexp prec64 emax64 m e l) as [mrs' e'].
  destruct (shr_fexp prec64 emax64 _ e' loc_Exact) as [mrs'' e''].
  destruct (shr_m mrs'') as [| p | p]; unfold py_int, SFopp.
  - intros [= <-]. split; [lia | reflexivity].
  - destruct (e'' <=? emax64 - prec64); [| discriminate].
    intros [= <-]. split; [exact (Hnn p e'') | reflexivity].
  - discriminate.
Qed.

Lemma default_rows_negative p :
  Z.pos p < 2 ^ 53 -> default_rows_to_append (PInt (Z.neg p)) = inr 1.
Proof.
  intros Hp.
  pose proof (default_rows_closed_form (Z.pos p) ltac:(lia)) as Hpos.
  destruct (float_of_int_exact p Hp) as [mf [ef [Hf _]]].
  assert (Hneg : float_of_int (Z.neg p) = inr (S754_finite true mf ef)).
  { unfold float_of_int, binary_normalize, binary_round in *.
    destruct (shl_align p 0 _) as [mz ez].
    change true with (negb false). rewrite binary_round_aux_opp.
    destruct (binary_round_aux prec64 emax64 false (Z.pos mz) ez loc_Exact);
      try discriminate Hf.
    injection Hf as -> -> ->. reflexivity. }
  unfold default_rows_to_append, py_mul_float in *.
  rewrite Hf in Hpos. rewrite Hneg.
  unfold float_0_1, SFmul in *. cbn [xorb] in *.
  change true with (negb false). rewrite binary_round_aux_opp.
  destruct (py_int (binary_round_aux prec64 emax64 false
                      (Z.pos (mf * 7205759403792794)) (ef + -56) loc_Exact))
    as [e | a] eqn:Ha; [discriminate Hpos |].
  destruct (py_int_of_rounded _ _ _ _ Ha) as [Hnn Hopp].
  rewrite Hopp. f_equal. lia.
Qed.

(** X25.  The default of "Number of rows to append" is defined and lies
    between 1 and 10 for every integer row count a double holds exactly,
    negative ones included: it is 1 for every count below 20 (a negative
    count gives a negative product, which [max(1, ...)] raises to 1) and 10
    from 100 rows on.  The default therefore always satisfies the
    [min_value=1] of the input. *)
Theorem default_rows_stay_within_bounds rc :
  - 2 ^ 53 < rc < 2 ^ 53 ->
  exists d,
    default_rows_to_append (PInt rc) = inr d
    /\ 1 <= d <= 10
    /\ (rc < 20 -> d = 1)
    /\ (100 <= rc -> d = 10).
Proof.
  intros Hrc. destruct rc as [| p | p].
  - exists 1. split; [vm_compute; reflexivity |]. lia.
  - exists (Z.min 10 (Z.max 1 (Z.pos p / 10))).
    split; [apply default_rows_closed_form; lia |].
    split; [lia |]. split.
    + intros H. assert (Z.pos p / 10 < 2)
        by (apply Z.div_lt_upper_bound; lia).
      assert (0 <= Z.pos p / 10) by (apply Z.div_pos; lia). lia.
    + intros H. assert (10 <= Z.pos p / 10)
        by (apply Z.div_le_lower_bound; lia). lia.
  - exists 1. split; [apply default_rows_negative; lia |]. lia.
Qed.

(** ** The error of an empty column list *)

Lemma generate_data_messages E i w :
  columns (sess w) <> [] ->
  exists new,
    log (snd (generate_data E i w)) = (new ++ log w)%list
    /\ ~ In (Show Error "Please add at least one column") new.
Proof.
  intros Hne. unfold generate_data, bind at 1, get at 1.
  destruct (columns (sess w)) as [| c cs]; [congruence |].
  unfold bind at 1.
  rewrite (call_api_supported E "generate" "POST" _ w supported_POST).
  set (r := api_request "POST" _ _).
  set (answer := backend E _ r).
  set (msgs := api_messages _ _ _).
  assert (Hmsgs : ~ In (Show Error "Please add at least one column")
                    (msgs ++ [Net r])).
  { subst msgs. unfold api_messages.
    destruct (api_failure _ _); cbn; intros [H | H];
      try discriminate H; try destruct H as [H | H];
      try discriminate H; exact H. }
  assert (Hlog : (msgs ++ Net r :: log w = (msgs ++ [Net r]) ++ log w)%list)
    by (rewrite <- app_assoc; reflexivity).
  unfold api_outcome.
  destruct (api_escape answer);
    [exists (msgs ++ [Net r])%list; split; [exact Hlog | exact Hmsgs] |].
  set (result := api_result answer).
  unfold truthy_and_contains.
  destruct (truthy result).
  - destruct (py_contains "task_id" result) as [e | [|]];
      cbn [lift]; unfold bind at 1; cbn [raise ret snd log].
    + exists (msgs ++ [Net r])%list. split; [exact Hlog | exact Hmsgs].
    + destruct (py_getitem result "task_id") as [e | v];
        repeat (step_through; unfold bind).
      * exists (msgs ++ [Net r])%list. split; [exact Hlog | exact Hmsgs].
      * exists (Show Success ("Generation task submitted! Task ID: "
                              ++ py_str E v) :: msgs ++ [Net r])%list.
        split; [cbn; rewrite Hlog; reflexivity |].
        intros [H | H]; [discriminate H | exact (Hmsgs H)].
    + exists (msgs ++ [Net r])%list. split; [exact Hlog | exact Hmsgs].
  - unfold bind at 1. cbn [ret snd log].
    exists (msgs ++ [Net r])%list. split; [exact Hlog | exact Hmsgs].
Qed.

(** X26.  The error of an empty column list is dead code: the Column
    Definition tab shows the "Generate Data" button, and runs its handler,
    only when the column list is non-empty, so whatever button is pressed
    the tab never shows "Please add at least one column", the message the
    handler has for an empty list. *)
Theorem column_error_is_never_shown E i w :
  (exists new,
     log (snd (column_definition_tab E i w)) = (new ++ log w)%list
     /\ ~ In (Show Error "Please add at least one column") new)
  /\ (columns (sess w) = [] ->
      generate_data E i w
      = (Done tt,
         {| sess := sess w;
            log := Show Error "Please add at least one column" :: log w |})).
Proof.
  split.
  - destruct (button_eqb (pressed i) GenerateData) eqn:Hg.
    + assert (Hp : pressed i = GenerateData)
        by (destruct (pressed i); try discriminate Hg; reflexivity).
      rewrite (column_definition_tab_generate E i w Hp).
      destruct (columns (sess w)) as [| c cs] eqn:Hc.
      * exists []. split; [reflexivity | intros []].
      * apply generate_data_messages. rewrite Hc. discriminate.
    + exists []. split; [| intros []].
      unfold column_definition_tab, st_button. rewrite Hg.
      unfold bind, get, ret, set_columns, modify, st_rerun.
      destruct (button_eqb (pressed i) AddColumn
                && negb (in_column_name i =? EmptyString)%string);
        cbn [sess log columns];
        destruct (columns (sess w)); cbn [app];
        destruct (button_eqb (pressed i) ClearAllColumns); reflexivity.
  - intros Hc. unfold generate_data, bind, get. rewrite Hc. reflexivity.
Qed.

(** ** The further properties at work *)

Lemma call_api_turns_failures_into_messages_witness :
  call_api unreachable_env "tasks" "GET" None initial_world
  = (Done PNone,
     {| sess := initial_session;
        log := [Show Error "API Error: Connection refused";
                Net tasks_request] |}).
Proof.
  exact (proj1 (proj1 (call_api_turns_failures_into_messages unreachable_env
                         "tasks" "GET" None initial_world) supported_GET)).
Defined.

Lemma generation_state_changes_only_on_request_witness :
  task_id (sess (snd (script demo_env (press RefreshTasks no_input)
                        (world_with (PStr "t3") PNone (PStr "old.csv")))))
  = PStr "t3".
Proof.
  exact (proj1 (generation_state_changes_only_on_request demo_env
                  (press RefreshTasks no_input)
                  (world_with (PStr "t3") PNone (PStr "old.csv"))) eq_refl).
Defined.

Lemma append_state_changes_only_on_request_witness :
  append_task_id (sess (snd (script demo_env no_input failed_and_appending)))
  = PStr "t2".
Proof.
  exact (proj1 (proj2 (append_state_changes_only_on_request demo_env no_input
                         failed_and_appending)) eq_refl).
Defined.

Lemma failed_submission_changes_nothing_witness :
  generate_data refusing_env (press GenerateData no_input)
    (world_with PNone PNone PNone)
  = (Done tt,
     {| sess := session_with PNone PNone PNone;
        log := [Show Error
                  "API Error: 503 Server Error: Service Unavailable for url: http://localhost:8000/generate";
                Net (create_job_request (press GenerateData no_input)
                       [age_column])] |}).
Proof.
  refine (proj1 (proj1 (failed_submission_changes_nothing refusing_env
                          (press GenerateData no_input)
                          (world_with PNone PNone PNone) _) _)).
  - vm_compute. discriminate.
  - vm_compute. discriminate.
Defined.


Lemma unknown_status_is_ignored_witness :
  results_tab office_env no_input (world_with (PStr "t5") PNone PNone)
  = (Done tt,
     {| sess := session_with (PStr "t5") PNone PNone;
        log := [Show Info "Status: queued";
                Net (status_request office_env (PStr "t5"))] |}).
Proof.
  refine (unknown_status_is_ignored office_env no_input
            (world_with (PStr "t5") PNone PNone) 200 "OK" EmptyString
            [("status", PStr "queued")] "queued" _ _ _ _ _ _ _ _);
    try reflexivity; try lia; discriminate.
Defined.

Lemma csv_preview_catches_file_errors_witness :
  log (snd (csv_preview office_env
              (session_with (PStr "t3") result_t3 (PStr "out/t3.csv"))
              initial_world))
  = [Offer "Download CSV File" "synthetic_data_t3.csv"].
Proof.
  exact (proj1 (proj2 (proj2
           (csv_preview_catches_file_errors office_env
              (session_with (PStr "t3") result_t3 (PStr "out/t3.csv"))
              initial_world))) eq_refl).
Defined.

Lemma convert_to_csv_stores_the_path_witness :
  csv_file (sess (snd (show_result office_env (press ConvertToCSV no_input)
                         (world_with (PStr "t3") result_t3 PNone))))
  = PStr "out/t3.csv".
Proof.
  refine (proj1 (proj2
           (proj1 (proj2 (convert_to_csv_stores_the_path office_env
                     (press ConvertToCSV no_input)
                     (world_with (PStr "t3") result_t3 PNone)
                     [("data", PList [PDict [("age", PInt 30)]])]
                     (PList [PDict [("age", PInt 30)]])
                     eq_refl eq_refl eq_refl eq_refl))
              200 "OK" EmptyString [("csv_file", PStr "out/t3.csv")]
              (PStr "out/t3.csv") _ _ _))).
  - reflexivity.
  - lia.
  - reflexivity.
Defined.

Lemma load_selects_a_listed_task_witness :
  let w' := snd (recent_tasks_tab office_env
                   (press LoadSelectedTask no_input)
                   (world_with (PStr "t1") (PStr "stale") (PStr "old.csv"))) in
  task_id (sess w') = PStr "t3" /\ data (sess w') = PNone
  /\ csv_file (sess w') = PNone.
Proof.
  intros w'.
  destruct (load_selects_a_listed_task office_env
              (press LoadSelectedTask no_input)
              (world_with (PStr "t1") (PStr "stale") (PStr "old.csv"))
              200 "OK" EmptyString
              [listed "t3" "completed"; listed "t1" "failed"]
              eq_refl eq_refl ltac:(lia) ltac:(discriminate) eq_refl)
    as [_ [Ht [Hd [Hc _]]]].
  split; [exact Ht |]. split; [exact Hd | exact Hc].
Defined.

Lemma no_task_list_blocks_loading_witness :
  sess (snd (recent_tasks_tab demo_env (press LoadSelectedTask no_input)
               (world_with (PStr "t1") PNone PNone)))
  = session_with (PStr "t1") PNone PNone.
Proof.
  refine (proj1 (proj2 (no_task_list_blocks_loading demo_env
                          (press LoadSelectedTask no_input)
                          (world_with (PStr "t1") PNone PNone) _ _ _))).
  - discriminate.
  - reflexivity.
  - reflexivity.
Defined.

Lemma malformed_task_entry_is_uncaught_witness :
  exists e,
    recent_tasks_tab sloppy_env no_input initial_world
    = (Raise e, {| sess := initial_session; log := [Net tasks_request] |}).
Proof.
  refine (malformed_task_entry_is_uncaught sloppy_env no_input initial_world
            200 "OK" EmptyString [PDict [("task_id", PStr "t9")]] _ _ _ _).
  - discriminate.
  - reflexivity.
  - lia.
  - reflexivity.
Defined.

Lemma upload_needs_status_200_witness :
  process_csv refusing_env (press ProcessCSV no_input) initial_world
  = (Done tt,
     {| sess := initial_session;
        log := [Show Error "Error processing file: try later";
                Net (upload_request ("people.csv", "name,age"))] |}).
Proof.
  refine (proj1 (upload_needs_status_200 refusing_env
                   (press ProcessCSV no_input) initial_world
                   ("people.csv", "name,age") 503 "Service Unavailable"
                   "try later"
                   (inl (JSONDecodeError
                           "Expecting value: line 1 column 1 (char 0)"))
                   eq_refl eq_refl eq_refl) _).
  lia.
Defined.

Lemma partial_upload_answer_is_half_stored_witness :
  exists s',
    resume_file_gen_tab sloppy_env (press ProcessCSV no_input) initial_world
    = (Raise (KeyError "filename"),
       {| sess := s';
          log := [Net (upload_request ("people.csv", "name,age"))] |})
    /\ uploaded_file_id s' = PStr "f1"
    /\ rows_detected s' = None.
Proof.
  destruct (partial_upload_answer_is_half_stored sloppy_env
              (press ProcessCSV no_input) initial_world
              ("people.csv", "name,age") "OK" EmptyString
              [("file_id", PStr "f1")] (PStr "f1")
              eq_refl eq_refl eq_refl eq_refl eq_refl)
    as [s' [_ [Htab [Hid [_ Hrows]]]]].
  exists s'. split; [exact Htab |]. split; [exact Hid | exact Hrows].
Defined.

Lemma missing_row_count_locks_the_tab_witness :
  fst (resume_file_gen_tab demo_env (press UploadDifferentFile no_input)
         (uploaded None PNone))
  = Raise (AttributeError "st.session_state has no attribute rows_detected").
Proof.
  refine (f_equal fst
            (missing_row_count_locks_the_tab demo_env
               (press UploadDifferentFile no_input) (uploaded None PNone)
               eq_refl eq_refl _)).
  discriminate.
Defined.

Lemma unusable_row_count_breaks_the_form_witness :
  exists what,
    resume_file_gen_tab demo_env no_input (uploaded (Some PNone) PNone)
    = (Raise (TypeError what),
       file_shown demo_env (uploaded (Some PNone) PNone) PNone).
Proof.
  refine (proj2 (unusable_row_count_breaks_the_form demo_env no_input
                   (uploaded (Some PNone) PNone) PNone _ eq_refl eq_refl
                   eq_refl) eq_refl).
  discriminate.
Defined.

Lemma append_poll_maps_remote_status_witness :
  append_status demo_env no_input (sess (uploaded None (PStr "t1")))
    initial_world
  = (Done tt,
     {| sess := initial_session;
        log := [Show Error "Generation failed: model timeout";
                Show Info "Status: failed";
                Net (status_request demo_env (PStr "t1"))] |}).
Proof.
  refine (proj1 (proj2
            (append_poll_maps_remote_status demo_env no_input
               (sess (uploaded None (PStr "t1"))) initial_world
               200 "OK" EmptyString
               [("status", PStr "failed"); ("message", PStr "model timeout")]
               "failed" _ _ _)) eq_refl).
  - reflexivity.
  - lia.
  - reflexivity.
Defined.

Lemma pending_append_task_cannot_be_abandoned_witness :
  let w := uploaded (Some (PInt 250)) (PStr "t2") in
  let w' := snd (resume_file_gen_tab demo_env
                   (press StartNewAppendTask no_input) w) in
  fst (resume_file_gen_tab demo_env (press StartNewAppendTask no_input) w)
  = Rerun
  /\ append_task_id (sess w') = PStr "t2".
Proof.
  intros w w'. subst w'.
  rewrite (pending_append_task_cannot_be_abandoned demo_env
             (press StartNewAppendTask no_input) w (PInt 250) 10
             200 "OK" EmptyString [("status", PStr "pending")] "pending");
    try reflexivity; try discriminate; try lia.
  - split; reflexivity.
  - left. reflexivity.
Defined.

Lemma append_download_is_unguarded_witness :
  fst (append_status office_env no_input (sess (uploaded None (PStr "t4")))
         initial_world)
  = Raise (ConnectionError "Connection refused").
Proof.
  refine (proj1 (append_download_is_unguarded office_env no_input
                   (sess (uploaded None (PStr "t4"))) initial_world
                   200 "OK" EmptyString [("status", PStr "completed")]
                   _ _ _) "Connection refused" _).
  - reflexivity.
  - lia.
  - reflexivity.
  - reflexivity.
Defined.


Lemma pending_task_blocks_the_tabs_below_witness :
  script demo_env (press LoadSelectedTask no_input)
    (world_with (PStr "t2") PNone PNone)
  = (Rerun,
     {| sess := session_with (PStr "t2") PNone PNone;
        log := [Sleep 3;
                Show Warning
                  "Data generation is in progress... This may take some time.";
                Show Info "Status: pending";
                Net (status_request demo_env (PStr "t2"))] |}).
Proof.
  refine (pending_task_blocks_the_tabs_below demo_env
            (press LoadSelectedTask no_input)
            (world_with (PStr "t2") PNone PNone) 200 "OK" EmptyString
            [("status", PStr "pending")] "pending" _ _ _ _ _ _).
  - reflexivity.
  - reflexivity.
  - reflexivity.
  - lia.
  - reflexivity.
  - left. reflexivity.
Defined.

Lemma idle_page_only_lists_tasks_witness :
  sess (snd (script office_env no_input initial_world)) = initial_session
  /\ fst (script office_env no_input initial_world) <> Rerun.
Proof.
  destruct (idle_page_only_lists_tasks office_env no_input initial_world
              eq_refl eq_refl eq_refl) as [Hrun [Hsess _]].
  split; [exact Hsess | exact Hrun].
Defined.

Lemma cancel_touches_only_the_generation_state_witness :
  exists s',
    script refusing_env (press CancelTask no_input)
      (world_with (PStr "t1") (PStr "stale") (PStr "old.csv"))
    = (Rerun,
       {| sess := s';
          log := [Show Error
                    "API Error: 503 Server Error: Service Unavailable for url: http://localhost:8000/tasks/t1";
                  Net (delete_request refusing_env (PStr "t1"))] |})
    /\ task_id s' = PNone /\ columns s' = [age_column].
Proof.
  destruct (cancel_touches_only_the_generation_state refusing_env
              (press CancelTask no_input)
              (world_with (PStr "t1") (PStr "stale") (PStr "old.csv"))
              eq_refl eq_refl)
    as [Hback _].
  destruct (Hback eq_refl) as [s' [Hrun [Ht [_ [_ [Hc _]]]]]].
  exists s'. split; [exact Hrun |]. split; [exact Ht | exact Hc].
Defined.

Lemma failed_fetch_is_not_cached_witness :
  exists s',
    results_tab sloppy_env no_input (world_with (PStr "t3") PNone PNone)
    = (Done tt,
       {| sess := s';
          log := [Show Error
                    "API Error: 500 Server Error: Internal Server Error for url: http://localhost:8000/data/t3";
                  Net (data_request sloppy_env (PStr "t3"));
                  Show Info "Status: completed";
                  Net (status_request sloppy_env (PStr "t3"))] |})
    /\ data s' = PNone /\ task_id s' = PStr "t3".
Proof.
  destruct (failed_fetch_is_not_cached sloppy_env no_input
              (world_with (PStr "t3") PNone PNone) 200 "OK" EmptyString
              [("status", PStr "completed")]
              eq_refl eq_refl eq_refl ltac:(lia) eq_refl)
    as [Hcaught _].
  destruct (Hcaught ltac:(vm_compute; discriminate))
    as [s' [Hrun [Hd [Ht _]]]].
  exists s'. split; [exact Hrun |]. split; [exact Hd | exact Ht].
Defined.

Lemma default_rows_stay_within_bounds_witness :
  exists d, default_rows_to_append (PInt (-7)) = inr d /\ d = 1.
Proof.
  destruct (default_rows_stay_within_bounds (-7) ltac:(lia))
    as [d [Hd [_ [Hsmall _]]]].
  exists d. split; [exact Hd | apply Hsmall; lia].
Defined.

Lemma column_error_is_never_shown_witness :
  generate_data demo_env (press GenerateData no_input) initial_world
  = (Done tt,
     {| sess := initial_session;
        log := [Show Error "Please add at least one column"] |}).
Proof.
  exact (proj2 (column_error_is_never_shown demo_env
                  (press GenerateData no_input) initial_world) eq_refl).
Defined.

Lemma append_job_model_comes_from_the_form_witness :
  let i := press GenerateAndAppend no_input in
  let w := uploaded (Some (PInt 250)) PNone in
  let job := append_job_request i (sess w) 10 in
  In job (requests_of (log (snd (script office_env i w))))
  /\ (exists kv,
        rq_json job = Some (PDict kv)
        /\ lookup "model" kv = Some (PStr "gemma3:latest")
        /\ lookup "model_provider" kv = Some (PStr "google"))
  /\ ~ In "gemma3:latest" (MODEL_PROVIDERS_models google).
Proof.
  intros i w job.
  destruct (append_job_model_comes_from_the_form office_env i w)
    as [_ [_ [Hsend [_ [_ [_ Hodd]]]]]].
  destruct (Hsend (PInt 250) 10 200 "OK" EmptyString
              [listed "t3" "completed"; listed "t1" "failed"]
              eq_refl eq_refl eq_refl ltac:(lia) eq_refl eq_refl eq_refl
              eq_refl eq_refl)
    as [Hin [_ [kv [Hjson [Hmodel Hprovider]]]]].
  split; [exact Hin |]. split.
  - exists kv. split; [exact Hjson |]. split; [exact Hmodel | exact Hprovider].
  - exact (Hodd eq_refl eq_refl).
Defined.
